(** * Tender pipeline: scoring, filtering, monetary parsing, pagination, merging

    A shallow embedding of the pure core of the tender-acquisition pipeline:

    - [scrapers/base.py]        : [parse_inr]
    - [scrapers/models.py]      : the [Tender] record
    - [filters/tender_filter.py]: [_normalise], [_contains_any],
                                  [_contains_any_word], [score_tender],
                                  [filter_tenders]
    - [scrapers/cppp_scraper.py], [scrapers/defproc_scraper.py]:
                                  the pagination loop of [scrape]
    - [scrapers/hsl_scraper.py] : the merge step of [scrape]
    - [scrapers/gem_scraper.py] : the collect step of [_search_and_collect]

    and, around it,

    - [scrapers/base.py]        : [is_recent]
    - [scrapers/cppp_scraper.py], [scrapers/defproc_scraper.py]:
                                  the row loop of [_parse_nic_page] and the
                                  loop of [_scrape_with_playwright]
    - [scrapers/ap_scraper.py]  : the budget loop of [_parse_nic_page]
    - [scrapers/gem_scraper.py] : the page loop of [_search_and_collect] and
                                  the searches of [_scrape_with_playwright]
    - [main.py]                 : [run_scraper], on objects scored in place
    - [output_engine/excel_exporter.py]: [_score_fill]
    - [webapp.py]               : the keywords of [_to_dict], the progress of
                                  [_do_scrape], [trigger_scrape]

    Conventions of the embedding.

    - A Python [str] is a [string]: the sequence of its UTF-8 bytes.  The
      operations that go by characters ([lower], [strip], [isdigit], [float]
      and the regex classes [\w], [\b], [\d]) read the text character by
      character and follow the character tables of Python 3, which module
      [Unicode] holds; the operations that compare texts ([in], [replace],
      [startswith], [join]) go by bytes, which is the same on UTF-8.
    - A Python [int] is a [Z]; a page counter, which starts at 1 and only
      grows, is a [nat].
    - A Python [float] is an IEEE-754 binary64 value, a [spec_float] with
      precision 53 and maximal exponent 1024.
    - A naive [datetime] is the number of microseconds since
      0001-01-01T00:00:00, a [Z].
    - Code that can raise returns a [result]. *)

From Stdlib Require Import ZArith List String Ascii Bool Lia.
From Stdlib Require Import Sorting.Sorted Sorting.Permutation.
From Stdlib Require Import Floats.SpecFloat.
From stdpp Require Import base gmap strings list.

Import ListNotations.
Local Open Scope string_scope.
Local Open Scope Z_scope.

(** String concatenation unfolds on a constructor, as list concatenation does. *)
#[local] Arguments String.append !s1 s2 : simpl nomatch.

(* ===================================================================== *)
(** * Character tables of Python 3 (Unicode 14.0) *)
(* ===================================================================== *)

Module Unicode.

(** The code points [c] with [c.isspace()], as ranges. *)
Definition SPACE : list (N * N) :=
  [(9, 13); (28, 32); (133, 133); (160, 160); (5760, 5760); (8192, 8202);
   (8232, 8233); (8239, 8239); (8287, 8287); (12288, 12288)]%N.

(** The code points with [c.isdigit()]. *)
Definition DIGIT : list (N * N) :=
  [(48, 57); (178, 179); (185, 185); (1632, 1641); (1776, 1785);
   (1984, 1993); (2406, 2415); (2534, 2543); (2662, 2671); (2790, 2799);
   (2918, 2927); (3046, 3055); (3174, 3183); (3302, 3311); (3430, 3439);
   (3558, 3567); (3664, 3673); (3792, 3801); (3872, 3881); (4160, 4169);
   (4240, 4249); (4969, 4977); (6112, 6121); (6160, 6169); (6470, 6479);
   (6608, 6618); (6784, 6793); (6800, 6809); (6992, 7001); (7088, 7097);
   (7232, 7241); (7248, 7257); (8304, 8304); (8308, 8313); (8320, 8329);
   (9312, 9320); (9332, 9340); (9352, 9360); (9450, 9450); (9461, 9469);
   (9471, 9471); (10102, 10110); (10112, 10120); (10122, 10130);
   (42528, 42537); (43216, 43225); (43264, 43273); (43472, 43481);
   (43504, 43513); (43600, 43609); (44016, 44025); (65296, 65305);
   (66720, 66729); (68160, 68163); (68912, 68921); (69216, 69224);
   (69714, 69722); (69734, 69743); (69872, 69881); (69942, 69951);
   (70096, 70105); (70384, 70393); (70736, 70745); (70864, 70873);
   (71248, 71257); (71360, 71369); (71472, 71481); (71904, 71913);
   (72016, 72025); (72784, 72793); (73040, 73049); (73120, 73129);
   (92768, 92777); (92864, 92873); (93008, 93017); (120782, 120831);
   (123200, 123209); (123632, 123641); (125264, 125273); (127232, 127242);
   (130032, 130041)]%N.

(** The decimal digits (category Nd): the code points that [float] reads
    and that the regex class [\d] matches.  Every range starts at a digit
    zero and holds whole runs of the ten digits. *)
Definition DECIMAL : list (N * N) :=
  [(48, 57); (1632, 1641); (1776, 1785); (1984, 1993); (2406, 2415);
   (2534, 2543); (2662, 2671); (2790, 2799); (2918, 2927); (3046, 3055);
   (3174, 3183); (3302, 3311); (3430, 3439); (3558, 3567); (3664, 3673);
   (3792, 3801); (3872, 3881); (4160, 4169); (4240, 4249); (6112, 6121);
   (6160, 6169); (6470, 6479); (6608, 6617); (6784, 6793); (6800, 6809);
   (6992, 7001); (7088, 7097); (7232, 7241); (7248, 7257); (42528, 42537);
   (43216, 43225); (43264, 43273); (43472, 43481); (43504, 43513);
   (43600, 43609); (44016, 44025); (65296, 65305); (66720, 66729);
   (68912, 68921); (69734, 69743); (69872, 69881); (69942, 69951);
   (70096, 70105); (70384, 70393); (70736, 70745); (70864, 70873);
   (71248, 71257); (71360, 71369); (71472, 71481); (71904, 71913);
   (72016, 72025); (72784, 72793); (73040, 73049); (73120, 73129);
   (92768, 92777); (92864, 92873); (93008, 93017); (120782, 120831);
   (123200, 123209); (123632, 123641); (125264, 125273); (130032, 130041)]%N.

(** The code points that the regex class [\w] matches on [str]. *)
Definition WORD : list (N * N) :=
  [(48, 57); (65, 90); (95, 95); (97, 122); (170, 170); (178, 179);
   (181, 181); (185, 186); (188, 190); (192, 214); (216, 246); (248, 705);
   (710, 721); (736, 740); (748, 748); (750, 750); (880, 884); (886, 887);
   (890, 893); (895, 895); (902, 902); (904, 906); (908, 908); (910, 929);
   (931, 1013); (1015, 1153); (1162, 1327); (1329, 1366); (1369, 1369);
   (1376, 1416); (1488, 1514); (1519, 1522); (1568, 1610); (1632, 1641);
   (1646, 1647); (1649, 1747); (1749, 1749); (1765, 1766); (1774, 1788);
   (1791, 1791); (1808, 1808); (1810, 1839); (1869, 1957); (1969, 1969);
   (1984, 2026); (2036, 2037); (2042, 2042); (2048, 2069); (2074, 2074);
   (2084, 2084); (2088, 2088); (2112, 2136); (2144, 2154); (2160, 2183);
   (2185, 2190); (2208, 2249); (2308, 2361); (2365, 2365); (2384, 2384);
   (2392, 2401); (2406, 2415); (2417, 2432); (2437, 2444); (2447, 2448);
   (2451, 2472); (2474, 2480); (2482, 2482); (2486, 2489); (2493, 2493);
   (2510, 2510); (2524, 2525); (2527, 2529); (2534, 2545); (2548, 2553);
   (2556, 2556); (2565, 2570); (2575, 2576); (2579, 2600); (2602, 2608);
   (2610, 2611); (2613, 2614); (2616, 2617); (2649, 2652); (2654, 2654);
   (2662, 2671); (2674, 2676); (2693, 2701); (2703, 2705); (2707, 2728);
   (2730, 2736); (2738, 2739); (2741, 2745); (2749, 2749); (2768, 2768);
   (2784, 2785); (2790, 2799); (2809, 2809); (2821, 2828); (2831, 2832);
   (2835, 2856); (2858, 2864); (2866, 2867); (2869, 2873); (2877, 2877);
   (2908, 2909); (2911, 2913); (2918, 2927); (2929, 2935); (2947, 2947);
   (2949, 2954); (2958, 2960); (2962, 2965); (2969, 2970); (2972, 2972);
   (2974, 2975); (2979, 2980); (2984, 2986); (2990, 3001); (3024, 3024);
   (3046, 3058); (3077, 3084); (3086, 3088); (3090, 3112); (3114, 3129);
   (3133, 3133); (3160, 3162); (3165, 3165); (3168, 3169); (3174, 3183);
   (3192, 3198); (3200, 3200); (3205, 3212); (3214, 3216); (3218, 3240);
   (3242, 3251); (3253, 3257); (3261, 3261); (3293, 3294); (3296, 3297);
   (3302, 3311); (3313, 3314); (3332, 3340); (3342, 3344); (3346, 3386);
   (3389, 3389); (3406, 3406); (3412, 3414); (3416, 3425); (3430, 3448);
   (3450, 3455); (3461, 3478); (3482, 3505); (3507, 3515); (3517, 3517);
   (3520, 3526); (3558, 3567); (3585, 3632); (3634, 3635); (3648, 3654);
   (3664, 3673); (3713, 3714); (3716, 3716); (3718, 3722); (3724, 3747);
   (3749, 3749); (3751, 3760); (3762, 3763); (3773, 3773); (3776, 3780);
   (3782, 3782); (3792, 3801); (3804, 3807); (3840, 3840); (3872, 3891);
   (3904, 3911); (3913, 3948); (3976, 3980); (4096, 4138); (4159, 4169);
   (4176, 4181); (4186, 4189); (4193, 4193); (4197, 4198); (4206, 4208);
   (4213, 4225); (4238, 4238); (4240, 4249); (4256, 4293); (4295, 4295);
   (4301, 4301); (4304, 4346); (4348, 4680); (4682, 4685); (4688, 4694);
   (4696, 4696); (4698, 4701); (4704, 4744); (4746, 4749); (4752, 4784);
   (4786, 4789); (4792, 4798); (4800, 4800); (4802, 4805); (4808, 4822);
   (4824, 4880); (4882, 4885); (4888, 4954); (4969, 4988); (4992, 5007);
   (5024, 5109); (5112, 5117); (5121, 5740); (5743, 5759); (5761, 5786);
   (5792, 5866); (5870, 5880); (5888, 5905); (5919, 5937); (5952, 5969);
   (5984, 5996); (5998, 6000); (6016, 6067); (6103, 6103); (6108, 6108);
   (6112, 6121); (6128, 6137); (6160, 6169); (6176, 6264); (6272, 6276);
   (6279, 6312); (6314, 6314); (6320, 6389); (6400, 6430); (6470, 6509);
   (6512, 6516); (6528, 6571); (6576, 6601); (6608, 6618); (6656, 6678);
   (6688, 6740); (6784, 6793); (6800, 6809); (6823, 6823); (6917, 6963);
   (6981, 6988); (6992, 7001); (7043, 7072); (7086, 7141); (7168, 7203);
   (7232, 7241); (7245, 7293); (7296, 7304); (7312, 7354); (7357, 7359);
   (7401, 7404); (7406, 7411); (7413, 7414); (7418, 7418); (7424, 7615);
   (7680, 7957); (7960, 7965); (7968, 8005); (8008, 8013); (8016, 8023);
   (8025, 8025); (8027, 8027); (8029, 8029); (8031, 8061); (8064, 8116);
   (8118, 8124); (8126, 8126); (8130, 8132); (8134, 8140); (8144, 8147);
   (8150, 8155); (8160, 8172); (8178, 8180); (8182, 8188); (8304, 8305);
   (8308, 8313); (8319, 8329); (8336, 8348); (8450, 8450); (8455, 8455);
   (8458, 8467); (8469, 8469); (8473, 8477); (8484, 8484); (8486, 8486);
   (8488, 8488); (8490, 8493); (8495, 8505); (8508, 8511); (8517, 8521);
   (8526, 8526); (8528, 8585); (9312, 9371); (9450, 9471); (10102, 10131);
   (11264, 11492); (11499, 11502); (11506, 11507); (11517, 11517);
   (11520, 11557); (11559, 11559); (11565, 11565); (11568, 11623);
   (11631, 11631); (11648, 11670); (11680, 11686); (11688, 11694);
   (11696, 11702); (11704, 11710); (11712, 11718); (11720, 11726);
   (11728, 11734); (11736, 11742); (11823, 11823); (12293, 12295);
   (12321, 12329); (12337, 12341); (12344, 12348); (12353, 12438);
   (12445, 12447); (12449, 12538); (12540, 12543); (12549, 12591);
   (12593, 12686); (12690, 12693); (12704, 12735); (12784, 12799);
   (12832, 12841); (12872, 12879); (12881, 12895); (12928, 12937);
   (12977, 12991); (13312, 19903); (19968, 42124); (42192, 42237);
   (42240, 42508); (42512, 42539); (42560, 42606); (42623, 42653);
   (42656, 42735); (42775, 42783); (42786, 42888); (42891, 42954);
   (42960, 42961); (42963, 42963); (42965, 42969); (42994, 43009);
   (43011, 43013); (43015, 43018); (43020, 43042); (43056, 43061);
   (43072, 43123); (43138, 43187); (43216, 43225); (43250, 43255);
   (43259, 43259); (43261, 43262); (43264, 43301); (43312, 43334);
   (43360, 43388); (43396, 43442); (43471, 43481); (43488, 43492);
   (43494, 43518); (43520, 43560); (43584, 43586); (43588, 43595);
   (43600, 43609); (43616, 43638); (43642, 43642); (43646, 43695);
   (43697, 43697); (43701, 43702); (43705, 43709); (43712, 43712);
   (43714, 43714); (43739, 43741); (43744, 43754); (43762, 43764);
   (43777, 43782); (43785, 43790); (43793, 43798); (43808, 43814);
   (43816, 43822); (43824, 43866); (43868, 43881); (43888, 44002);
   (44016, 44025); (44032, 55203); (55216, 55238); (55243, 55291);
   (63744, 64109); (64112, 64217); (64256, 64262); (64275, 64279);
   (64285, 64285); (64287, 64296); (64298, 64310); (64312, 64316);
   (64318, 64318); (64320, 64321); (64323, 64324); (64326, 64433);
   (64467, 64829); (64848, 64911); (64914, 64967); (65008, 65019);
   (65136, 65140); (65142, 65276); (65296, 65305); (65313, 65338);
   (65345, 65370); (65382, 65470); (65474, 65479); (65482, 65487);
   (65490, 65495); (65498, 65500); (65536, 65547); (65549, 65574);
   (65576, 65594); (65596, 65597); (65599, 65613); (65616, 65629);
   (65664, 65786); (65799, 65843); (65856, 65912); (65930, 65931);
   (66176, 66204); (66208, 66256); (66273, 66299); (66304, 66339);
   (66349, 66378); (66384, 66421); (66432, 66461); (66464, 66499);
   (66504, 66511); (66513, 66517); (66560, 66717); (66720, 66729);
   (66736, 66771); (66776, 66811); (66816, 66855); (66864, 66915);
   (66928, 66938); (66940, 66954); (66956, 66962); (66964, 66965);
   (66967, 66977); (66979, 66993); (66995, 67001); (67003, 67004);
   (67072, 67382); (67392, 67413); (67424, 67431); (67456, 67461);
   (67463, 67504); (67506, 67514); (67584, 67589); (67592, 67592);
   (67594, 67637); (67639, 67640); (67644, 67644); (67647, 67669);
   (67672, 67702); (67705, 67742); (67751, 67759); (67808, 67826);
   (67828, 67829); (67835, 67867); (67872, 67897); (67968, 68023);
   (68028, 68047); (68050, 68096); (68112, 68115); (68117, 68119);
   (68121, 68149); (68160, 68168); (68192, 68222); (68224, 68255);
   (68288, 68295); (68297, 68324); (68331, 68335); (68352, 68405);
   (68416, 68437); (68440, 68466); (68472, 68497); (68521, 68527);
   (68608, 68680); (68736, 68786); (68800, 68850); (68858, 68899);
   (68912, 68921); (69216, 69246); (69248, 69289); (69296, 69297);
   (69376, 69415); (69424, 69445); (69457, 69460); (69488, 69505);
   (69552, 69579); (69600, 69622); (69635, 69687); (69714, 69743);
   (69745, 69746); (69749, 69749); (69763, 69807); (69840, 69864);
   (69872, 69881); (69891, 69926); (69942, 69951); (69956, 69956);
   (69959, 69959); (69968, 70002); (70006, 70006); (70019, 70066);
   (70081, 70084); (70096, 70106); (70108, 70108); (70113, 70132);
   (70144, 70161); (70163, 70187); (70272, 70278); (70280, 70280);
   (70282, 70285); (70287, 70301); (70303, 70312); (70320, 70366);
   (70384, 70393); (70405, 70412); (70415, 70416); (70419, 70440);
   (70442, 70448); (70450, 70451); (70453, 70457); (70461, 70461);
   (70480, 70480); (70493, 70497); (70656, 70708); (70727, 70730);
   (70736, 70745); (70751, 70753); (70784, 70831); (70852, 70853);
   (70855, 70855); (70864, 70873); (71040, 71086); (71128, 71131);
   (71168, 71215); (71236, 71236); (71248, 71257); (71296, 71338);
   (71352, 71352); (71360, 71369); (71424, 71450); (71472, 71483);
   (71488, 71494); (71680, 71723); (71840, 71922); (71935, 71942);
   (71945, 71945); (71948, 71955); (71957, 71958); (71960, 71983);
   (71999, 71999); (72001, 72001); (72016, 72025); (72096, 72103);
   (72106, 72144); (72161, 72161); (72163, 72163); (72192, 72192);
   (72203, 72242); (72250, 72250); (72272, 72272); (72284, 72329);
   (72349, 72349); (72368, 72440); (72704, 72712); (72714, 72750);
   (72768, 72768); (72784, 72812); (72818, 72847); (72960, 72966);
   (72968, 72969); (72971, 73008); (73030, 73030); (73040, 73049);
   (73056, 73061); (73063, 73064); (73066, 73097); (73112, 73112);
   (73120, 73129); (73440, 73458); (73648, 73648); (73664, 73684);
   (73728, 74649); (74752, 74862); (74880, 75075); (77712, 77808);
   (77824, 78894); (82944, 83526); (92160, 92728); (92736, 92766);
   (92768, 92777); (92784, 92862); (92864, 92873); (92880, 92909);
   (92928, 92975); (92992, 92995); (93008, 93017); (93019, 93025);
   (93027, 93047); (93053, 93071); (93760, 93846); (93952, 94026);
   (94032, 94032); (94099, 94111); (94176, 94177); (94179, 94179);
   (94208, 100343); (100352, 101589); (101632, 101640); (110576, 110579);
   (110581, 110587); (110589, 110590); (110592, 110882); (110928, 110930);
   (110948, 110951); (110960, 111355); (113664, 113770); (113776, 113788);
   (113792, 113800); (113808, 113817); (119520, 119539); (119648, 119672);
   (119808, 119892); (119894, 119964); (119966, 119967); (119970, 119970);
   (119973, 119974); (119977, 119980); (119982, 119993); (119995, 119995);
   (119997, 120003); (120005, 120069); (120071, 120074); (120077, 120084);
   (120086, 120092); (120094, 120121); (120123, 120126); (120128, 120132);
   (120134, 120134); (120138, 120144); (120146, 120485); (120488, 120512);
   (120514, 120538); (120540, 120570); (120572, 120596); (120598, 120628);
   (120630, 120654); (120656, 120686); (120688, 120712); (120714, 120744);
   (120746, 120770); (120772, 120779); (120782, 120831); (122624, 122654);
   (123136, 123180); (123191, 123197); (123200, 123209); (123214, 123214);
   (123536, 123565); (123584, 123627); (123632, 123641); (124896, 124902);
   (124904, 124907); (124909, 124910); (124912, 124926); (124928, 125124);
   (125127, 125135); (125184, 125251); (125259, 125259); (125264, 125273);
   (126065, 126123); (126125, 126127); (126129, 126132); (126209, 126253);
   (126255, 126269); (126464, 126467); (126469, 126495); (126497, 126498);
   (126500, 126500); (126503, 126503); (126505, 126514); (126516, 126519);
   (126521, 126521); (126523, 126523); (126530, 126530); (126535, 126535);
   (126537, 126537); (126539, 126539); (126541, 126543); (126545, 126546);
   (126548, 126548); (126551, 126551); (126553, 126553); (126555, 126555);
   (126557, 126557); (126559, 126559); (126561, 126562); (126564, 126564);
   (126567, 126570); (126572, 126578); (126580, 126583); (126585, 126588);
   (126590, 126590); (126592, 126601); (126603, 126619); (126625, 126627);
   (126629, 126633); (126635, 126651); (127232, 127244); (130032, 130041);
   (131072, 173791); (173824, 177976); (177984, 178205); (178208, 183969);
   (183984, 191456); (194560, 195101); (196608, 201546)]%N.

(** The lower-case mappings to one code point, in runs [(lo, hi, step, to)]:
    the code point [lo + k * step], up to [hi], maps to [to + k * step]. *)
Definition LOWER : list (N * N * N * N) :=
  [(65, 90, 1, 97); (192, 214, 1, 224); (216, 222, 1, 248);
   (256, 302, 2, 257); (306, 310, 2, 307); (313, 327, 2, 314);
   (330, 374, 2, 331); (376, 376, 1, 255); (377, 381, 2, 378);
   (385, 385, 1, 595); (386, 388, 2, 387); (390, 390, 1, 596);
   (391, 391, 1, 392); (393, 394, 1, 598); (395, 395, 1, 396);
   (398, 398, 1, 477); (399, 399, 1, 601); (400, 400, 1, 603);
   (401, 401, 1, 402); (403, 403, 1, 608); (404, 404, 1, 611);
   (406, 406, 1, 617); (407, 407, 1, 616); (408, 408, 1, 409);
   (412, 412, 1, 623); (413, 413, 1, 626); (415, 415, 1, 629);
   (416, 420, 2, 417); (422, 422, 1, 640); (423, 423, 1, 424);
   (425, 425, 1, 643); (428, 428, 1, 429); (430, 430, 1, 648);
   (431, 431, 1, 432); (433, 434, 1, 650); (435, 437, 2, 436);
   (439, 439, 1, 658); (440, 440, 1, 441); (444, 444, 1, 445);
   (452, 452, 1, 454); (453, 453, 1, 454); (455, 455, 1, 457);
   (456, 456, 1, 457); (458, 458, 1, 460); (459, 475, 2, 460);
   (478, 494, 2, 479); (497, 497, 1, 499); (498, 500, 2, 499);
   (502, 502, 1, 405); (503, 503, 1, 447); (504, 542, 2, 505);
   (544, 544, 1, 414); (546, 562, 2, 547); (570, 570, 1, 11365);
   (571, 571, 1, 572); (573, 573, 1, 410); (574, 574, 1, 11366);
   (577, 577, 1, 578); (579, 579, 1, 384); (580, 580, 1, 649);
   (581, 581, 1, 652); (582, 590, 2, 583); (880, 882, 2, 881);
   (886, 886, 1, 887); (895, 895, 1, 1011); (902, 902, 1, 940);
   (904, 906, 1, 941); (908, 908, 1, 972); (910, 911, 1, 973);
   (913, 929, 1, 945); (932, 939, 1, 964); (975, 975, 1, 983);
   (984, 1006, 2, 985); (1012, 1012, 1, 952); (1015, 1015, 1, 1016);
   (1017, 1017, 1, 1010); (1018, 1018, 1, 1019); (1021, 1023, 1, 891);
   (1024, 1039, 1, 1104); (1040, 1071, 1, 1072); (1120, 1152, 2, 1121);
   (1162, 1214, 2, 1163); (1216, 1216, 1, 1231); (1217, 1229, 2, 1218);
   (1232, 1326, 2, 1233); (1329, 1366, 1, 1377); (4256, 4293, 1, 11520);
   (4295, 4295, 1, 11559); (4301, 4301, 1, 11565); (5024, 5103, 1, 43888);
   (5104, 5109, 1, 5112); (7312, 7354, 1, 4304); (7357, 7359, 1, 4349);
   (7680, 7828, 2, 7681); (7838, 7838, 1, 223); (7840, 7934, 2, 7841);
   (7944, 7951, 1, 7936); (7960, 7965, 1, 7952); (7976, 7983, 1, 7968);
   (7992, 7999, 1, 7984); (8008, 8013, 1, 8000); (8025, 8031, 2, 8017);
   (8040, 8047, 1, 8032); (8072, 8079, 1, 8064); (8088, 8095, 1, 8080);
   (8104, 8111, 1, 8096); (8120, 8121, 1, 8112); (8122, 8123, 1, 8048);
   (8124, 8124, 1, 8115); (8136, 8139, 1, 8050); (8140, 8140, 1, 8131);
   (8152, 8153, 1, 8144); (8154, 8155, 1, 8054); (8168, 8169, 1, 8160);
   (8170, 8171, 1, 8058); (8172, 8172, 1, 8165); (8184, 8185, 1, 8056);
   (8186, 8187, 1, 8060); (8188, 8188, 1, 8179); (8486, 8486, 1, 969);
   (8490, 8490, 1, 107); (8491, 8491, 1, 229); (8498, 8498, 1, 8526);
   (8544, 8559, 1, 8560); (8579, 8579, 1, 8580); (9398, 9423, 1, 9424);
   (11264, 11311, 1, 11312); (11360, 11360, 1, 11361);
   (11362, 11362, 1, 619); (11363, 11363, 1, 7549); (11364, 11364, 1, 637);
   (11367, 11371, 2, 11368); (11373, 11373, 1, 593);
   (11374, 11374, 1, 625); (11375, 11375, 1, 592); (11376, 11376, 1, 594);
   (11378, 11378, 1, 11379); (11381, 11381, 1, 11382);
   (11390, 11391, 1, 575); (11392, 11490, 2, 11393);
   (11499, 11501, 2, 11500); (11506, 11506, 1, 11507);
   (42560, 42604, 2, 42561); (42624, 42650, 2, 42625);
   (42786, 42798, 2, 42787); (42802, 42862, 2, 42803);
   (42873, 42875, 2, 42874); (42877, 42877, 1, 7545);
   (42878, 42886, 2, 42879); (42891, 42891, 1, 42892);
   (42893, 42893, 1, 613); (42896, 42898, 2, 42897);
   (42902, 42920, 2, 42903); (42922, 42922, 1, 614);
   (42923, 42923, 1, 604); (42924, 42924, 1, 609); (42925, 42925, 1, 620);
   (42926, 42926, 1, 618); (42928, 42928, 1, 670); (42929, 42929, 1, 647);
   (42930, 42930, 1, 669); (42931, 42931, 1, 43859);
   (42932, 42946, 2, 42933); (42948, 42948, 1, 42900);
   (42949, 42949, 1, 642); (42950, 42950, 1, 7566);
   (42951, 42953, 2, 42952); (42960, 42960, 1, 42961);
   (42966, 42968, 2, 42967); (42997, 42997, 1, 42998);
   (65313, 65338, 1, 65345); (66560, 66599, 1, 66600);
   (66736, 66771, 1, 66776); (66928, 66928, 2, 66967);
   (66929, 66938, 1, 66968); (66940, 66954, 1, 66979);
   (66956, 66962, 1, 66995); (66964, 66965, 1, 67003);
   (68736, 68786, 1, 68800); (71840, 71871, 1, 71872);
   (93760, 93791, 1, 93792); (125184, 125217, 1, 125218)]%N.

(** The case-ignorable code points, which the final-sigma rule skips. *)
Definition CASE_IGNORABLE : list (N * N) :=
  [(39, 39); (46, 46); (58, 58); (94, 94); (96, 96); (168, 168);
   (173, 173); (175, 175); (180, 180); (183, 184); (688, 879); (884, 885);
   (890, 890); (900, 901); (903, 903); (1155, 1161); (1369, 1369);
   (1375, 1375); (1425, 1469); (1471, 1471); (1473, 1474); (1476, 1477);
   (1479, 1479); (1524, 1524); (1536, 1541); (1552, 1562); (1564, 1564);
   (1600, 1600); (1611, 1631); (1648, 1648); (1750, 1757); (1759, 1768);
   (1770, 1773); (1807, 1807); (1809, 1809); (1840, 1866); (1958, 1968);
   (2027, 2037); (2042, 2042); (2045, 2045); (2070, 2093); (2137, 2139);
   (2184, 2184); (2192, 2193); (2200, 2207); (2249, 2306); (2362, 2362);
   (2364, 2364); (2369, 2376); (2381, 2381); (2385, 2391); (2402, 2403);
   (2417, 2417); (2433, 2433); (2492, 2492); (2497, 2500); (2509, 2509);
   (2530, 2531); (2558, 2558); (2561, 2562); (2620, 2620); (2625, 2626);
   (2631, 2632); (2635, 2637); (2641, 2641); (2672, 2673); (2677, 2677);
   (2689, 2690); (2748, 2748); (2753, 2757); (2759, 2760); (2765, 2765);
   (2786, 2787); (2810, 2815); (2817, 2817); (2876, 2876); (2879, 2879);
   (2881, 2884); (2893, 2893); (2901, 2902); (2914, 2915); (2946, 2946);
   (3008, 3008); (3021, 3021); (3072, 3072); (3076, 3076); (3132, 3132);
   (3134, 3136); (3142, 3144); (3146, 3149); (3157, 3158); (3170, 3171);
   (3201, 3201); (3260, 3260); (3263, 3263); (3270, 3270); (3276, 3277);
   (3298, 3299); (3328, 3329); (3387, 3388); (3393, 3396); (3405, 3405);
   (3426, 3427); (3457, 3457); (3530, 3530); (3538, 3540); (3542, 3542);
   (3633, 3633); (3636, 3642); (3654, 3662); (3761, 3761); (3764, 3772);
   (3782, 3782); (3784, 3789); (3864, 3865); (3893, 3893); (3895, 3895);
   (3897, 3897); (3953, 3966); (3968, 3972); (3974, 3975); (3981, 3991);
   (3993, 4028); (4038, 4038); (4141, 4144); (4146, 4151); (4153, 4154);
   (4157, 4158); (4184, 4185); (4190, 4192); (4209, 4212); (4226, 4226);
   (4229, 4230); (4237, 4237); (4253, 4253); (4348, 4348); (4957, 4959);
   (5906, 5908); (5938, 5939); (5970, 5971); (6002, 6003); (6068, 6069);
   (6071, 6077); (6086, 6086); (6089, 6099); (6103, 6103); (6109, 6109);
   (6155, 6159); (6211, 6211); (6277, 6278); (6313, 6313); (6432, 6434);
   (6439, 6440); (6450, 6450); (6457, 6459); (6679, 6680); (6683, 6683);
   (6742, 6742); (6744, 6750); (6752, 6752); (6754, 6754); (6757, 6764);
   (6771, 6780); (6783, 6783); (6823, 6823); (6832, 6862); (6912, 6915);
   (6964, 6964); (6966, 6970); (6972, 6972); (6978, 6978); (7019, 7027);
   (7040, 7041); (7074, 7077); (7080, 7081); (7083, 7085); (7142, 7142);
   (7144, 7145); (7149, 7149); (7151, 7153); (7212, 7219); (7222, 7223);
   (7288, 7293); (7376, 7378); (7380, 7392); (7394, 7400); (7405, 7405);
   (7412, 7412); (7416, 7417); (7468, 7530); (7544, 7544); (7579, 7679);
   (8125, 8125); (8127, 8129); (8141, 8143); (8157, 8159); (8173, 8175);
   (8189, 8190); (8203, 8207); (8216, 8217); (8228, 8228); (8231, 8231);
   (8234, 8238); (8288, 8292); (8294, 8303); (8305, 8305); (8319, 8319);
   (8336, 8348); (8400, 8432); (11388, 11389); (11503, 11505);
   (11631, 11631); (11647, 11647); (11744, 11775); (11823, 11823);
   (12293, 12293); (12330, 12333); (12337, 12341); (12347, 12347);
   (12441, 12446); (12540, 12542); (40981, 40981); (42232, 42237);
   (42508, 42508); (42607, 42610); (42612, 42621); (42623, 42623);
   (42652, 42655); (42736, 42737); (42752, 42785); (42864, 42864);
   (42888, 42890); (42994, 42996); (43000, 43001); (43010, 43010);
   (43014, 43014); (43019, 43019); (43045, 43046); (43052, 43052);
   (43204, 43205); (43232, 43249); (43263, 43263); (43302, 43309);
   (43335, 43345); (43392, 43394); (43443, 43443); (43446, 43449);
   (43452, 43453); (43471, 43471); (43493, 43494); (43561, 43566);
   (43569, 43570); (43573, 43574); (43587, 43587); (43596, 43596);
   (43632, 43632); (43644, 43644); (43696, 43696); (43698, 43700);
   (43703, 43704); (43710, 43711); (43713, 43713); (43741, 43741);
   (43756, 43757); (43763, 43764); (43766, 43766); (43867, 43871);
   (43881, 43883); (44005, 44005); (44008, 44008); (44013, 44013);
   (64286, 64286); (64434, 64450); (65024, 65039); (65043, 65043);
   (65056, 65071); (65106, 65106); (65109, 65109); (65279, 65279);
   (65287, 65287); (65294, 65294); (65306, 65306); (65342, 65342);
   (65344, 65344); (65392, 65392); (65438, 65439); (65507, 65507);
   (65529, 65531); (66045, 66045); (66272, 66272); (66422, 66426);
   (67456, 67461); (67463, 67504); (67506, 67514); (68097, 68099);
   (68101, 68102); (68108, 68111); (68152, 68154); (68159, 68159);
   (68325, 68326); (68900, 68903); (69291, 69292); (69446, 69456);
   (69506, 69509); (69633, 69633); (69688, 69702); (69744, 69744);
   (69747, 69748); (69759, 69761); (69811, 69814); (69817, 69818);
   (69821, 69821); (69826, 69826); (69837, 69837); (69888, 69890);
   (69927, 69931); (69933, 69940); (70003, 70003); (70016, 70017);
   (70070, 70078); (70089, 70092); (70095, 70095); (70191, 70193);
   (70196, 70196); (70198, 70199); (70206, 70206); (70367, 70367);
   (70371, 70378); (70400, 70401); (70459, 70460); (70464, 70464);
   (70502, 70508); (70512, 70516); (70712, 70719); (70722, 70724);
   (70726, 70726); (70750, 70750); (70835, 70840); (70842, 70842);
   (70847, 70848); (70850, 70851); (71090, 71093); (71100, 71101);
   (71103, 71104); (71132, 71133); (71219, 71226); (71229, 71229);
   (71231, 71232); (71339, 71339); (71341, 71341); (71344, 71349);
   (71351, 71351); (71453, 71455); (71458, 71461); (71463, 71467);
   (71727, 71735); (71737, 71738); (71995, 71996); (71998, 71998);
   (72003, 72003); (72148, 72151); (72154, 72155); (72160, 72160);
   (72193, 72202); (72243, 72248); (72251, 72254); (72263, 72263);
   (72273, 72278); (72281, 72283); (72330, 72342); (72344, 72345);
   (72752, 72758); (72760, 72765); (72767, 72767); (72850, 72871);
   (72874, 72880); (72882, 72883); (72885, 72886); (73009, 73014);
   (73018, 73018); (73020, 73021); (73023, 73029); (73031, 73031);
   (73104, 73105); (73109, 73109); (73111, 73111); (73459, 73460);
   (78896, 78904); (92912, 92916); (92976, 92982); (92992, 92995);
   (94031, 94031); (94095, 94111); (94176, 94177); (94179, 94180);
   (110576, 110579); (110581, 110587); (110589, 110590); (113821, 113822);
   (113824, 113827); (118528, 118573); (118576, 118598); (119143, 119145);
   (119155, 119170); (119173, 119179); (119210, 119213); (119362, 119364);
   (121344, 121398); (121403, 121452); (121461, 121461); (121476, 121476);
   (121499, 121503); (121505, 121519); (122880, 122886); (122888, 122904);
   (122907, 122913); (122915, 122916); (122918, 122922); (123184, 123197);
   (123566, 123566); (123628, 123631); (125136, 125142); (125252, 125259);
   (127995, 127999); (917505, 917505); (917536, 917631); (917760, 917999)]%N.

(** The cased code points among those that are not case-ignorable. *)
Definition CASED : list (N * N) :=
  [(65, 90); (97, 122); (170, 170); (181, 181); (186, 186); (192, 214);
   (216, 246); (248, 442); (444, 447); (452, 659); (661, 687); (880, 883);
   (886, 887); (891, 893); (895, 895); (902, 902); (904, 906); (908, 908);
   (910, 929); (931, 1013); (1015, 1153); (1162, 1327); (1329, 1366);
   (1376, 1416); (4256, 4293); (4295, 4295); (4301, 4301); (4304, 4346);
   (4349, 4351); (5024, 5109); (5112, 5117); (7296, 7304); (7312, 7354);
   (7357, 7359); (7424, 7467); (7531, 7543); (7545, 7578); (7680, 7957);
   (7960, 7965); (7968, 8005); (8008, 8013); (8016, 8023); (8025, 8025);
   (8027, 8027); (8029, 8029); (8031, 8061); (8064, 8116); (8118, 8124);
   (8126, 8126); (8130, 8132); (8134, 8140); (8144, 8147); (8150, 8155);
   (8160, 8172); (8178, 8180); (8182, 8188); (8450, 8450); (8455, 8455);
   (8458, 8467); (8469, 8469); (8473, 8477); (8484, 8484); (8486, 8486);
   (8488, 8488); (8490, 8493); (8495, 8500); (8505, 8505); (8508, 8511);
   (8517, 8521); (8526, 8526); (8544, 8575); (8579, 8580); (9398, 9449);
   (11264, 11387); (11390, 11492); (11499, 11502); (11506, 11507);
   (11520, 11557); (11559, 11559); (11565, 11565); (42560, 42605);
   (42624, 42651); (42786, 42863); (42865, 42887); (42891, 42894);
   (42896, 42954); (42960, 42961); (42963, 42963); (42965, 42969);
   (42997, 42998); (43002, 43002); (43824, 43866); (43872, 43880);
   (43888, 43967); (64256, 64262); (64275, 64279); (65313, 65338);
   (65345, 65370); (66560, 66639); (66736, 66771); (66776, 66811);
   (66928, 66938); (66940, 66954); (66956, 66962); (66964, 66965);
   (66967, 66977); (66979, 66993); (66995, 67001); (67003, 67004);
   (68736, 68786); (68800, 68850); (71840, 71903); (93760, 93823);
   (119808, 119892); (119894, 119964); (119966, 119967); (119970, 119970);
   (119973, 119974); (119977, 119980); (119982, 119993); (119995, 119995);
   (119997, 120003); (120005, 120069); (120071, 120074); (120077, 120084);
   (120086, 120092); (120094, 120121); (120123, 120126); (120128, 120132);
   (120134, 120134); (120138, 120144); (120146, 120485); (120488, 120512);
   (120514, 120538); (120540, 120570); (120572, 120596); (120598, 120628);
   (120630, 120654); (120656, 120686); (120688, 120712); (120714, 120744);
   (120746, 120770); (120772, 120779); (122624, 122633); (122635, 122654);
   (125184, 125251); (127280, 127305); (127312, 127337); (127344, 127369)]%N.

Definition in_ranges (ranges : list (N * N)) (c : N) : bool :=
  existsb (fun r => N.leb (fst r) c && N.leb c (snd r)) ranges.

(** [c.isspace()], [c.isdigit()], the regex class [\w]. *)
Definition isspace (c : N) : bool := in_ranges SPACE c.
Definition isdigit (c : N) : bool := in_ranges DIGIT c.
Definition is_word (c : N) : bool := in_ranges WORD c.

(** The value of a decimal digit, [None] for any other code point. *)
Definition decimal (c : N) : option Z :=
  match List.find (fun r => N.leb (fst r) c && N.leb c (snd r)) DECIMAL with
  | Some (lo, _) => Some (Z.of_N ((c - lo) mod 10))
  | None => None
  end.

Definition in_run (c : N) (run : N * N * N * N) : bool :=
  let '(lo, hi, step, _) := run in
  N.leb lo c && N.leb c hi && N.eqb ((c - lo) mod step) 0.

(** The lower-case form of one code point, out of context: U+0130 is the
    only one with a form of two code points. *)
Definition lower_char (c : N) : list N :=
  match List.find (in_run c) LOWER with
  | Some (lo, _, _, to) => [(to + (c - lo))%N]
  | None => if N.eqb c 304 then [105; 775]%N else [c]
  end.

Definition case_ignorable (c : N) : bool := in_ranges CASE_IGNORABLE c.
Definition cased (c : N) : bool := in_ranges CASED c.

End Unicode.

(* ===================================================================== *)
(** * UTF-8 *)
(* ===================================================================== *)

Module Utf8.

Definition byte (c : ascii) : N := N_of_ascii c.

(** A continuation byte, [10xxxxxx]. *)
Definition is_cont (c : ascii) : bool :=
  N.leb 128 (byte c) && N.ltb (byte c) 192.

(** [acc] extended by the continuation bytes at the head of [s], at most
    [k] of them. *)
Fixpoint tail_value (k : nat) (acc : N) (s : string) : N :=
  match k, s with
  | S k', String c r =>
      if is_cont c then tail_value k' (acc * 64 + (byte c - 128)) r else acc
  | _, _ => acc
  end.

(** The code point of the character that starts at the head of [s]; [None]
    when [s] is empty or its first byte is a continuation byte. *)
Definition head_cp (s : string) : option N :=
  match s with
  | EmptyString => None
  | String c r =>
      let b := byte c in
      if N.ltb b 128 then Some b
      else if N.ltb b 192 then None
      else if N.ltb b 224 then Some (tail_value 1 (b - 192) r)
      else if N.ltb b 240 then Some (tail_value 2 (b - 224) r)
      else Some (tail_value 3 (b - 240) r)
  end.

(** The code points of a text. *)
Fixpoint decode (s : string) : list N :=
  match s with
  | EmptyString => []
  | String c r =>
      match head_cp (String c r) with
      | Some cp => cp :: decode r
      | None => decode r
      end
  end.

Definition chr (n : N) : ascii := ascii_of_N n.

Definition encode1 (c : N) : string :=
  if N.ltb c 128 then String (chr c) EmptyString
  else if N.ltb c 2048 then
    String (chr (192 + c / 64)) (String (chr (128 + c mod 64)) EmptyString)
  else if N.ltb c 65536 then
    String (chr (224 + c / 4096))
      (String (chr (128 + (c / 64) mod 64))
         (String (chr (128 + c mod 64)) EmptyString))
  else
    String (chr (240 + c / 262144))
      (String (chr (128 + (c / 4096) mod 64))
         (String (chr (128 + (c / 64) mod 64))
            (String (chr (128 + c mod 64)) EmptyString))).

Fixpoint encode (l : list N) : string :=
  match l with
  | [] => EmptyString
  | c :: r => encode1 c ++ encode r
  end.

(** The text starts a character, or is empty. *)
Definition char_start (s : string) : bool :=
  match s with
  | EmptyString => true
  | String c _ => negb (is_cont c)
  end.

End Utf8.

(* ===================================================================== *)
(** * Python strings *)
(* ===================================================================== *)

Module PyStr.

Definition is_empty (s : string) : bool :=
  match s with EmptyString => true | String _ _ => false end.

(** After case-ignorable characters, the text goes on with a cased one. *)
Fixpoint cased_follows (s : string) : bool :=
  match s with
  | EmptyString => false
  | String c r =>
      match Utf8.head_cp (String c r) with
      | Some cp =>
          if Unicode.case_ignorable cp then cased_follows r else Unicode.cased cp
      | None => cased_follows r
      end
  end.

(** The lower-case form of the code point [cp], [rest] being the text
    after it and [before] telling whether the last character before it that
    is not case-ignorable is cased.  A capital sigma (U+03A3) becomes the
    final sigma (U+03C2) at the end of a word and a small sigma (U+03C3)
    elsewhere. *)
Definition lower_cp (before : bool) (rest : string) (cp : N) : list N :=
  if N.eqb cp 931
  then [if before && negb (cased_follows rest) then 962%N else 963%N]
  else Unicode.lower_char cp.

Definition unchanged (out : list N) (cp : N) : bool :=
  match out with
  | [c] => N.eqb c cp
  | _ => false
  end.

(** [s.lower()], character by character.  [skip] holds while the
    continuation bytes of a character that was replaced go by. *)
Fixpoint lower_from (skip before : bool) (s : string) : string :=
  match s with
  | EmptyString => EmptyString
  | String c r =>
      match Utf8.head_cp (String c r) with
      | None => if skip then lower_from skip before r
                else String c (lower_from skip before r)
      | Some cp =>
          let before' :=
            if Unicode.case_ignorable cp then before else Unicode.cased cp in
          let out := lower_cp before r cp in
          if unchanged out cp then String c (lower_from false before' r)
          else Utf8.encode out ++ lower_from true before' r
      end
  end.

Definition lower (s : string) : string := lower_from false false s.

(** The text starts with a whitespace character. *)
Definition is_space_at (s : string) : bool :=
  match Utf8.head_cp s with
  | Some cp => Unicode.isspace cp
  | None => false
  end.

Fixpoint lstrip_from (skip : bool) (s : string) : string :=
  match s with
  | EmptyString => EmptyString
  | String c r =>
      if Utf8.is_cont c then (if skip then lstrip_from skip r else s)
      else if is_space_at (String c r) then lstrip_from true r
      else s
  end.

Definition lstrip (s : string) : string := lstrip_from false s.

Fixpoint all_cont (s : string) : bool :=
  match s with
  | EmptyString => true
  | String c r => Utf8.is_cont c && all_cont r
  end.

Fixpoint rstrip (s : string) : string :=
  match s with
  | EmptyString => EmptyString
  | String c r =>
      let r' := rstrip r in
      if all_cont r' && is_space_at (String c r') then EmptyString
      else String c r'
  end.

(** [s.strip()] *)
Definition strip (s : string) : string := rstrip (lstrip s).

(** [sub in s] *)
Fixpoint contains (sub s : string) : bool :=
  String.prefix sub s
  || match s with
     | EmptyString => false
     | String _ r => contains sub r
     end.

(** [s.replace(old, new)] for a non-empty [old]: the occurrences of [old]
    are replaced from left to right, without overlap.  [skip] counts the
    characters of a matched occurrence still to be dropped. *)
Fixpoint replace_from (old new : string) (skip : nat) (s : string) : string :=
  match s with
  | EmptyString => EmptyString
  | String c r =>
      match skip with
      | S k => replace_from old new k r
      | O =>
          if String.prefix old s
          then new ++ replace_from old new (String.length old - 1) r
          else String c (replace_from old new 0 r)
      end
  end.

Definition replace (old new s : string) : string := replace_from old new 0 s.

(** ["".join(c for c in s if p(c))]: [keeping] tells whether the character
    whose continuation bytes go by was kept. *)
Fixpoint keep_from (keeping : bool) (p : N -> bool) (s : string) : string :=
  match s with
  | EmptyString => EmptyString
  | String c r =>
      match Utf8.head_cp (String c r) with
      | None => if keeping then String c (keep_from keeping p r)
                else keep_from keeping p r
      | Some cp => if p cp then String c (keep_from true p r)
                   else keep_from false p r
      end
  end.

Definition keep (p : N -> bool) (s : string) : string := keep_from false p s.

(** [sep.join(parts)] *)
Fixpoint join (sep : string) (parts : list string) : string :=
  match parts with
  | [] => EmptyString
  | [p] => p
  | p :: rest => p ++ sep ++ join sep rest
  end.

End PyStr.

(* ===================================================================== *)
(** * Exceptions *)
(* ===================================================================== *)

Inductive exn : Type :=
| ValueError
| TypeError
| OverflowError.

Inductive result (A : Type) : Type :=
| Ok (a : A)
| Raise (e : exn).

Arguments Ok {A} a.
Arguments Raise {A} e.

Definition bind {A B : Type} (r : result A) (k : A -> result B) : result B :=
  match r with
  | Ok a => k a
  | Raise e => Raise e
  end.

Notation "'let!' x ':=' r 'in' k" := (bind r (fun x => k))
  (at level 10, x name, r at level 100, k at level 200).

(** [try: body except ValueError: handler] *)
Definition try_except_ValueError {A : Type} (body handler : result A) : result A :=
  match body with
  | Raise ValueError => handler
  | other => other
  end.

(* ===================================================================== *)
(** * Python floats *)
(* ===================================================================== *)

Module PyFloat.

Definition prec : Z := 53.
Definition emax : Z := 1024.

Definition float : Type := spec_float.

(** [float(n)] for an integer [n]. *)
Definition of_Z (n : Z) : float := binary_normalize prec emax n 0 false.

(** The binary64 value nearest to [m / d] (ties to even), [d > 0]. *)
Definition of_ratio (m d : positive) : float :=
  let '(q, e, l) := SFdiv_core_binary prec emax (Zpos m) 0 (Zpos d) 0 in
  binary_round_aux prec emax false q e l.

Definition mul (x y : float) : float := SFmul prec emax x y.
Definition leb (x y : float) : bool := SFleb x y.

Definition inf : float := S754_infinity false.

(** The integer written by a list of digit values, most significant first,
    continuing from [acc]. *)
Fixpoint digits_value (acc : Z) (digits : list Z) : Z :=
  match digits with
  | [] => acc
  | d :: r => digits_value (10 * acc + d) r
  end.

(** The values of the characters when all of them are decimal digits, of
    any script. *)
Fixpoint digits_of (chars : list N) : option (list Z) :=
  match chars with
  | [] => Some []
  | c :: r =>
      match Unicode.decimal c, digits_of r with
      | Some d, Some ds => Some (d :: ds)
      | _, _ => None
      end
  end.

(** Splits at the first ['.']: the part before it, and the part after it
    when there is one. *)
Fixpoint split_dot (chars : list N) : list N * option (list N) :=
  match chars with
  | [] => ([], None)
  | c :: r =>
      if N.eqb c 46
      then ([], Some r)
      else let '(a, b) := split_dot r in (c :: a, b)
  end.

Definition is_nil {A : Type} (l : list A) : bool :=
  match l with [] => true | _ :: _ => false end.

(** The decimal literals made of digits and dots only:
    [digits], [digits.], [.digits] and [digits.digits].
    Returns the digits of the integer part and of the fraction. *)
Definition decimal_literal (s : string) : option (list Z * list Z) :=
  let '(ip, fp) := split_dot (Utf8.decode s) in
  let fp := match fp with Some f => f | None => [] end in
  match digits_of ip, digits_of fp with
  | Some ip, Some fp =>
      if is_nil ip && is_nil fp then None else Some (ip, fp)
  | _, _ => None
  end.

(** [float(s)] for a string [s] of digits (characters with [isdigit()])
    and dots, the only strings [parse_inr] passes to it: the correctly
    rounded value of the decimal literal, [ValueError] when [s] is not one.
    A decimal digit of any script counts with its value; a digit character
    that is not a decimal digit, such as a superscript, is refused. *)
Definition of_string (s : string) : result float :=
  match decimal_literal s with
  | None => Raise ValueError
  | Some (ip, fp) =>
      match digits_value 0 (ip ++ fp)%list with
      | Zpos m => Ok (of_ratio m (Z.to_pos (10 ^ Z.of_nat (List.length fp))))
      | _ => Ok (S754_zero false)
      end
  end.

(** The exact value of a finite float is [m * 2 ^ e], negated when [s]
    holds.  [n <= f] and [f <= n] for an integer [n], as Python compares an
    [int] with a [float]: on the exact values, without rounding [n]. *)
Definition int_leb (n : Z) (f : float) : bool :=
  match f with
  | S754_nan => false
  | S754_infinity s => negb s
  | S754_zero _ => n <=? 0
  | S754_finite s m e =>
      let v := if s then Zneg m else Zpos m in
      if 0 <=? e then n <=? v * 2 ^ e else n * 2 ^ (- e) <=? v
  end.

Definition leb_int (f : float) (n : Z) : bool :=
  match f with
  | S754_nan => false
  | S754_infinity s => s
  | S754_zero _ => 0 <=? n
  | S754_finite s m e =>
      let v := if s then Zneg m else Zpos m in
      if 0 <=? e then v * 2 ^ e <=? n else v <=? n * 2 ^ (- e)
  end.

End PyFloat.

(* ===================================================================== *)
(** * The pattern [\b literal \b] of Python's [re] *)
(* ===================================================================== *)

Module PyRe.

Fixpoint drop (n : nat) (s : string) : string :=
  match n, s with
  | S k, String _ r => drop k r
  | _, _ => s
  end.

Definition is_word_opt (c : option N) : bool :=
  match c with
  | Some c => Unicode.is_word c
  | None => false
  end.

(** [\b]: exactly one of the two neighbours is a word character; the two
    ends of the text count as non-word. *)
Definition at_boundary (prev next : option N) : bool :=
  xorb (is_word_opt prev) (is_word_opt next).

(** The last character that starts in [lit], read in the text
    [lit ++ rest]; [prev] when no character starts in [lit]. *)
Fixpoint last_cp (prev : option N) (lit rest : string) : option N :=
  match lit with
  | EmptyString => prev
  | String c l =>
      last_cp (if Utf8.is_cont c then prev
               else Utf8.head_cp (String c (l ++ rest)))
        l rest
  end.

(** The pattern [\b] + [re.escape(lit)] + [\b] matches at the start of [s],
    [prev] being the character before [s] in the searched text. *)
Definition match_at (prev : option N) (lit s : string) : bool :=
  at_boundary prev (Utf8.head_cp s)
  && String.prefix lit s
  && at_boundary (last_cp prev lit (drop (String.length lit) s))
       (Utf8.head_cp (drop (String.length lit) s)).

(** The search tries every position where a character starts, and the end
    of the text. *)
Fixpoint search_from (prev : option N) (lit s : string) : bool :=
  match s with
  | EmptyString => match_at prev lit EmptyString
  | String c r =>
      if Utf8.is_cont c then search_from prev lit r
      else match_at prev lit (String c r)
           || search_from (Utf8.head_cp (String c r)) lit r
  end.

(** [re.search(r"\b" + re.escape(lit) + r"\b", s)] finds a match. *)
Definition search_word (lit s : string) : bool := search_from None lit s.

End PyRe.

(* ===================================================================== *)
(** * scrapers/models.py *)
(* ===================================================================== *)

Definition datetime : Type := Z.

(** [datetime.max], 9999-12-31T23:59:59.999999. *)
Definition datetime_max : datetime := 3652059 * 86400000000 - 1.

Record Tender : Type := mkTender {
  tender_id : string;
  title : string;
  portal : string;
  department : string;
  location : string;
  budget_min : option PyFloat.float;
  budget_max : option PyFloat.float;
  budget_raw : string;
  published_date : option datetime;
  deadline : option datetime;
  category : string;
  description : string;
  url : string;
  match_score : Z;
  matched_keywords : list string;
  budget_in_range : option bool;
  location_match : bool
}.

(** [Tender()] with the defaults of the dataclass. *)
Definition Tender_default : Tender :=
  {| tender_id := ""; title := ""; portal := ""; department := "";
     location := ""; budget_min := None; budget_max := None;
     budget_raw := ""; published_date := None; deadline := None;
     category := ""; description := ""; url := ""; match_score := 0;
     matched_keywords := []; budget_in_range := None;
     location_match := false |}.

(** Attribute assignments [tender.<field> = v]. *)
Definition set_match_score (v : Z) (t : Tender) : Tender :=
  mkTender (tender_id t) (title t) (portal t) (department t) (location t)
    (budget_min t) (budget_max t) (budget_raw t) (published_date t)
    (deadline t) (category t) (description t) (url t)
    v (matched_keywords t) (budget_in_range t) (location_match t).

Definition set_matched_keywords (v : list string) (t : Tender) : Tender :=
  mkTender (tender_id t) (title t) (portal t) (department t) (location t)
    (budget_min t) (budget_max t) (budget_raw t) (published_date t)
    (deadline t) (category t) (description t) (url t)
    (match_score t) v (budget_in_range t) (location_match t).

Definition set_budget_in_range (v : option bool) (t : Tender) : Tender :=
  mkTender (tender_id t) (title t) (portal t) (department t) (location t)
    (budget_min t) (budget_max t) (budget_raw t) (published_date t)
    (deadline t) (category t) (description t) (url t)
    (match_score t) (matched_keywords t) v (location_match t).

Definition set_location_match (v : bool) (t : Tender) : Tender :=
  mkTender (tender_id t) (title t) (portal t) (department t) (location t)
    (budget_min t) (budget_max t) (budget_raw t) (published_date t)
    (deadline t) (category t) (description t) (url t)
    (match_score t) (matched_keywords t) (budget_in_range t) v.

(** A Python number: an [int] or a [float].  [a <= b] compares the exact
    values. *)
Inductive number : Type :=
| Int (n : Z)
| Float (f : PyFloat.float).

Definition number_leb (a b : number) : bool :=
  match a, b with
  | Int x, Int y => x <=? y
  | Int x, Float g => PyFloat.int_leb x g
  | Float f, Int y => PyFloat.leb_int f y
  | Float f, Float g => PyFloat.leb f g
  end.

(** The profile dictionary: a key that is absent is [None], and every read
    is a [profile.get(key, default)].  The bounds of the budget range are
    numbers: config.py and the settings page store them as [int]. *)
Record BudgetRange : Type := mkBudgetRange {
  range_min : option number;
  range_max : option number
}.

Record Profile : Type := mkProfile {
  exclude_keywords : option (list string);
  work_keywords : option (list string);
  locations : option (list string);
  budget_range : option BudgetRange
}.

Definition get {A : Type} (field : option A) (dflt : A) : A :=
  match field with
  | Some v => v
  | None => dflt
  end.

(* ===================================================================== *)
(** * scrapers/base.py *)
(* ===================================================================== *)

Module Base.

(** [c.isdigit() or c == "."] *)
Definition digit_or_dot (c : N) : bool :=
  Unicode.isdigit c || N.eqb c 46.

(** The cleaning line of [parse_inr]:
    [text.strip().replace(",", "").replace("₹", "").replace("Rs.", "").strip()] *)
Definition clean (text : string) : string :=
  PyStr.strip
    (PyStr.replace "Rs." ""
       (PyStr.replace "₹" ""
          (PyStr.replace "," "" (PyStr.strip text)))).

Definition crore : PyFloat.float := PyFloat.of_Z 10000000.
Definition lakh : PyFloat.float := PyFloat.of_Z 100000.

Definition parse_inr (text : string) : result (option PyFloat.float) :=
  if PyStr.is_empty text then Ok None
  else
    let text := clean text in
    try_except_ValueError
      (if PyStr.contains "crore" (PyStr.lower text)
          || PyStr.contains "cr" (PyStr.lower text)
       then
         let! num := PyFloat.of_string (PyStr.keep digit_or_dot text) in
         Ok (Some (PyFloat.mul num crore))
       else if PyStr.contains "lakh" (PyStr.lower text)
               || PyStr.contains "lac" (PyStr.lower text)
       then
         let! num := PyFloat.of_string (PyStr.keep digit_or_dot text) in
         Ok (Some (PyFloat.mul num lakh))
       else
         let num_str := PyStr.keep digit_or_dot text in
         if negb (PyStr.is_empty num_str)
         then let! num := PyFloat.of_string num_str in Ok (Some num)
         else Ok None)
      (Ok None).

End Base.

(* ===================================================================== *)
(** * filters/tender_filter.py *)
(* ===================================================================== *)

Module TenderFilter.

Definition _normalise (text : string) : string :=
  PyStr.strip (PyStr.lower text).

Definition _contains_any (text : string) (keywords : list string) : list string :=
  let text_lower := _normalise text in
  List.filter (fun kw => PyStr.contains (PyStr.lower kw) text_lower) keywords.

Definition _contains_any_word (text : string) (keywords : list string) : list string :=
  let text_lower := _normalise text in
  List.filter (fun kw => PyRe.search_word (PyStr.lower kw) text_lower) keywords.

(** Truth value of a list. *)
Definition truthy {A : Type} (l : list A) : bool :=
  match l with
  | [] => false
  | _ :: _ => true
  end.

Definition len {A : Type} (l : list A) : Z := Z.of_nat (List.length l).

Definition corpus_of (tender : Tender) : string :=
  PyStr.join " " [title tender; description tender; category tender; department tender].

Definition location_corpus_of (tender : Tender) : string :=
  PyStr.join " " [location tender; department tender; title tender].

Definition is_priority_portal (p : string) : bool :=
  String.eqb p "HSL (Hindustan Shipyard)" || String.eqb p "defproc (Defence)".

Definition score_tender (tender : Tender) (profile : Profile) : Tender :=
  let score := 0 in
  let matched_keywords : list string := [] in
  let corpus := corpus_of tender in
  (* exclude keywords: hard disqualifier *)
  let exclude_hits := _contains_any corpus (get (exclude_keywords profile) []) in
  if truthy exclude_hits then
    let tender := set_match_score 0 tender in
    let tender :=
      set_matched_keywords (List.map (fun kw => "EXCLUDED:" ++ kw) exclude_hits) tender in
    tender
  else
    (* work keywords *)
    let work_hits := _contains_any corpus (get (work_keywords profile) []) in
    let '(score, matched_keywords) :=
      if truthy work_hits then
        let score := score + 40 in
        let matched_keywords := (matched_keywords ++ work_hits)%list in
        let bonus := Z.min (len work_hits - 1) 4 * 5 in
        (score + bonus, matched_keywords)
      else (score, matched_keywords) in
    (* location *)
    let location_corpus := location_corpus_of tender in
    let location_hits :=
      _contains_any_word location_corpus (get (locations profile) []) in
    let '(score, tender, matched_keywords) :=
      if truthy location_hits then
        (score + 20,
         set_location_match true tender,
         (matched_keywords ++ List.map (fun h => ("LOC:" ++ h)%string) location_hits)%list)
      else (score, set_location_match false tender, matched_keywords) in
    (* budget range *)
    let min_budget :=
      get (range_min (get (budget_range profile) (mkBudgetRange None None)))
          (Int 0) in
    let max_budget :=
      get (range_max (get (budget_range profile) (mkBudgetRange None None)))
          (Float PyFloat.inf) in
    let '(score, tender) :=
      match budget_max tender with
      | Some bmax =>
          let in_range :=
            number_leb min_budget (Float bmax) && number_leb (Float bmax) max_budget in
          let tender := set_budget_in_range (Some in_range) tender in
          (if in_range then score + 15 else score, tender)
      | None =>
          match budget_min tender with
          | Some bmin =>
              let tender :=
                set_budget_in_range (Some (number_leb (Float bmin) max_budget)) tender in
              (if get (budget_in_range tender) false then score + 8 else score, tender)
          | None => (score, set_budget_in_range None tender)
          end
      end in
    (* portal priority *)
    let score := if is_priority_portal (portal tender) then score + 15 else score in
    (* no keyword match at all *)
    let score :=
      if negb (truthy work_hits) && negb (truthy location_hits)
      then Z.max score 0 else score in
    let tender := set_match_score (Z.min score 100) tender in
    let tender := set_matched_keywords matched_keywords tender in
    tender.

(** The key of the sort: [(-t.match_score, t.deadline or datetime.max)]. *)
Definition sort_key (t : Tender) : Z * datetime :=
  (- match_score t, get (deadline t) datetime_max).

(** [<] on pairs. *)
Definition key_lt (a b : Z * datetime) : bool :=
  (a.1 <? b.1) || ((a.1 =? b.1) && (a.2 <? b.2)).

(** [list.sort(key=...)] is a stable sort that compares keys with [<]
    only.  The sorted list is fixed by that (see [stable_sort_unique]);
    it is computed here by insertion, each element going before the first
    element of the sorted rest that is not smaller than it. *)
Fixpoint insert_by {A K : Type} (key : A -> K) (lt : K -> K -> bool)
    (x : A) (l : list A) : list A :=
  match l with
  | [] => [x]
  | y :: r => if lt (key y) (key x) then y :: insert_by key lt x r else x :: l
  end.

Fixpoint sort_by {A K : Type} (key : A -> K) (lt : K -> K -> bool)
    (l : list A) : list A :=
  match l with
  | [] => []
  | x :: r => insert_by key lt x (sort_by key lt r)
  end.

Definition filter_tenders (tenders : list Tender) (profile : Profile)
    (min_score : Z) : list Tender :=
  let scored := List.map (fun t => score_tender t profile) tenders in
  let filtered := List.filter (fun t => min_score <=? match_score t) scored in
  sort_by sort_key key_lt filtered.

End TenderFilter.

(* ===================================================================== *)
(** * The pagination loop of scrapers/cppp_scraper.py and
      scrapers/defproc_scraper.py *)
(* ===================================================================== *)

Module NicScraper.

(** What one turn of the loop sees of page [page_index]: [self.get]
    returned [None]; or [_is_js_shell] held; or [_parse_nic_page] gave a
    batch. *)
Inductive page : Type :=
| FetchFailed
| JsShell
| Listing (batch : list Tender).

(** Why the loop ended, and at which page. *)
Inductive stop : Type :=
| STOP_FETCH_FAILED (page_index : nat)
| SWITCH_TO_BROWSER (page_index : nat)
| STOP_EMPTY (page_index : nat)
| STOP_CUTOFF (page_index : nat)
| STOP_MAX_PAGES.

(** [t.published_date or t.deadline] *)
Definition date_of (t : Tender) : option datetime :=
  match published_date t with
  | Some d => Some d
  | None => deadline t
  end.

(** [[t.published_date or t.deadline for t in batch
      if (t.published_date or t.deadline)]] *)
Fixpoint dates_of (batch : list Tender) : list datetime :=
  match batch with
  | [] => []
  | t :: r =>
      match date_of t with
      | Some d => d :: dates_of r
      | None => dates_of r
      end
  end.

(** [min(dates)] of a non-empty list, given as head and tail. *)
Fixpoint py_min (d : datetime) (ds : list datetime) : datetime :=
  match ds with
  | [] => d
  | d' :: r => py_min (Z.min d d') r
  end.

(** [dates and min(d for d in dates if d) < self.cutoff_date] *)
Definition reached_cutoff (cutoff_date : datetime) (batch : list Tender) : bool :=
  match dates_of batch with
  | [] => false
  | d :: ds => py_min d ds <? cutoff_date
  end.

Section Scrape.
(** The portal, page by page; the result of the browser fallback; the
    two settings of the scraper. *)
Variable fetch : nat -> page.
Variable browser_result : list Tender.
Variable cutoff_date : datetime.

(** [while page_index <= self.max_pages: ...], [remaining] being
    [max_pages + 1 - page_index]. *)
Fixpoint loop (remaining : nat) (page_index : nat) (tenders : list Tender)
    : stop * list Tender :=
  match remaining with
  | O => (STOP_MAX_PAGES, tenders)
  | S remaining' =>
      match fetch page_index with
      | FetchFailed => (STOP_FETCH_FAILED page_index, tenders)
      | JsShell => (SWITCH_TO_BROWSER page_index, browser_result)
      | Listing batch =>
          match batch with
          | [] => (STOP_EMPTY page_index, tenders)
          | _ :: _ =>
              let tenders := (tenders ++ batch)%list in
              if reached_cutoff cutoff_date batch
              then (STOP_CUTOFF page_index, tenders)
              else loop remaining' (S page_index) tenders
          end
      end
  end.

Definition scrape (max_pages : nat) : stop * list Tender :=
  loop max_pages 1%nat [].

End Scrape.

End NicScraper.

(* ===================================================================== *)
(** * The merge steps of scrapers/hsl_scraper.py and scrapers/gem_scraper.py *)
(* ===================================================================== *)

Module HslScraper.

(** [t.tender_id or t.title] *)
Definition key_of (t : Tender) : string :=
  if PyStr.is_empty (tender_id t) then title t else tender_id t.

(** One turn of the loop over [tenders], on the pair [(seen, unique)]. *)
Definition dedup_step (st : gset string * list Tender) (t : Tender)
    : gset string * list Tender :=
  let key := key_of t in
  if decide (key ∈ st.1) then st else ({[key]} ∪ st.1, (st.2 ++ [t])%list).

Definition dedup (tenders : list Tender) : list Tender :=
  (foldl dedup_step (∅, []) tenders).2.

(** [scrape], from the results of its two sources. *)
Definition scrape (nic_portal main_site : list Tender) : list Tender :=
  dedup (nic_portal ++ main_site)%list.

End HslScraper.

Module GemScraper.

(** One turn of [for t in batch], on the shared pair [(tenders, seen_ids)]. *)
Definition collect_step (st : list Tender * gset string) (t : Tender)
    : list Tender * gset string :=
  if negb (PyStr.is_empty (tender_id t))
     && bool_decide (tender_id t ∉ st.2)
  then ((st.1 ++ [t])%list, {[tender_id t]} ∪ st.2)
  else st.

Definition collect_batch (st : list Tender * gset string) (batch : list Tender)
    : list Tender * gset string :=
  foldl collect_step st batch.

(** The batches of all pages of all searches, in the order they are parsed,
    collected into the shared list from an empty start. *)
Definition collect (batches : list (list Tender)) : list Tender :=
  (foldl collect_batch ([], ∅) batches).1.

End GemScraper.

(* ===================================================================== *)
(** * The rules of [score_tender], one by one *)
(* ===================================================================== *)

Module ScoreRules.
Import TenderFilter.

Definition exclude_hits (t : Tender) (p : Profile) : list string :=
  _contains_any (corpus_of t) (get (exclude_keywords p) []).

Definition work_hits (t : Tender) (p : Profile) : list string :=
  _contains_any (corpus_of t) (get (work_keywords p) []).

Definition location_hits (t : Tender) (p : Profile) : list string :=
  _contains_any_word (location_corpus_of t) (get (locations p) []).

Definition work_points (hits : list string) : Z :=
  if truthy hits then 40 + Z.min (len hits - 1) 4 * 5 else 0.

Definition location_points (hits : list string) : Z :=
  if truthy hits then 20 else 0.

Definition min_budget (p : Profile) : number :=
  get (range_min (get (budget_range p) (mkBudgetRange None None))) (Int 0).

Definition max_budget (p : Profile) : number :=
  get (range_max (get (budget_range p) (mkBudgetRange None None))) (Float PyFloat.inf).

Definition budget_flag (t : Tender) (p : Profile) : option bool :=
  match budget_max t, budget_min t with
  | Some upper, _ =>
      Some (number_leb (min_budget p) (Float upper)
            && number_leb (Float upper) (max_budget p))
  | None, Some lower => Some (number_leb (Float lower) (max_budget p))
  | None, None => None
  end.

Definition budget_points (t : Tender) (p : Profile) : Z :=
  match budget_max t, budget_min t with
  | Some _, _ => if get (budget_flag t p) false then 15 else 0
  | None, Some _ => if get (budget_flag t p) false then 8 else 0
  | None, None => 0
  end.

Definition portal_points (t : Tender) : Z :=
  if is_priority_portal (portal t) then 15 else 0.

(** The sum of the four rules, before the final clamp. *)
Definition raw_score (t : Tender) (p : Profile) : Z :=
  work_points (work_hits t p) + location_points (location_hits t p)
  + budget_points t p + portal_points t.

(** The tags of a tender that is not excluded. *)
Definition tags (t : Tender) (p : Profile) : list string :=
  (work_hits t p ++ List.map (fun h => ("LOC:" ++ h)%string) (location_hits t p))%list.

End ScoreRules.

(* ===================================================================== *)
(** * Sample tenders and profiles *)
(* ===================================================================== *)

Module Samples.

Definition with_title (s : string) (t : Tender) : Tender :=
  mkTender (tender_id t) s (portal t) (department t) (location t)
    (budget_min t) (budget_max t) (budget_raw t) (published_date t)
    (deadline t) (category t) (description t) (url t)
    (match_score t) (matched_keywords t) (budget_in_range t) (location_match t).

Definition with_portal (s : string) (t : Tender) : Tender :=
  mkTender (tender_id t) (title t) s (department t) (location t)
    (budget_min t) (budget_max t) (budget_raw t) (published_date t)
    (deadline t) (category t) (description t) (url t)
    (match_score t) (matched_keywords t) (budget_in_range t) (location_match t).

Definition with_id (s : string) (t : Tender) : Tender :=
  mkTender s (title t) (portal t) (department t) (location t)
    (budget_min t) (budget_max t) (budget_raw t) (published_date t)
    (deadline t) (category t) (description t) (url t)
    (match_score t) (matched_keywords t) (budget_in_range t) (location_match t).

Definition with_location (s : string) (t : Tender) : Tender :=
  mkTender (tender_id t) (title t) (portal t) (department t) s
    (budget_min t) (budget_max t) (budget_raw t) (published_date t)
    (deadline t) (category t) (description t) (url t)
    (match_score t) (matched_keywords t) (budget_in_range t) (location_match t).

Definition with_budget (lo hi : option PyFloat.float) (t : Tender) : Tender :=
  mkTender (tender_id t) (title t) (portal t) (department t) (location t)
    lo hi (budget_raw t) (published_date t)
    (deadline t) (category t) (description t) (url t)
    (match_score t) (matched_keywords t) (budget_in_range t) (location_match t).

Definition with_dates (pub dl : option datetime) (t : Tender) : Tender :=
  mkTender (tender_id t) (title t) (portal t) (department t) (location t)
    (budget_min t) (budget_max t) (budget_raw t) pub
    dl (category t) (description t) (url t)
    (match_score t) (matched_keywords t) (budget_in_range t) (location_match t).

Definition empty_profile : Profile := mkProfile None None None None.

(** A defence-portal tender titled "tank"; its other text fields are empty,
    so that its corpus is "tank" followed by three blanks. *)
Definition tank_tender : Tender :=
  with_portal "defproc (Defence)" (with_title "tank" Tender_default).

(** The keyword "tank " ends with a blank. *)
Definition exclude_tank_profile : Profile :=
  mkProfile (Some ["tank "]) None None None.

Definition sonar_tender : Tender :=
  with_portal "defproc (Defence)" (with_title "Sonar" Tender_default).

Definition work_sonar_profile : Profile :=
  mkProfile None (Some ["sonar "]) None None.

(** A profile that lists the work keyword "pipe" twice. *)
Definition pipe_tender : Tender := with_title "pipe" Tender_default.

Definition pipe_twice_profile : Profile :=
  mkProfile None (Some ["pipe"; "pipe"]) None None.

(** The end-to-end sample of the scoring rules. *)
Definition painting_profile : Profile :=
  mkProfile (Some ["underwater"]) (Some ["painting"]) (Some ["Visakhapatnam"])
    (Some (mkBudgetRange (Some (Int 100000)) (Some (Int 5000000)))).

Definition painting_tender : Tender :=
  with_budget None (Some (PyFloat.of_Z 200000))
    (with_portal "defproc (Defence)"
       (with_title "Painting work at Visakhapatnam port" Tender_default)).

Definition underwater_tender : Tender :=
  with_title "Underwater painting at Visakhapatnam" painting_tender.

End Samples.

(* ===================================================================== *)
(** * Whole-word occurrences *)
(* ===================================================================== *)

Module WordMatch.

(** [lit] occurs in [s] at a place where a character starts, with a word
    boundary on each side: between the character before it and its first
    character (or, for an empty [lit], the character after it), and between
    its last character and the character after it. *)
Definition whole_word (lit s : string) : Prop :=
  exists pre post : string,
    s = (pre ++ lit ++ post)%string
    /\ Utf8.char_start (lit ++ post) = true
    /\ PyRe.at_boundary (PyRe.last_cp None pre (lit ++ post))
         (Utf8.head_cp (lit ++ post)) = true
    /\ PyRe.at_boundary (PyRe.last_cp None (pre ++ lit) post)
         (Utf8.head_cp post) = true.

End WordMatch.

(* ===================================================================== *)
(** * The reading of an amount, without exceptions *)
(* ===================================================================== *)

Module Amount.

(** The value of a decimal literal; [None] for any other string. *)
Definition decimal_value (s : string) : option PyFloat.float :=
  match PyFloat.of_string s with
  | Ok v => Some v
  | Raise _ => None
  end.

(** The multiplier that the cleaned text selects, if any. *)
Definition multiplier (cleaned : string) : option PyFloat.float :=
  if PyStr.contains "crore" (PyStr.lower cleaned)
     || PyStr.contains "cr" (PyStr.lower cleaned)
  then Some Base.crore
  else if PyStr.contains "lakh" (PyStr.lower cleaned)
          || PyStr.contains "lac" (PyStr.lower cleaned)
  then Some Base.lakh
  else None.

(** What is left of the text once separators, currency symbols, digits and
    dots are taken away. *)
Definition residue (text : string) : string :=
  PyStr.keep (fun c => negb (Base.digit_or_dot c)) (Base.clean text).

End Amount.

(* ===================================================================== *)
(** * Pages parsed by a scraper run *)
(* ===================================================================== *)

Module Pages.
Import NicScraper.

(** The batch parsed from page [j]; empty when the page gave none. *)
Definition batch_of (fetch : nat -> page) (j : nat) : list Tender :=
  match fetch j with
  | Listing batch => batch
  | _ => []
  end.

(** The records of pages [first], ..., [first + count - 1], in order. *)
Definition records (fetch : nat -> page) (first count : nat) : list Tender :=
  flat_map (batch_of fetch) (seq first count).

(** Page [j] was parsed into a non-empty batch that did not reach the
    cutoff: the loop goes on to page [j + 1]. *)
Definition continues (fetch : nat -> page) (cutoff_date : datetime) (j : nat) : Prop :=
  exists batch, fetch j = Listing batch /\ batch <> []
    /\ reached_cutoff cutoff_date batch = false.

(** Page [j] was parsed into a non-empty batch that reached the cutoff. *)
Definition cuts_off (fetch : nat -> page) (cutoff_date : datetime) (j : nat) : Prop :=
  exists batch, fetch j = Listing batch /\ batch <> []
    /\ reached_cutoff cutoff_date batch = true.

(** Every publish date and every deadline of the batch: the reading of
    "the earliest of (publish date, deadline) across the batch" that takes
    both dates of every record. *)
Definition both_dates (batch : list Tender) : list datetime :=
  flat_map
    (fun t => (option_list (published_date t) ++ option_list (deadline t))%list)
    batch.

Definition earliest_of_both_precedes (cutoff_date : datetime) (batch : list Tender) : bool :=
  match both_dates batch with
  | [] => false
  | d :: ds => py_min d ds <? cutoff_date
  end.

(** A portal of two pages.  The record of page 1 was published after the
    cutoff 100 and closed before it. *)
Definition late_published : Tender :=
  Samples.with_dates (Some 200) (Some 50) (Samples.with_id "A" Tender_default).

Definition second_page_record : Tender :=
  Samples.with_dates (Some 300) None (Samples.with_id "B" Tender_default).

Definition two_pages (j : nat) : page :=
  match j with
  | 1%nat => Listing [late_published]
  | 2%nat => Listing [second_page_record]
  | _ => Listing []
  end.

(** A portal whose second page reaches the cutoff 100. *)
Definition old_record : Tender :=
  Samples.with_dates None (Some 60) (Samples.with_id "C" Tender_default).

Definition three_pages (j : nat) : page :=
  match j with
  | 1%nat => Listing [second_page_record]
  | 2%nat => Listing [late_published; old_record]
  | _ => Listing [second_page_record]
  end.

End Pages.

(* ===================================================================== *)
(** * Merging by first occurrence *)
(* ===================================================================== *)

Module Merge.

(** The records of [l] that [HslScraper]'s loop appends when it starts with
    the keys [seen]: those whose key was not met before. *)
Fixpoint fresh (seen : gset string) (l : list Tender) : list Tender :=
  match l with
  | [] => []
  | t :: r =>
      if decide (HslScraper.key_of t ∈ seen) then fresh seen r
      else t :: fresh ({[HslScraper.key_of t]} ∪ seen) r
  end.

(** [t.tender_id] is truthy. *)
Definition has_id (t : Tender) : bool := negb (PyStr.is_empty (tender_id t)).

(** Two records with the same identifier, and one without identifier. *)
Definition first_seen : Tender :=
  Samples.with_title "Painting of hull" (Samples.with_id "HSL/101" Tender_default).

Definition seen_again : Tender :=
  Samples.with_title "Hull painting (corrigendum)" (Samples.with_id "HSL/101" Tender_default).

Definition untitled_id : Tender :=
  Samples.with_title "Supply of scaffolding" Tender_default.

End Merge.

(* ===================================================================== *)
(** * Order of the ranked list *)
(* ===================================================================== *)

Module Ranking.
Import TenderFilter.

(** Neither key is smaller than the other. *)
Definition tied {A K : Type} (key : A -> K) (lt : K -> K -> bool) (a b : A) : bool :=
  negb (lt (key a) (key b)) && negb (lt (key b) (key a)).

(** [b] may follow [a]: its key is not smaller. *)
Definition in_order {A K : Type} (key : A -> K) (lt : K -> K -> bool) (a b : A) : Prop :=
  lt (key b) (key a) = false.

(** The deadline used for ranking: the latest possible date when there is
    none. *)
Definition deadline_or_max (t : Tender) : datetime := get (deadline t) datetime_max.

(** [a] ranks before [b], or level with it: a higher score, or the same
    score and a deadline that is not later. *)
Definition ranks_before (a b : Tender) : Prop :=
  match_score b < match_score a
  \/ (match_score a = match_score b /\ deadline_or_max a <= deadline_or_max b).

(** Same score and same ranking deadline. *)
Definition same_rank (a b : Tender) : bool :=
  (match_score a =? match_score b) && (deadline_or_max a =? deadline_or_max b).

(** A profile and five tenders scoring 50, 80, 50, 50 and 50. *)
Definition pipes_profile : Profile :=
  mkProfile None (Some ["pipe"; "valve"; "pump"]) (Some ["Vizag"]) None.

Definition D1 : datetime := 63900000000000000.
Definition D2 : datetime := 63900086400000000.

Definition tender_a : Tender :=
  Samples.with_dates None (Some D2)
    (Samples.with_title "pipe valve pump" (Samples.with_id "A" Tender_default)).

Definition tender_b : Tender :=
  Samples.with_dates None (Some D1)
    (Samples.with_portal "defproc (Defence)"
       (Samples.with_title "Pipe and valve for Vizag" (Samples.with_id "B" Tender_default))).

Definition tender_c : Tender :=
  Samples.with_dates None (Some D1)
    (Samples.with_title "pump valve pipe" (Samples.with_id "C" Tender_default)).

Definition tender_d : Tender :=
  Samples.with_title "valve pipe pump" (Samples.with_id "D" Tender_default).

Definition tender_e : Tender :=
  Samples.with_dates None (Some D1)
    (Samples.with_title "pipe pump valve" (Samples.with_id "E" Tender_default)).

Definition scored (t : Tender) : Tender := score_tender t pipes_profile.

End Ranking.

(* ===================================================================== *)
(** * scrapers/base.py: the lookback window *)
(* ===================================================================== *)

Module BaseScraper.

(** [is_recent], for a scraper whose [cutoff_date] is given. *)
Definition is_recent (cutoff_date : datetime) (dt : option datetime) : bool :=
  match dt with
  | None => true
  | Some d => cutoff_date <=? d
  end.

End BaseScraper.

(* ===================================================================== *)
(** * The last page of a scraper run *)
(* ===================================================================== *)

Module Runs.
Import NicScraper.

(** What the loop returns when page [i] ends it, [acc] being the records
    collected from the pages before. *)
Definition final (fetch : nat -> page) (browser_result : list Tender)
    (i : nat) (acc : list Tender) : stop * list Tender :=
  match fetch i with
  | FetchFailed => (STOP_FETCH_FAILED i, acc)
  | JsShell => (SWITCH_TO_BROWSER i, browser_result)
  | Listing [] => (STOP_EMPTY i, acc)
  | Listing batch => (STOP_CUTOFF i, (acc ++ batch)%list)
  end.

(** A portal whose third page is a client-side shell. *)
Definition shell_on_third (j : nat) : page :=
  match j with
  | 1%nat => Listing [Pages.second_page_record]
  | 2%nat => Listing [Pages.late_published]
  | _ => JsShell
  end.

(** A portal whose second page cannot be fetched. *)
Definition fails_on_second (j : nat) : page :=
  match j with
  | 1%nat => Listing [Pages.second_page_record]
  | _ => FetchFailed
  end.

(** A portal with fresh records on every page. *)
Definition endless (j : nat) : page := Listing [Pages.second_page_record].

End Runs.

(* ===================================================================== *)
(** * The row loop of [_parse_nic_page] (cppp_scraper.py, defproc_scraper.py) *)
(* ===================================================================== *)

Module NicParser.

Definition CPPP_BASE : string := "https://eprocure.gov.in".
Definition CPPP_TENDERS_URL : string :=
  CPPP_BASE ++ "/eprocure/app" ++ "?page=FrontEndLatestActiveTenders&service=page".

Definition DEFPROC_BASE : string := "https://defproc.gov.in".
Definition DEFPROC_TENDERS_URL : string :=
  DEFPROC_BASE ++ "/nicgep/app" ++ "?page=FrontEndLatestActiveTenders&service=page".

(** A row of the listing table, as the loop reads it: the text of each of
    its [td] cells ([get_text(strip=True)]); whether its first cell holds a
    [th] element; and [link_el.get("href")] for the first anchor of the
    second cell or, when that cell has none, of the third ([None] when no
    anchor is found or the anchor has no [href]). *)
Record row : Type := mkRow {
  cells : list string;
  first_holds_th : bool;
  href : option string
}.

(** [cell(n)]: the text of cell [n], or [""] beyond the last cell. *)
Definition cell (r : row) (n : nat) : string := nth n (cells r) "".

(** [s.lstrip("/")] *)
Fixpoint lstrip_slash (s : string) : string :=
  match s with
  | EmptyString => EmptyString
  | String c r => if Ascii.eqb c "/" then lstrip_slash r else s
  end.

(** The link of a record: an absolute [href] as it is, a relative one after
    the base, and the listing page when there is no usable [href]. *)
Definition resolve_url (base listing : string) (h : option string) : string :=
  match h with
  | Some h =>
      if negb (PyStr.is_empty h) then
        if String.prefix "http" h then h
        else base ++ "/" ++ lstrip_slash h
      else listing
  | None => listing
  end.

Section Rows.
(** [_parse_date], the reading of a date in one of the known formats. *)
Variable _parse_date : string -> option datetime.

(** [for i in range(4, len(cells))]: the first text that reads as a date is
    the publish date, the next one the deadline, and the scan stops there. *)
Fixpoint scan_dates (texts : list string) (pub_date : option datetime)
    : option datetime * option datetime :=
  match texts with
  | [] => (pub_date, None)
  | txt :: rest =>
      match _parse_date txt with
      | Some dt =>
          match pub_date with
          | None => scan_dates rest (Some dt)
          | Some _ => (pub_date, Some dt)
          end
      | None => scan_dates rest pub_date
      end
  end.

Definition row_dates (r : row) : option datetime * option datetime :=
  scan_dates (skipn 4 (cells r)) None.

(** [Tender(tender_id=..., title=..., portal=..., department=dept,
    location=dept, published_date=..., deadline=..., url=...)] *)
Definition nic_tender (portal_name base listing : string) (r : row) : Tender :=
  {| tender_id := cell r 1;
     title := cell r 2;
     portal := portal_name;
     department := cell r 3;
     location := cell r 3;
     budget_min := None;
     budget_max := None;
     budget_raw := "";
     published_date := fst (row_dates r);
     deadline := snd (row_dates r);
     category := "";
     description := "";
     url := resolve_url base listing (href r);
     match_score := 0;
     matched_keywords := [];
     budget_in_range := None;
     location_match := false |}.

(** One turn of the row loop of [DefprocScraper._parse_nic_page]. *)
Definition defproc_row (r : row) : option Tender :=
  if (List.length (cells r) <? 4)%nat then None
  else
    let tender := nic_tender "defproc (Defence)" DEFPROC_BASE DEFPROC_TENDERS_URL r in
    if negb (PyStr.is_empty (title tender)) then Some tender else None.

(** [cell(0).lower() in ("s.no", "sno", "#")] *)
Definition looks_like_header (r : row) : bool :=
  let c := PyStr.lower (cell r 0) in
  String.eqb c "s.no" || String.eqb c "sno" || String.eqb c "#".

(** One turn of the row loop of [CpppScraper._parse_nic_page]. *)
Definition cppp_row (r : row) : option Tender :=
  if (List.length (cells r) <? 4)%nat then None
  else if first_holds_th r || looks_like_header r then None
  else if PyStr.is_empty (cell r 2) then None
  else Some (nic_tender "CPPP (Central eProcure)" CPPP_BASE CPPP_TENDERS_URL r).

(** The row loops: the records of the rows that are kept, in row order. *)
Definition defproc_rows (rows : list row) : list Tender := omap defproc_row rows.
Definition cppp_rows (rows : list row) : list Tender := omap cppp_row rows.

End Rows.

(** A reader of dates for the samples: the cell text "d<n>" reads as the
    date [n] for one decimal digit [n]. *)
Definition sample_parse_date (s : string) : option datetime :=
  match s with
  | String "d" (String c EmptyString) => Unicode.decimal (Utf8.byte c)
  | _ => None
  end.

(** A row whose closing date stands before its publishing date. *)
Definition sample_row : row :=
  mkRow ["1"; "MOD/77"; "Supply of valves"; "Naval Dockyard"; "Open"; "d9"; "n/a"; "d3"; "d5"]
    false (Some "//nicgep/app?id=77").

Definition header_row : row :=
  mkRow ["S.No"; "Ref"; "Title"; "Organisation"] false None.

End NicParser.

(* ===================================================================== *)
(** * The budget of a row in scrapers/ap_scraper.py *)
(* ===================================================================== *)

Module ApScraper.

(** The regex class [\d]: the decimal digits of any script. *)
Definition is_decimal (c : N) : bool :=
  match Unicode.decimal c with
  | Some _ => true
  | None => false
  end.

Definition digit_or_comma (c : N) : bool :=
  is_decimal c || N.eqb c 44.

(** A digit followed by a digit or a comma, somewhere in the characters. *)
Fixpoint digit_run (chars : list N) : bool :=
  match chars with
  | c :: (d :: _) as r => (is_decimal c && digit_or_comma d) || digit_run r
  | _ => false
  end.

(** [re.search(r"\d[\d,]+", txt)] finds a match. *)
Definition has_digit_run (s : string) : bool := digit_run (Utf8.decode s).

(** ["₹" in txt or "rs" in txt.lower() or re.search(r"\d[\d,]+", txt)] *)
Definition budget_candidate (txt : string) : bool :=
  PyStr.contains "₹" txt
  || PyStr.contains "rs" (PyStr.lower txt)
  || has_digit_run txt.

(** Truth value of a float: false for the two zeros only. *)
Definition float_truthy (v : PyFloat.float) : bool :=
  match v with
  | S754_zero _ => false
  | _ => true
  end.

(** [if val: budget_max = val] *)
Definition kept_amount (val : option PyFloat.float) : option PyFloat.float :=
  match val with
  | Some v => if float_truthy v then Some v else None
  | None => None
  end.

(** The budget loop over the texts of the cells from the fifth on: the pair
    [(budget_raw, budget_max)] it leaves. *)
Fixpoint find_budget (texts : list string) : result (string * option PyFloat.float) :=
  match texts with
  | [] => Ok ("", None)
  | txt :: rest =>
      if budget_candidate txt then
        let! val := Base.parse_inr txt in
        Ok (txt, kept_amount val)
      else find_budget rest
  end.

Definition row_budget (cells : list string) : result (string * option PyFloat.float) :=
  find_budget (skipn 4 cells).

(** The amount that [parse_inr] reads, outside the [result] wrapper. *)
Definition amount_of (txt : string) : option PyFloat.float :=
  match Base.parse_inr txt with
  | Ok v => v
  | Raise _ => None
  end.

(** A float that is not below zero (a NaN has no sign). *)
Definition not_negative (v : PyFloat.float) : bool :=
  match v with
  | S754_zero s | S754_infinity s | S754_finite s _ _ => negb s
  | S754_nan => true
  end.

End ApScraper.

(* ===================================================================== *)
(** * The searches of scrapers/gem_scraper.py *)
(* ===================================================================== *)

Module GemSearch.
Import GemScraper.

Definition PAGES_PER_SEARCH : nat := 3.

(** What the browser shows on result page [page_num] of a search: the batch
    that [_parse_page] reads from it, and whether the page has a link
    [a.page-link.next]. *)
Definition view : Type := nat -> list Tender * bool.

(** A search whose first cards never load returns at once; any other is
    seen through its result pages. *)
Inductive search : Type :=
| CardsMissing
| Results (v : view).

(** [for page_num in range(1, PAGES_PER_SEARCH + 1)], from [page_num] on with
    [remaining] turns left, on the shared pair [(tenders, seen_ids)]. *)
Fixpoint pages_loop (remaining page_num : nat) (v : view)
    (st : list Tender * gset string) : list Tender * gset string :=
  match remaining with
  | O => st
  | S r =>
      let '(batch, next_btn) := v page_num in
      let st := collect_batch st batch in
      if negb (TenderFilter.truthy batch) then st
      else if negb next_btn then st
      else pages_loop r (S page_num) v st
  end.

(** [_search_and_collect], for a run in which the browser raises nothing. *)
Definition _search_and_collect (s : search) (st : list Tender * gset string)
    : list Tender * gset string :=
  match s with
  | CardsMissing => st
  | Results v => pages_loop PAGES_PER_SEARCH 1 v st
  end.

(** [_scrape_with_playwright]: one search for each term, on one shared
    list and one shared set. *)
Definition _scrape_with_playwright (searches : list search) : list Tender :=
  (foldl (fun st s => _search_and_collect s st) ([], ∅) searches).1.

(** The batches that [pages_loop] reads, in order. *)
Fixpoint pages_read (remaining page_num : nat) (v : view) : list (list Tender) :=
  match remaining with
  | O => []
  | S r =>
      let '(batch, next_btn) := v page_num in
      if negb (TenderFilter.truthy batch) then [batch]
      else if negb next_btn then [batch]
      else batch :: pages_read r (S page_num) v
  end.

Definition batches_of (s : search) : list (list Tender) :=
  match s with
  | CardsMissing => []
  | Results v => pages_read PAGES_PER_SEARCH 1 v
  end.

(** A search with two result pages that share a bid. *)
Definition two_pages : view := fun page_num =>
  match page_num with
  | 1%nat => ([Merge.first_seen; Merge.untitled_id], true)
  | 2%nat => ([Merge.seen_again], false)
  | _ => ([], false)
  end.

End GemSearch.

(* ===================================================================== *)
(** * Keys of a list of records *)
(* ===================================================================== *)

Module Sources.

(** The keys that the merge loop has seen after the records of [l]. *)
Definition keys (l : list Tender) : gset string :=
  list_to_set (HslScraper.key_of <$> l).

End Sources.

(* ===================================================================== *)
(** * The browser loops of scrapers/cppp_scraper.py and
      scrapers/defproc_scraper.py *)
(* ===================================================================== *)

Module BrowserScrape.
Import NicScraper.

(** What one turn of a browser loop sees of page [page_index]: [page.goto]
    or [page.wait_for_selector] raised; or [_parse_nic_page] gave a batch. *)
Inductive loaded : Type :=
| LoadError
| Content (batch : list Tender).

Section Loops.
Variable load : nat -> loaded.

(** The loop of [CpppScraper._scrape_with_playwright], [remaining] being
    [max_pages + 1 - page_index]. *)
Fixpoint cppp_loop (remaining : nat) (page_index : nat) (tenders : list Tender)
    : list Tender :=
  match remaining with
  | O => tenders
  | S remaining' =>
      match load page_index with
      | LoadError => tenders
      | Content batch =>
          match batch with
          | [] => tenders
          | _ :: _ => cppp_loop remaining' (S page_index) (tenders ++ batch)%list
          end
      end
  end.

Definition cppp_scrape_with_playwright (max_pages : nat) : list Tender :=
  cppp_loop max_pages 1%nat [].

Variable cutoff_date : datetime.

(** The loop of [DefprocScraper._scrape_with_playwright]. *)
Fixpoint defproc_loop (remaining : nat) (page_index : nat) (tenders : list Tender)
    : list Tender :=
  match remaining with
  | O => tenders
  | S remaining' =>
      match load page_index with
      | LoadError => tenders
      | Content batch =>
          match batch with
          | [] => tenders
          | _ :: _ =>
              let tenders := (tenders ++ batch)%list in
              if reached_cutoff cutoff_date batch then tenders
              else defproc_loop remaining' (S page_index) tenders
          end
      end
  end.

Definition defproc_scrape_with_playwright (max_pages : nat) : list Tender :=
  defproc_loop max_pages 1%nat [].

(** The same pages, as the loop of [scrape] sees them when none is a
    client-side shell. *)
Definition over_http (page_index : nat) : page :=
  match load page_index with
  | LoadError => FetchFailed
  | Content batch => Listing batch
  end.

End Loops.

(** A portal whose every page holds one record older than the cutoff 100. *)
Definition stale (j : nat) : loaded := Content [Pages.old_record].

End BrowserScrape.

(* ===================================================================== *)
(** * Scoring in place (filters/tender_filter.py, main.py) *)
(* ===================================================================== *)

Module InPlace.
Import TenderFilter.

(** The [Tender] objects of a run, by address: the heap [h] is the list of
    the objects, and a reference is an index into it.  A Python list of
    tenders is a list of references: the same object may stand in it twice,
    and a write to it shows through every list that holds it. *)

Definition deref (h : list Tender) (r : nat) : Tender :=
  default Tender_default (h !! r).

(** [score_tender] writes its results to the object and returns the
    reference it was given. *)
Definition score_tender (h : list Tender) (tender : nat) (profile : Profile) : list Tender * nat :=
  (<[tender := TenderFilter.score_tender (deref h tender) profile]> h, tender).

(** [[score_tender(t, profile) for t in tenders]] *)
Definition score_all (h : list Tender) (tenders : list nat) (profile : Profile)
    : list Tender * list nat :=
  foldl
    (fun st t =>
       let '(h', r) := score_tender st.1 t profile in (h', (st.2 ++ [r])%list))
    (h, []) tenders.

Definition filter_tenders (h : list Tender) (tenders : list nat) (profile : Profile)
    (min_score : Z) : list Tender * list nat :=
  let '(h, scored) := score_all h tenders profile in
  let filtered :=
    List.filter (fun t => min_score <=? match_score (deref h t)) scored in
  (h, sort_by (fun t => sort_key (deref h t)) key_lt filtered).

(** [run_scraper] of main.py and [_do_scrape] of webapp.py, from the
    scraped list on: the records that [export_to_excel(matched, all_tenders)]
    reads for its two sheets. *)
Definition run_scraper (h : list Tender) (all_tenders : list nat) (profile : Profile)
    (min_score : Z) : list Tender * list Tender :=
  let '(h, matched) := filter_tenders h all_tenders profile min_score in
  (List.map (deref h) matched, List.map (deref h) all_tenders).

(** Two objects, the first listed twice. *)
Definition sample_heap : list Tender := [Samples.painting_tender; Samples.underwater_tender].
Definition sample_list : list nat := [0%nat; 1%nat; 0%nat].

End InPlace.

(* ===================================================================== *)
(** * output_engine/excel_exporter.py *)
(* ===================================================================== *)

Module ExcelExporter.

Inductive PatternFill : Type :=
| FILL_EXCELLENT
| FILL_GOOD
| FILL_POSSIBLE
| FILL_POOR.

Definition _score_fill (score : Z) : PatternFill :=
  if 80 <=? score then FILL_EXCELLENT
  else if 60 <=? score then FILL_GOOD
  else if 30 <=? score then FILL_POSSIBLE
  else FILL_POOR.

End ExcelExporter.

(* ===================================================================== *)
(** * webapp.py *)
(* ===================================================================== *)

Module Webapp.

(** [k.replace("LOC:", "").replace("EXCLUDED:", "").strip()] *)
Definition shown_keyword (k : string) : string :=
  PyStr.strip (PyStr.replace "EXCLUDED:" "" (PyStr.replace "LOC:" "" k)).

(** The list [kws] of [_to_dict]. *)
Definition kws (t : Tender) : list string :=
  List.map shown_keyword (matched_keywords t).

(** The two values that the turn of scraper [i] out of [n] passes to
    [_set_progress]: [5 + i * 67 // n] and [5 + (i + 1) * 67 // n]. *)
Definition scraper_progress (n : Z) (i : Z) : list Z :=
  [5 + i * 67 / n; 5 + (i + 1) * 67 / n].

(** The values that [scrape_progress] takes, in order, in a run of
    [_do_scrape] with [n] scrapers that ends without exception. *)
Definition progress_trace (n : nat) : list Z :=
  (0 :: flat_map (fun i => scraper_progress (Z.of_nat n) (Z.of_nat i)) (seq 0 n)
     ++ [75; 88; 98; 100])%list.

(** The state that [trigger_scrape] and the end of [_do_scrape] share:
    [scrape_status], and the number of threads started by [trigger_scrape]
    that have not yet written their final status. *)
Record app : Type := mkApp {
  scrape_status : string;
  workers : nat
}.

Definition initial : app := mkApp "idle" 0.

(** [POST /run-scraper]: the response code and the state it leaves.  The
    test and the write are one step, under [_lock]; a 202 starts a thread. *)
Definition trigger_scrape (a : app) : Z * app :=
  if String.eqb (scrape_status a) "running" then (409, a)
  else (202, mkApp "running" (S (workers a))).

(** The last write of [_do_scrape], under [_lock]: ["done"] at the end of
    the [try] block, ["error"] in the handler. *)
Definition worker_exit (ok : bool) (a : app) : app :=
  mkApp (if ok then "done" else "error") (Nat.pred (workers a)).

(** The states of a server run: requests and thread exits in any order, a
    thread exit needing a thread. *)
Inductive reachable : app -> Prop :=
| reach_initial : reachable initial
| reach_trigger (a : app) : reachable a -> reachable (trigger_scrape a).2
| reach_exit (a : app) (ok : bool) :
    reachable a -> (0 < workers a)%nat -> reachable (worker_exit ok a).

End Webapp.

(* ===================================================================== *)
(** * Word-boundary search *)
(* ===================================================================== *)

Section WordSearch.
Import PyRe WordMatch.

Lemma prefix_app lit s : String.prefix lit s = true <-> exists post, s = (lit ++ post)%string.
Proof.
  revert s. induction lit as [|d l IH]; intros s.
  - simpl. destruct s; split; eauto.
  - destruct s as [|c r]; simpl.
    + split; [discriminate | intros [post H]; discriminate].
    + destruct (ascii_dec d c) as [->|Hne].
      * rewrite IH. split; intros [post H]; exists post; congruence.
      * split; [discriminate | intros [post H]; congruence].
Qed.

Lemma drop_app lit post : drop (String.length lit) (lit ++ post) = post.
Proof. induction lit; simpl; [destruct post; reflexivity | assumption]. Qed.

Lemma append_assoc (a b c : string) : ((a ++ b) ++ c = a ++ b ++ c)%string.
Proof. induction a as [|x a IH]; cbn; [reflexivity | rewrite IH; reflexivity]. Qed.

Lemma last_cp_app prev a b rest :
  last_cp prev (a ++ b) rest = last_cp (last_cp prev a (b ++ rest)) b rest.
Proof.
  revert prev. induction a as [|c a IH]; intros prev; [reflexivity|].
  cbn [String.append last_cp]. rewrite IH, append_assoc. reflexivity.
Qed.

Lemma match_at_spec prev lit s :
  match_at prev lit s = true <->
  exists post, s = (lit ++ post)%string
    /\ at_boundary prev (Utf8.head_cp s) = true
    /\ at_boundary (last_cp prev lit post) (Utf8.head_cp post) = true.
Proof.
  unfold match_at. rewrite !andb_true_iff, prefix_app. split.
  - intros [[Hb [post Hs]] He]. exists post. subst s.
    rewrite drop_app in He. auto.
  - intros [post [Hs [Hb He]]]. subst s. rewrite drop_app. eauto.
Qed.

(** [search_from] finds exactly the whole-word occurrences. *)
Lemma search_from_spec s : forall prev lit,
  search_from prev lit s = true <->
  exists pre post, s = (pre ++ lit ++ post)%string
    /\ Utf8.char_start (lit ++ post) = true
    /\ at_boundary (last_cp prev pre (lit ++ post)) (Utf8.head_cp (lit ++ post)) = true
    /\ at_boundary (last_cp prev (pre ++ lit) post) (Utf8.head_cp post) = true.
Proof.
  induction s as [|c r IH]; intros prev lit; cbn [search_from].
  - rewrite match_at_spec. split.
    + intros [post [Hs [Hb He]]]. exists "", post.
      cbn [String.append last_cp]. rewrite <- Hs. auto.
    + intros [pre [post [Hs [_ [Hb He]]]]].
      destruct pre; [|discriminate]. cbn [String.append last_cp] in *.
      exists post. split; [exact Hs|]. split; [rewrite Hs; exact Hb | exact He].
  - destruct (Utf8.is_cont c) eqn:Hc.
    + rewrite IH. split.
      * intros [pre [post [Hs [Hst [Hb He]]]]]. exists (String c pre), post.
        cbn [String.append last_cp]. rewrite Hc. subst r. auto.
      * intros [pre [post [Hs [Hst [Hb He]]]]]. destruct pre as [|c' pre].
        -- cbn [String.append] in Hs. rewrite <- Hs in Hst.
           cbn [Utf8.char_start] in Hst. rewrite Hc in Hst. discriminate.
        -- cbn [String.append] in Hs. injection Hs as <- ->.
           cbn [String.append last_cp] in Hb, He. rewrite Hc in Hb, He.
           exists pre, post. auto.
    + rewrite orb_true_iff, match_at_spec, IH. split.
      * intros [[post [Hs [Hb He]]]|[pre [post [Hs [Hst [Hb He]]]]]].
        -- exists "", post. cbn [String.append last_cp]. rewrite <- Hs.
           cbn [Utf8.char_start]. rewrite Hc. auto.
        -- exists (String c pre), post. cbn [String.append last_cp].
           rewrite Hc, append_assoc. subst r. auto.
      * intros [pre [post [Hs [Hst [Hb He]]]]]. destruct pre as [|c' pre].
        -- left. cbn [String.append last_cp] in *.
           exists post. split; [exact Hs|]. split; [rewrite Hs; exact Hb | exact He].
        -- right. cbn [String.append] in Hs. injection Hs as <- ->.
           cbn [String.append last_cp] in Hb, He.
           rewrite Hc in Hb, He. rewrite append_assoc in He.
           exists pre, post. auto.
Qed.

Lemma search_word_spec lit s : search_word lit s = true <-> whole_word lit s.
Proof. apply search_from_spec. Qed.

End WordSearch.

(* ===================================================================== *)
(** * The scoring engine *)
(* ===================================================================== *)

Section Scoring.
Import TenderFilter ScoreRules.

Lemma truthy_false {A : Type} (l : list A) : truthy l = false <-> l = [].
Proof. destruct l; simpl; split; congruence. Qed.

Lemma truthy_true {A : Type} (l : list A) : truthy l = true <-> l <> [].
Proof. destruct l; simpl; split; congruence. Qed.

Lemma len_nonneg {A : Type} (l : list A) : 0 <= len l.
Proof. unfold len. lia. Qed.

Lemma len_truthy {A : Type} (l : list A) : truthy l = true -> 1 <= len l.
Proof. destruct l; simpl; [discriminate|]. unfold len. simpl. lia. Qed.

Lemma work_points_range hits : 0 <= work_points hits <= 60.
Proof.
  unfold work_points. destruct (truthy hits) eqn:E; [|lia].
  apply len_truthy in E. lia.
Qed.

Lemma location_points_range hits : 0 <= location_points hits <= 20.
Proof. unfold location_points. destruct (truthy hits); lia. Qed.

Lemma budget_points_range t p : 0 <= budget_points t p <= 15.
Proof.
  unfold budget_points.
  destruct (budget_max t), (budget_min t); try lia;
    destruct (get (budget_flag t p) false); lia.
Qed.

Lemma portal_points_range t : 0 <= portal_points t <= 15.
Proof. unfold portal_points. destruct (is_priority_portal _); lia. Qed.

Lemma raw_score_nonneg t p : 0 <= raw_score t p.
Proof.
  unfold raw_score.
  pose proof (work_points_range (work_hits t p)).
  pose proof (location_points_range (location_hits t p)).
  pose proof (budget_points_range t p).
  pose proof (portal_points_range t). lia.
Qed.

(** An excluded tender: the first two assignments and the early return. *)
Lemma score_tender_excluded t p :
  exclude_hits t p <> [] ->
  score_tender t p =
    set_matched_keywords
      (List.map (fun kw => ("EXCLUDED:" ++ kw)%string) (exclude_hits t p))
      (set_match_score 0 t).
Proof.
  intros H. apply truthy_true in H. unfold score_tender.
  fold (exclude_hits t p). rewrite H. reflexivity.
Qed.

(** A tender that is not excluded: every rule is applied, in turn. *)
Lemma score_tender_scored t p :
  exclude_hits t p = [] ->
  score_tender t p =
    set_matched_keywords (tags t p)
      (set_match_score (Z.min (raw_score t p) 100)
         (set_budget_in_range (budget_flag t p)
            (set_location_match (truthy (location_hits t p)) t))).
Proof.
  intros H. apply truthy_false in H. unfold score_tender.
  fold (exclude_hits t p). rewrite H.
  fold (work_hits t p). fold (location_hits t p).
  fold (min_budget p). fold (max_budget p).
  pose proof (len_nonneg (work_hits t p)) as Hlen.
  unfold tags, raw_score, work_points, location_points, budget_points,
    budget_flag, portal_points.
  destruct (truthy (work_hits t p)) eqn:Hw;
    [ apply len_truthy in Hw | apply truthy_false in Hw; rewrite Hw ];
    destruct (truthy (location_hits t p)) eqn:Hl;
    try (apply truthy_false in Hl; rewrite Hl);
    cbn [set_location_match set_budget_in_range budget_max budget_min];
    destruct (budget_max t) as [u|];
    try destruct (budget_min t) as [l|];
    cbn [set_location_match set_budget_in_range set_match_score
         set_matched_keywords budget_max budget_min budget_in_range portal
         get negb andb List.map List.app];
    repeat match goal with
           | |- context [if ?b then _ else _] => destruct b eqn:?
           end;
    cbn [get]; unfold set_matched_keywords, set_match_score; cbn;
    rewrite ?app_nil_r; f_equal; lia.
Qed.

(** C1.  After scoring, the relevance score of every tender lies between
    0 and 100, whatever the profile. *)
Theorem score_tender_in_range (t : Tender) (p : Profile) :
  0 <= match_score (score_tender t p) <= 100.
Proof.
  destruct (exclude_hits t p) eqn:E.
  - rewrite (score_tender_scored t p E). cbn.
    pose proof (raw_score_nonneg t p). lia.
  - rewrite score_tender_excluded by (rewrite E; discriminate).
    cbn. lia.
Qed.

(** C2.  The code breaks the claim where an exclude keyword ends in a
    blank: the keyword "tank " is a substring of the corpus "tank   ",
    whatever the case of letters, yet the tender is not excluded, because
    [_contains_any] trims the text and not the keyword.  The tender keeps
    its portal bonus and gets no tag. *)
Lemma exclusion_misses_keyword_at_trimmed_edge :
  In "tank " (get (exclude_keywords Samples.exclude_tank_profile) [])
  /\ PyStr.contains (PyStr.lower "tank ")
       (PyStr.lower (corpus_of Samples.tank_tender)) = true
  /\ match_score (score_tender Samples.tank_tender Samples.exclude_tank_profile) = 15
  /\ matched_keywords (score_tender Samples.tank_tender Samples.exclude_tank_profile) = [].
Proof. repeat split; [left; reflexivity | vm_compute; reflexivity ..]. Qed.

(** The same trimming shows on the work keywords: "sonar " is a substring of
    the corpus "Sonar   " up to case, and the work keywords contribute
    nothing. *)
Lemma work_keyword_missed_at_trimmed_edge :
  exclude_hits Samples.sonar_tender Samples.work_sonar_profile = []
  /\ In "sonar " (get (work_keywords Samples.work_sonar_profile) [])
  /\ PyStr.contains (PyStr.lower "sonar ")
       (PyStr.lower (corpus_of Samples.sonar_tender)) = true
  /\ work_points (work_hits Samples.sonar_tender Samples.work_sonar_profile) = 0
  /\ match_score (score_tender Samples.sonar_tender Samples.work_sonar_profile) = 15.
Proof. repeat split; [left; reflexivity | vm_compute; reflexivity ..]. Qed.

(** C3 fails as stated: the work keyword "pipe" stands twice in the
    profile.  The tender matches one distinct keyword, so that the claim
    gives it 40; the code counts the two entries and gives 45. *)
Lemma work_keyword_counts_repeated_entries :
  exclude_hits Samples.pipe_tender Samples.pipe_twice_profile = []
  /\ work_hits Samples.pipe_tender Samples.pipe_twice_profile = ["pipe"; "pipe"]
  /\ List.nodup string_dec
       (work_hits Samples.pipe_tender Samples.pipe_twice_profile) = ["pipe"]
  /\ work_points (work_hits Samples.pipe_tender Samples.pipe_twice_profile) = 45
  /\ match_score (score_tender Samples.pipe_tender Samples.pipe_twice_profile) = 45
  /\ 45 <> 40 + 5 * Z.min (len ["pipe"] - 1) 4.
Proof. repeat split; try (vm_compute; reflexivity). vm_compute. discriminate. Qed.

(** C3, amended.  For a tender with no exclude hit, let [hits] be the
    entries of the work-keyword list whose lower-cased form occurs in the
    lower-cased corpus, an entry that is listed twice counting twice.  When
    trimming the corpus changes none of these matches, the score is the
    clamped sum of a work part and of the location, budget and portal parts;
    the work part is 0 when there is no hit, and
    [40 + 5 * min (number of hits - 1, 4)] otherwise. *)
Theorem work_keyword_rule (t : Tender) (p : Profile) :
  exclude_hits t p = [] ->
  (forall kw, In kw (get (work_keywords p) []) ->
     PyStr.contains (PyStr.lower kw) (PyStr.strip (PyStr.lower (corpus_of t)))
     = PyStr.contains (PyStr.lower kw) (PyStr.lower (corpus_of t))) ->
  let hits :=
    List.filter
      (fun kw => PyStr.contains (PyStr.lower kw) (PyStr.lower (corpus_of t)))
      (get (work_keywords p) []) in
  let others :=
    location_points (location_hits t p) + budget_points t p + portal_points t in
  exists w : Z,
    match_score (score_tender t p) = Z.min (w + others) 100
    /\ (hits = [] -> w = 0)
    /\ (hits <> [] -> w = 40 + 5 * Z.min (len hits - 1) 4).
Proof.
  intros E Htrim hits others. exists (work_points hits).
  assert (Hh : work_hits t p = hits).
  { unfold work_hits, _contains_any, _normalise. apply List.filter_ext_in, Htrim. }
  rewrite (score_tender_scored t p E).
  cbn [match_score set_matched_keywords set_match_score].
  split; [|split].
  - f_equal. unfold raw_score. rewrite Hh. subst others. lia.
  - intros H0. rewrite H0. reflexivity.
  - intros Hne. apply truthy_true in Hne. unfold work_points. rewrite Hne. lia.
Qed.

Lemma work_keyword_rule_witness :
  exists w : Z,
    match_score (score_tender Samples.painting_tender Samples.painting_profile)
    = Z.min (w + (20 + 15 + 15)) 100
    /\ w = 40.
Proof.
  destruct (work_keyword_rule Samples.painting_tender Samples.painting_profile)
    as [w [Hs [_ Hw]]].
  - vm_compute. reflexivity.
  - intros kw [<-|[]]. vm_compute. reflexivity.
  - exists w. split.
    + exact Hs.
    + rewrite Hw; [vm_compute; reflexivity | vm_compute; discriminate].
Defined.

(** C5.  For a tender with no exclude hit: with a known upper bound, the
    budget adds 15 exactly when [min <= upper <= max], and [budget_in_range]
    is that boolean; with a lower bound only, it adds 8 exactly when
    [lower <= max], and [budget_in_range] is that boolean; with no bound,
    [budget_in_range] is [None] and the budget adds nothing.  The bounds of
    the profile are compared with the budget as numbers, an integer bound
    by its exact value: 9007199254740993 is not below the budget
    9007199254740992.0. *)
Theorem budget_rule (t : Tender) (p : Profile) :
  exclude_hits t p = [] ->
  let t' := score_tender t p in
  let others :=
    work_points (work_hits t p) + location_points (location_hits t p)
    + portal_points t in
  match budget_max t, budget_min t with
  | Some upper, _ =>
      let ok := number_leb (min_budget p) (Float upper)
                && number_leb (Float upper) (max_budget p) in
      budget_in_range t' = Some ok
      /\ match_score t' = Z.min (others + (if ok then 15 else 0)) 100
  | None, Some lower =>
      let ok := number_leb (Float lower) (max_budget p) in
      budget_in_range t' = Some ok
      /\ match_score t' = Z.min (others + (if ok then 8 else 0)) 100
  | None, None =>
      budget_in_range t' = None
      /\ match_score t' = Z.min others 100
  end
  /\ number_leb (Int 9007199254740993) (Float (PyFloat.of_Z 9007199254740992)) = false
  /\ number_leb (Int 9007199254740992) (Float (PyFloat.of_Z 9007199254740992)) = true
  /\ (forall x : number, number_leb x (Float PyFloat.inf)
        = match x with Float S754_nan => false | _ => true end).
Proof.
  intros E t' others. subst t'. rewrite (score_tender_scored t p E).
  cbn [match_score budget_in_range set_matched_keywords set_match_score
       set_budget_in_range].
  subst others. unfold raw_score, budget_points, budget_flag.
  split; [|split; [vm_compute; reflexivity|split; [vm_compute; reflexivity|]]].
  - destruct (budget_max t) as [u|]; [|destruct (budget_min t) as [l|]];
      cbn [get]; split; try reflexivity; f_equal; lia.
  - intros [n|[s|s| |s m e]]; try reflexivity; destruct s; reflexivity.
Qed.

Lemma budget_rule_witness :
  budget_in_range (score_tender Samples.painting_tender Samples.painting_profile)
  = Some true
  /\ match_score (score_tender Samples.painting_tender Samples.painting_profile)
     = Z.min (40 + 20 + 15 + 15) 100.
Proof.
  pose proof (budget_rule Samples.painting_tender Samples.painting_profile) as H.
  cbv zeta in H.
  change (budget_max Samples.painting_tender) with (Some (PyFloat.of_Z 200000)) in H.
  cbv iota beta in H.
  destruct H as [[H1 H2] _]; [vm_compute; reflexivity|].
  split.
  - rewrite H1. vm_compute. reflexivity.
  - rewrite H2. vm_compute. reflexivity.
Defined.

(** "AP" hits exactly the texts in which, lower-cased and trimmed, "ap"
    stands between two characters that are not word characters (or ends of
    the text). *)
Lemma standalone_AP (s : string) :
  _contains_any_word s ["AP"] = ["AP"] <->
  exists pre post, _normalise s = (pre ++ "ap" ++ post)%string
    /\ PyRe.is_word_opt (PyRe.last_cp None pre ("ap" ++ post)) = false
    /\ PyRe.is_word_opt (Utf8.head_cp post) = false.
Proof.
  unfold _contains_any_word. cbn [List.filter].
  change (PyStr.lower "AP") with "ap".
  assert (Hw : WordMatch.whole_word "ap" (_normalise s) <->
               exists pre post, _normalise s = (pre ++ "ap" ++ post)%string
                 /\ PyRe.is_word_opt (PyRe.last_cp None pre ("ap" ++ post)) = false
                 /\ PyRe.is_word_opt (Utf8.head_cp post) = false).
  { unfold WordMatch.whole_word.
    assert (Ha : forall post, PyRe.is_word_opt (Utf8.head_cp ("ap" ++ post)) = true)
      by (intros post; vm_compute; reflexivity).
    assert (Hp : forall prev post, PyRe.is_word_opt (PyRe.last_cp prev "ap" post) = true)
      by (intros prev post; vm_compute; reflexivity).
    split; intros [pre [post H]]; exists pre, post.
    - destruct H as [Hs [_ [H1 H2]]]. split; [exact Hs|].
      rewrite last_cp_app in H2. unfold PyRe.at_boundary in H1, H2.
      rewrite Ha in H1. rewrite Hp in H2.
      destruct (PyRe.is_word_opt (PyRe.last_cp None pre ("ap" ++ post))),
        (PyRe.is_word_opt (Utf8.head_cp post)); cbn in *; split; congruence.
    - destruct H as [Hs [H1 H2]]. split; [exact Hs|]. split; [reflexivity|].
      rewrite last_cp_app. unfold PyRe.at_boundary.
      rewrite Ha, Hp, H1, H2. split; reflexivity. }
  rewrite <- Hw, <- search_word_spec.
  destruct (PyRe.search_word "ap" (_normalise s)); split; congruence.
Qed.

(** C4.  Location matching is a case-insensitive whole-word search over
    location, department and title joined by blanks: a keyword hits exactly
    when its lower-cased form occurs in the lower-cased, trimmed text
    between two word boundaries.  "AP" hits in "Guntur AP" and in
    "Guntur (AP)", not in "weapons" nor in "capacity", nor after a letter of
    another script.  For a tender with no exclude hit, any hit adds 20 and
    sets [location_match]; no hit adds nothing and clears it; the tags are
    the work hits followed by one [LOC:<kw>] per location hit. *)
Theorem location_rule (t : Tender) (p : Profile) :
  exclude_hits t p = [] ->
  let text := _normalise (PyStr.join " " [location t; department t; title t]) in
  let hits :=
    List.filter (fun kw => PyRe.search_word (PyStr.lower kw) text)
      (get (locations p) []) in
  let t' := score_tender t p in
  let others :=
    work_points (work_hits t p) + budget_points t p + portal_points t in
  (forall kw, In kw hits <->
     In kw (get (locations p) []) /\ WordMatch.whole_word (PyStr.lower kw) text)
  /\ (hits <> [] ->
       location_match t' = true /\ match_score t' = Z.min (others + 20) 100)
  /\ (hits = [] ->
       location_match t' = false /\ match_score t' = Z.min others 100)
  /\ matched_keywords t' =
       (work_hits t p ++ List.map (fun h => ("LOC:" ++ h)%string) hits)%list
  /\ (forall s,
        _contains_any_word s ["AP"] = ["AP"] <->
        exists pre post, _normalise s = (pre ++ "ap" ++ post)%string
          /\ PyRe.is_word_opt (PyRe.last_cp None pre ("ap" ++ post)) = false
          /\ PyRe.is_word_opt (Utf8.head_cp post) = false)
  /\ _contains_any_word "Guntur AP" ["AP"] = ["AP"]
  /\ _contains_any_word "Guntur (AP)" ["AP"] = ["AP"]
  /\ _contains_any_word "weapons" ["AP"] = []
  /\ _contains_any_word "capacity" ["AP"] = []
  /\ _contains_any_word "éAP" ["AP"] = []
  /\ _contains_any_word "Mormugão port" ["Mormug"; "PORT"] = ["PORT"].
Proof.
  intros E text hits t' others.
  assert (Hh : location_hits t p = hits) by reflexivity.
  subst t'. rewrite (score_tender_scored t p E).
  cbn [match_score location_match matched_keywords set_matched_keywords
       set_match_score set_budget_in_range set_location_match].
  unfold tags, raw_score, location_points. rewrite Hh.
  split; [|split; [|split; [|split; [|split]]]].
  - intros kw. unfold hits. rewrite filter_In, search_word_spec. reflexivity.
  - intros Hne. apply truthy_true in Hne. rewrite Hne.
    split; [reflexivity | f_equal; subst others; lia].
  - intros H0. rewrite H0. cbn [truthy].
    split; [reflexivity | f_equal; subst others; lia].
  - reflexivity.
  - apply standalone_AP.
  - repeat split; vm_compute; reflexivity.
Qed.

Lemma location_rule_witness :
  location_match (score_tender Samples.painting_tender Samples.painting_profile) = true
  /\ matched_keywords (score_tender Samples.painting_tender Samples.painting_profile)
     = ["painting"; "LOC:Visakhapatnam"].
Proof.
  pose proof (location_rule Samples.painting_tender Samples.painting_profile) as H.
  cbv zeta in H.
  destruct H as [_ [H1 [_ [H2 _]]]]; [vm_compute; reflexivity|].
  split.
  - apply H1. vm_compute. discriminate.
  - rewrite H2. vm_compute. reflexivity.
Defined.

End Scoring.

(* ===================================================================== *)
(** * The monetary parser *)
(* ===================================================================== *)

Section MonetaryParser.
Import Base Amount.

Lemma of_string_raises_only_ValueError (s : string) :
  (exists v, PyFloat.of_string s = Ok v) \/ PyFloat.of_string s = Raise ValueError.
Proof.
  unfold PyFloat.of_string.
  destruct (PyFloat.decimal_literal s) as [[ip fp]|]; [left | right; reflexivity].
  destruct (PyFloat.digits_value 0 (ip ++ fp)); eauto.
Qed.

(** [float("1.2")] is 0x1.3333333333333p+0 and [float("0.1")] is
    0x1.999999999999ap-4, the doubles nearest to the decimals; the product
    [1.2 * 10000000] rounds to 12000000.0 exactly. *)
Example of_string_rounds_to_nearest :
  PyFloat.of_string "1.2" = Ok (S754_finite false 0x13333333333333 (-52))
  /\ PyFloat.of_string "0.1" = Ok (S754_finite false 0x1999999999999a (-56))
  /\ PyFloat.mul (S754_finite false 0x13333333333333 (-52)) crore
     = PyFloat.of_Z 12000000.
Proof. repeat split; vm_compute; reflexivity. Qed.

(** [parse_inr] without its [try]: the digits and dots of the cleaned text,
    read as a decimal literal and scaled by the multiplier, if any. *)
Lemma parse_inr_value (text : string) :
  parse_inr text =
  Ok (if PyStr.is_empty text then None
      else
        let cleaned := clean text in
        let digits := PyStr.keep digit_or_dot cleaned in
        match multiplier cleaned with
        | Some k => option_map (fun v => PyFloat.mul v k) (decimal_value digits)
        | None => decimal_value digits
        end).
Proof.
  unfold parse_inr, multiplier, decimal_value.
  destruct (PyStr.is_empty text); [reflexivity|]. cbv zeta.
  destruct (of_string_raises_only_ValueError (PyStr.keep digit_or_dot (clean text)))
    as [[v Hv]|Hv].
  - rewrite Hv.
    destruct (PyStr.keep digit_or_dot (clean text)) eqn:Hk.
    + vm_compute in Hv. discriminate.
    + destruct (_ || _); [reflexivity|]. destruct (_ || _); reflexivity.
  - rewrite Hv.
    destruct (_ || _); [reflexivity|]. destruct (_ || _); [reflexivity|].
    destruct (PyStr.is_empty _); reflexivity.
Qed.

Lemma decimal_value_none (s : string) :
  decimal_value s = None <-> PyFloat.decimal_literal s = None.
Proof.
  unfold decimal_value, PyFloat.of_string.
  destruct (PyFloat.decimal_literal s) as [[ip fp]|]; [|split; reflexivity].
  destruct (PyFloat.digits_value 0 (ip ++ fp)); split; discriminate.
Qed.

Lemma parse_inr_none (text : string) :
  parse_inr text = Ok None <->
  PyStr.is_empty text = true
  \/ PyFloat.decimal_literal (PyStr.keep digit_or_dot (clean text)) = None.
Proof.
  rewrite parse_inr_value, <- decimal_value_none.
  destruct (PyStr.is_empty text); [split; auto|]. cbv zeta.
  destruct (decimal_value (PyStr.keep digit_or_dot (clean text))) as [v|];
    destruct (multiplier (clean text)); cbn [option_map];
    split; try (intros [H|H]; discriminate); try discriminate; auto.
Qed.

(** C7 fails as stated: "approx 500" leaves the non-numeric residue
    "approx " and names no multiplier, yet the parser returns 500.0, not
    none. *)
Lemma parse_inr_ignores_residue :
  residue "approx 500" = "approx "
  /\ multiplier (clean "approx 500") = None
  /\ parse_inr "approx 500" = Ok (Some (PyFloat.of_Z 500)).
Proof. repeat split; vm_compute; reflexivity. Qed.

(** C7, amended.  [parse_inr] never raises.  It trims the text and removes
    commas, the rupee sign and "Rs."; of what is left it keeps the digits
    and dots and discards every other character.  It returns none for an
    empty text and when the kept characters are not a decimal literal;
    otherwise it returns the value of the literal, times 10,000,000 when the
    cleaned text contains "cr" (hence also for "crore"), else times 100,000
    when it contains "lakh" or "lac", in any case of letters.  In particular
    "₹3,50,000" and "3.5 Lakh" give 350000.0, "1.2 Crore" gives 12000000.0
    and "not a number" gives none.  Digits of other scripts count with
    their value, "₹ १,५०,०००" giving 150000.0; a superscript is kept as a
    digit and is no decimal digit, so that "1200 m²" gives none. *)
Theorem parse_inr_total (text : string) :
  (exists r, parse_inr text = Ok r)
  /\ parse_inr text =
       Ok (if PyStr.is_empty text then None
           else
             let cleaned := clean text in
             let digits := PyStr.keep digit_or_dot cleaned in
             match multiplier cleaned with
             | Some k => option_map (fun v => PyFloat.mul v k) (decimal_value digits)
             | None => decimal_value digits
             end)
  /\ (parse_inr text = Ok None <->
      PyStr.is_empty text = true
      \/ PyFloat.decimal_literal (PyStr.keep digit_or_dot (clean text)) = None)
  /\ parse_inr "₹3,50,000" = Ok (Some (PyFloat.of_Z 350000))
  /\ parse_inr "3.5 Lakh" = Ok (Some (PyFloat.of_Z 350000))
  /\ parse_inr "1.2 Crore" = Ok (Some (PyFloat.of_Z 12000000))
  /\ parse_inr "not a number" = Ok None
  /\ parse_inr "₹ १,५०,०००" = Ok (Some (PyFloat.of_Z 150000))
  /\ parse_inr "1200 m²" = Ok None.
Proof.
  split; [rewrite parse_inr_value; eauto|].
  split; [apply parse_inr_value|].
  split; [apply parse_inr_none|].
  repeat split; vm_compute; reflexivity.
Qed.

Lemma contains_cr_nonempty (text : string) :
  PyStr.contains "cr" (PyStr.lower (clean text)) = true -> PyStr.is_empty text = false.
Proof. destruct text; [vm_compute; discriminate | reflexivity]. Qed.

(** C10.  Whenever the cleaned text contains "cr" in any case of letters,
    also inside an unrelated word, [parse_inr] reads the digits and dots of
    the text as one number and multiplies it by 10,000,000 (and returns none
    when they do not form a number).  So "2 concrete slabs" gives
    20000000.0, as "२ crore" does, and "1200 m² concrete" gives none. *)
Theorem parse_inr_cr_anywhere (text : string) :
  PyStr.contains "cr" (PyStr.lower (clean text)) = true ->
  parse_inr text =
    Ok (option_map (fun v => PyFloat.mul v crore)
          (decimal_value (PyStr.keep digit_or_dot (clean text))))
  /\ parse_inr "2 concrete slabs" = Ok (Some (PyFloat.of_Z 20000000))
  /\ parse_inr "२ crore" = Ok (Some (PyFloat.of_Z 20000000))
  /\ parse_inr "1200 m² concrete" = Ok None.
Proof.
  intros H. split; [|repeat split; vm_compute; reflexivity].
  rewrite parse_inr_value, (contains_cr_nonempty _ H). cbv zeta.
  unfold multiplier. rewrite H, orb_true_r. reflexivity.
Qed.

Lemma parse_inr_cr_anywhere_witness :
  parse_inr "Rs. 4.5 per acre" = Ok (Some (PyFloat.of_Z 45000000)).
Proof.
  destruct (parse_inr_cr_anywhere "Rs. 4.5 per acre") as [H _];
    [vm_compute; reflexivity|].
  rewrite H. vm_compute. reflexivity.
Defined.

End MonetaryParser.

(* ===================================================================== *)
(** * The pagination loop *)
(* ===================================================================== *)

Section Pagination.
Import NicScraper Pages.

Variable fetch : nat -> page.
Variable browser_result : list Tender.
Variable cutoff_date : datetime.

Lemma py_min_least d ds :
  (py_min d ds = d \/ In (py_min d ds) ds)
  /\ py_min d ds <= d /\ (forall d', In d' ds -> py_min d ds <= d').
Proof.
  revert d. induction ds as [|e r IH]; intros d; cbn [py_min].
  - split; [left; reflexivity | split; [lia | intros d' []]].
  - destruct (IH (Z.min d e)) as [Hin [Hle Hall]].
    split; [|split].
    + destruct Hin as [Hin|Hin]; [|right; right; exact Hin].
      rewrite Hin. destruct (Z.min_spec d e) as [[_ ->]|[_ ->]];
        [left; reflexivity | right; left; reflexivity].
    + lia.
    + intros d' [<-|Hd']; [lia | apply Hall, Hd'].
Qed.

Lemma records_one first : records fetch first 1 = batch_of fetch first.
Proof. unfold records. simpl. apply app_nil_r. Qed.

Lemma records_cons first count :
  records fetch first (S count) =
  (batch_of fetch first ++ records fetch (S first) count)%list.
Proof. reflexivity. Qed.

(** The loop started at page [i] with [acc] collected ends on the cutoff at
    page [n] exactly when [n] is within its page budget, the pages from [i]
    up to [n] made it continue, and page [n] reached the cutoff; it then
    returns [acc] and the records of the pages [i], ..., [n]. *)
Lemma loop_stops_on_cutoff remaining : forall i acc n res,
  loop fetch browser_result cutoff_date remaining i acc = (STOP_CUTOFF n, res) <->
  (i <= n < i + remaining)%nat
  /\ (forall j, (i <= j < n)%nat -> continues fetch cutoff_date j)
  /\ cuts_off fetch cutoff_date n
  /\ res = (acc ++ records fetch i (S (n - i)))%list.
Proof.
  induction remaining as [|r IH]; intros i acc n res; cbn [loop].
  - split; [discriminate | intros [H _]; lia].
  - assert (Hfirst : forall P : Prop,
      ((i <= n < i + S r)%nat
       /\ (forall j, (i <= j < n)%nat -> continues fetch cutoff_date j)
       /\ cuts_off fetch cutoff_date n /\ P) ->
      exists b, fetch i = Listing b /\ b <> []
        /\ (reached_cutoff cutoff_date b = true -> n = i)
        /\ (reached_cutoff cutoff_date b = false -> (i < n)%nat)).
    { intros P [Hn [Hcont [[b [Hb [Hne Hr]]] _]]].
      destruct (Nat.eq_dec n i) as [->|Hni].
      - exists b. repeat split; auto. congruence.
      - destruct (Hcont i) as [b' [Hb' [Hne' Hr']]]; [lia|].
        exists b'. repeat split; auto; [congruence | lia]. }
    destruct (fetch i) as [| |batch] eqn:Hf.
    + split; [discriminate|]. intros H.
      destruct (Hfirst _ H) as [b [Hb _]]. discriminate.
    + split; [discriminate|]. intros H.
      destruct (Hfirst _ H) as [b [Hb _]]. discriminate.
    + destruct batch as [|t batch].
      * split; [discriminate|]. intros H.
        destruct (Hfirst _ H) as [b [Hb [Hne _]]]. congruence.
      * destruct (reached_cutoff cutoff_date (t :: batch)) eqn:Hr.
        -- split.
           ++ intros H. injection H as <- <-.
              split; [lia|]. split; [intros j Hj; lia|].
              split; [exists (t :: batch); auto|].
              rewrite Nat.sub_diag, records_one. unfold batch_of. rewrite Hf.
              reflexivity.
           ++ intros H. destruct (Hfirst _ H) as [b [Hb [_ [Hn _]]]].
              injection Hb as <-. rewrite (Hn Hr) in *.
              destruct H as [_ [_ [_ ->]]].
              rewrite Nat.sub_diag, records_one. unfold batch_of. rewrite Hf.
              reflexivity.
        -- rewrite IH. split.
           ++ intros [Hn [Hcont [Hcut ->]]].
              split; [lia|]. split; [|split; [exact Hcut|]].
              ** intros j Hj. destruct (Nat.eq_dec j i) as [->|Hji].
                 --- exists (t :: batch). auto.
                 --- apply Hcont. lia.
              ** replace (S (n - i)) with (S (S (n - S i))) by lia.
                 rewrite (records_cons i). unfold batch_of at 1. rewrite Hf.
                 rewrite <- app_assoc. reflexivity.
           ++ intros H. destruct (Hfirst _ H) as [b [Hb [_ [_ Hlt]]]].
              injection Hb as <-. specialize (Hlt Hr).
              destruct H as [Hn [Hcont [Hcut ->]]].
              split; [lia|]. split; [|split; [exact Hcut|]].
              ** intros j Hj. apply Hcont. lia.
              ** replace (S (n - i)) with (S (S (n - S i))) by lia.
                 rewrite (records_cons i). unfold batch_of at 1. rewrite Hf.
                 rewrite <- app_assoc. reflexivity.
Qed.

Lemma In_dates_of batch d :
  In d (dates_of batch) <-> exists t, In t batch /\ date_of t = Some d.
Proof.
  induction batch as [|t r IH]; cbn [dates_of].
  - split; [intros [] | intros [t [[] _]]].
  - destruct (date_of t) as [e|] eqn:He.
    + cbn [In]. rewrite IH. split.
      * intros [<-|[t' [Ht' Hd]]];
          [exists t; split; [left; reflexivity | exact He]
          |exists t'; split; [right; exact Ht' | exact Hd]].
      * intros [t' [[<-|Ht'] Hd]]; [left; congruence | right; exists t'; auto].
    + rewrite IH. split.
      * intros [t' [Ht' Hd]]. exists t'. split; [right; exact Ht' | exact Hd].
      * intros [t' [[<-|Ht'] Hd]]; [congruence | exists t'; auto].
Qed.

(** The cutoff test compares the earliest date of the batch. *)
Lemma reached_cutoff_earliest batch :
  reached_cutoff cutoff_date batch = true <->
  exists m, In m (dates_of batch)
    /\ (forall d, In d (dates_of batch) -> m <= d)
    /\ m < cutoff_date.
Proof.
  unfold reached_cutoff. destruct (dates_of batch) as [|d ds].
  - split; [discriminate | intros [m [[] _]]].
  - rewrite Z.ltb_lt. destruct (py_min_least d ds) as [Hin [Hle Hall]]. split.
    + intros H. exists (py_min d ds). split; [|split; [|exact H]].
      * destruct Hin as [->|Hin]; [left; reflexivity | right; exact Hin].
      * intros d' [<-|Hd']; [exact Hle | apply Hall, Hd'].
    + intros [m [[<-|Hm] [_ Hlt]]]; [lia|]. specialize (Hall m Hm). lia.
Qed.

(** C8, amended.  The date of a record is its publish date or, when it has
    none, its deadline.  A run stops on the lookback cutoff at page [n]
    exactly when [n] is within the page cap, every earlier page was parsed
    into a non-empty batch whose earliest record date does not precede the
    cutoff, and page [n] was parsed into a non-empty batch whose earliest
    record date precedes it.  The run then returns the records of the pages
    1, ..., [n], the last batch included. *)
Theorem scrape_stops_on_cutoff (max_pages n : nat) (res : list Tender) :
  (scrape fetch browser_result cutoff_date max_pages = (STOP_CUTOFF n, res) <->
   (1 <= n <= max_pages)%nat
   /\ (forall j, (1 <= j < n)%nat -> continues fetch cutoff_date j)
   /\ cuts_off fetch cutoff_date n
   /\ res = records fetch 1 n)
  /\ (forall batch,
        reached_cutoff cutoff_date batch = true <->
        exists m, In m (dates_of batch)
          /\ (forall d, In d (dates_of batch) -> m <= d)
          /\ m < cutoff_date)
  /\ (forall batch d,
        In d (dates_of batch) <->
        exists t, In t batch
          /\ match published_date t with
             | Some pub => Some pub
             | None => deadline t
             end = Some d).
Proof.
  split; [|split; [apply reached_cutoff_earliest | apply In_dates_of]].
  unfold scrape. rewrite loop_stops_on_cutoff. cbn [List.app].
  split.
  - intros [Hn [Hc [Hcut ->]]]. split; [lia|]. split; [exact Hc|].
    split; [exact Hcut|]. f_equal. lia.
  - intros [Hn [Hc [Hcut ->]]]. split; [lia|]. split; [exact Hc|].
    split; [exact Hcut|]. f_equal. lia.
Qed.

End Pagination.

(** C8 fails as stated.  With the cutoff at 100, the only record of page 1
    was published at 200 and closes at 50: the earliest of its publish date
    and deadline precedes the cutoff.  The run does not stop there: it reads
    page 2 and ends on the empty page 3. *)
Lemma cutoff_ignores_deadline_of_dated_record :
  Pages.earliest_of_both_precedes 100 [Pages.late_published] = true
  /\ NicScraper.scrape Pages.two_pages [] 100 5
     = (NicScraper.STOP_EMPTY 3, [Pages.late_published; Pages.second_page_record]).
Proof. split; vm_compute; reflexivity. Qed.

Lemma scrape_stops_on_cutoff_witness :
  NicScraper.scrape Pages.three_pages [] 100 5
  = (NicScraper.STOP_CUTOFF 2,
     [Pages.second_page_record; Pages.late_published; Pages.old_record])
  /\ (1 <= 2 <= 5)%nat
  /\ Pages.records Pages.three_pages 1 2
     = [Pages.second_page_record; Pages.late_published; Pages.old_record].
Proof.
  assert (H : NicScraper.scrape Pages.three_pages [] 100 5
              = (NicScraper.STOP_CUTOFF 2,
                 [Pages.second_page_record; Pages.late_published; Pages.old_record]))
    by (vm_compute; reflexivity).
  split; [exact H|].
  destruct (scrape_stops_on_cutoff Pages.three_pages [] 100 5 2
              [Pages.second_page_record; Pages.late_published; Pages.old_record])
    as [[Hto _] _].
  destruct (Hto H) as [Hn [_ [_ Hres]]].
  split; [exact Hn | symmetry; exact Hres].
Defined.

(* ===================================================================== *)
(** * Merging and deduplication *)
(* ===================================================================== *)

Section Merging.
Import HslScraper GemScraper Merge.

Lemma foldl_dedup_step l : forall seen acc,
  (foldl dedup_step (seen, acc) l).2 = (acc ++ fresh seen l)%list.
Proof.
  induction l as [|t r IH]; intros seen acc; cbn [foldl fresh].
  - cbn. rewrite app_nil_r. reflexivity.
  - unfold dedup_step at 2. cbn [fst snd].
    destruct (decide (key_of t ∈ seen)); [apply IH|].
    rewrite IH, <- app_assoc. reflexivity.
Qed.

Lemma dedup_fresh l : dedup l = fresh ∅ l.
Proof. unfold dedup. apply foldl_dedup_step. Qed.

Lemma fresh_sublist l : forall seen, sublist (fresh seen l) l.
Proof.
  induction l as [|t r IH]; intros seen; cbn [fresh]; [constructor|].
  destruct (decide _); [apply sublist_cons | apply sublist_skip]; apply IH.
Qed.

Lemma fresh_unseen l : forall seen t, t ∈ fresh seen l -> key_of t ∉ seen.
Proof.
  induction l as [|u r IH]; intros seen t; cbn [fresh]; [inversion 1|].
  destruct (decide (key_of u ∈ seen)) as [Hu|Hu]; [apply IH|].
  intros [->|Ht]%elem_of_cons; [exact Hu|].
  apply IH in Ht. set_solver.
Qed.

Lemma fresh_NoDup l : forall seen, NoDup (key_of <$> fresh seen l).
Proof.
  induction l as [|u r IH]; intros seen; cbn [fresh]; [constructor|].
  destruct (decide (key_of u ∈ seen)); [apply IH|].
  cbn. apply NoDup_cons. split; [|apply IH].
  intros [t [Hk Ht]]%list_elem_of_fmap. apply fresh_unseen in Ht. set_solver.
Qed.

Lemma fresh_covers l : forall seen t,
  t ∈ l -> key_of t ∈ seen \/ exists t', t' ∈ fresh seen l /\ key_of t' = key_of t.
Proof.
  induction l as [|u r IH]; intros seen t; [inversion 1|].
  cbn [fresh]. intros [->|Ht]%elem_of_cons.
  - destruct (decide (key_of u ∈ seen)); [left; assumption|].
    right. exists u. split; [left | reflexivity].
  - destruct (decide (key_of u ∈ seen)) as [Hu|Hu]; [apply IH, Ht|].
    destruct (IH ({[key_of u]} ∪ seen) t Ht) as [Hin|[t' [Ht' Hk]]].
    + apply elem_of_union in Hin as [Hin|Hin]; [|left; exact Hin].
      apply elem_of_singleton in Hin. right. exists u. split; [left | congruence].
    + right. exists t'. split; [right; exact Ht' | exact Hk].
Qed.

Lemma fresh_first l : forall seen t,
  t ∈ fresh seen l ->
  exists pre post, l = (pre ++ t :: post)%list
    /\ forall u, u ∈ pre -> key_of u <> key_of t.
Proof.
  induction l as [|v r IH]; intros seen t; cbn [fresh]; [inversion 1|].
  destruct (decide (key_of v ∈ seen)) as [Hv|Hv].
  - intros Ht. pose proof (fresh_unseen _ _ _ Ht) as Hn.
    destruct (IH _ _ Ht) as [pre [post [-> Hpre]]].
    exists (v :: pre), post. split; [reflexivity|].
    intros u [->|Hu]%elem_of_cons; [congruence | apply Hpre, Hu].
  - intros [->|Ht]%elem_of_cons.
    + exists [], r. split; [reflexivity | inversion 1].
    + pose proof (fresh_unseen _ _ _ Ht) as Hn.
      destruct (IH _ _ Ht) as [pre [post [-> Hpre]]].
      exists (v :: pre), post. split; [reflexivity|].
      intros u [->|Hu]%elem_of_cons; [set_solver | apply Hpre, Hu].
Qed.

Lemma fresh_id l : forall seen,
  NoDup (key_of <$> l) -> (forall t, t ∈ l -> key_of t ∉ seen) -> fresh seen l = l.
Proof.
  induction l as [|v r IH]; intros seen Hnd Hun; [reflexivity|].
  cbn [fresh]. cbn in Hnd. apply NoDup_cons in Hnd as [Hv Hnd].
  destruct (decide (key_of v ∈ seen)) as [Hin|_].
  - exfalso. apply (Hun v); [left | exact Hin].
  - f_equal. apply IH; [exact Hnd|].
    intros t Ht. assert (Ht' : t ∈ v :: r) by (right; exact Ht).
    specialize (Hun t Ht').
    assert (Hne : key_of t <> key_of v).
    { intros E. apply Hv. rewrite <- E. apply list_elem_of_fmap. eauto. }
    intros [H1|H1]%elem_of_union; [|exact (Hun H1)].
    apply elem_of_singleton in H1. exact (Hne H1).
Qed.

Lemma foldl_collect_step l : forall acc seen,
  (foldl collect_step (acc, seen) l).1 = (acc ++ fresh seen (List.filter has_id l))%list.
Proof.
  induction l as [|t r IH]; intros acc seen; cbn [foldl List.filter fresh].
  - cbn. rewrite app_nil_r. reflexivity.
  - unfold collect_step at 2. unfold has_id at 1. cbn [fst snd].
    destruct (PyStr.is_empty (tender_id t)) eqn:He; cbn [negb andb]; [apply IH|].
    assert (Hk : key_of t = tender_id t) by (unfold key_of; rewrite He; reflexivity).
    cbn [fresh]. rewrite Hk.
    destruct (decide (tender_id t ∈ seen)) as [Hin|Hin].
    + rewrite bool_decide_eq_false_2 by (intros H; exact (H Hin)). apply IH.
    + rewrite bool_decide_eq_true_2 by exact Hin.
      rewrite IH, <- app_assoc. reflexivity.
Qed.

Lemma foldl_collect_batch batches : forall st,
  foldl collect_batch st batches = foldl collect_step st (concat batches).
Proof.
  induction batches as [|b r IH]; intros st; [reflexivity|].
  cbn [foldl concat]. rewrite IH. unfold collect_batch. rewrite foldl_app.
  reflexivity.
Qed.

Lemma collect_fresh batches :
  collect batches = fresh ∅ (List.filter has_id (concat batches)).
Proof.
  unfold collect. rewrite foldl_collect_batch. apply foldl_collect_step.
Qed.

(** C9 fails as stated on the marketplace scraper: a record without
    identifier is not keyed by its title there, it is dropped.  The merge of
    the shipyard scraper keeps it. *)
Lemma collect_drops_record_without_id :
  tender_id untitled_id = "" /\ title untitled_id = "Supply of scaffolding"
  /\ collect [[untitled_id]] = []
  /\ dedup [untitled_id] = [untitled_id].
Proof. repeat split; vm_compute; reflexivity. Qed.

(** C9, amended.  The merge of the shipyard scraper deduplicates with the
    key [tender_id], or [title] when the identifier is empty: its result is
    a sub-list of the input in input order, has no two records with the same
    key, has a record for every key of the input, and holds of each key the
    first record of the input; it returns a list without duplicate keys
    unchanged, so it is idempotent; two records with the same non-empty
    identifier collapse to the first.  The collection of the marketplace
    scraper drops the records without identifier and merges the others in
    the same way, across all batches; it is idempotent too. *)
Theorem merge_keeps_first_seen (l : list Tender) (batches : list (list Tender)) :
  (forall t, key_of t = if PyStr.is_empty (tender_id t) then title t else tender_id t)
  /\ sublist (dedup l) l
  /\ NoDup (key_of <$> dedup l)
  /\ (forall t, t ∈ l -> exists t', t' ∈ dedup l /\ key_of t' = key_of t)
  /\ (forall t, t ∈ dedup l ->
        exists pre post, l = (pre ++ t :: post)%list
          /\ forall u, u ∈ pre -> key_of u <> key_of t)
  /\ (NoDup (key_of <$> l) -> dedup l = l)
  /\ dedup (dedup l) = dedup l
  /\ (forall a b, tender_id a = tender_id b -> tender_id a <> "" ->
        dedup [a; b] = [a])
  /\ collect batches = dedup (List.filter has_id (concat batches))
  /\ collect [collect batches] = collect batches.
Proof.
  assert (Hidem : forall m, NoDup (key_of <$> m) -> dedup m = m).
  { intros m Hm. rewrite dedup_fresh. apply fresh_id; [exact Hm|].
    intros t _. apply not_elem_of_empty. }
  split; [reflexivity|].
  split; [rewrite dedup_fresh; apply fresh_sublist|].
  split; [rewrite dedup_fresh; apply fresh_NoDup|].
  split.
  { intros t Ht. rewrite dedup_fresh.
    destruct (fresh_covers l ∅ t Ht) as [H|H]; [|exact H].
    exfalso. exact (not_elem_of_empty _ H). }
  split; [rewrite dedup_fresh; apply fresh_first|].
  split; [apply Hidem|].
  split; [apply Hidem; rewrite dedup_fresh; apply fresh_NoDup|].
  split.
  { intros a b Hab Hne. rewrite dedup_fresh. cbn [fresh].
    assert (Hk : key_of b = key_of a).
    { unfold key_of. rewrite <- Hab.
      destruct (tender_id a); [congruence | reflexivity]. }
    rewrite Hk.
    destruct (decide (key_of a ∈ ∅)) as [H|_];
      [exfalso; exact (not_elem_of_empty _ H)|].
    destruct (decide (key_of a ∈ {[key_of a]} ∪ ∅)) as [_|H];
      [reflexivity | exfalso; apply H; set_solver]. }
  split; [rewrite collect_fresh, dedup_fresh; reflexivity|].
  rewrite !collect_fresh. cbn [concat]. rewrite app_nil_r.
  set (m := List.filter has_id (concat batches)).
  assert (Hall : forall t, t ∈ fresh ∅ m -> has_id t = true).
  { intros t Ht. pose proof (elem_of_sublist _ _ _ Ht (fresh_sublist m ∅)) as Hm.
    apply list_elem_of_In, filter_In in Hm. apply Hm. }
  assert (Hf : List.filter has_id (fresh ∅ m) = fresh ∅ m).
  { generalize dependent (fresh ∅ m). intros k Hk.
    induction k as [|t r IH]; [reflexivity|]. cbn [List.filter].
    rewrite (Hk t) by left. f_equal. apply IH. intros u Hu. apply Hk. right. exact Hu. }
  rewrite Hf. apply fresh_id; [apply fresh_NoDup|].
  intros t _. apply not_elem_of_empty.
Qed.

Lemma merge_keeps_first_seen_witness :
  dedup [first_seen; untitled_id; seen_again] = [first_seen; untitled_id]
  /\ dedup [first_seen; untitled_id] = [first_seen; untitled_id]
  /\ collect [[first_seen; untitled_id]; [seen_again]] = [first_seen].
Proof.
  destruct (merge_keeps_first_seen [first_seen; untitled_id]
              [[first_seen; untitled_id]; [seen_again]])
    as [_ [_ [_ [_ [_ [Hid [_ [Htwo [Hcol _]]]]]]]]].
  split; [vm_compute; reflexivity|].
  split.
  - apply Hid. vm_compute.
    apply NoDup_cons. split; [vm_compute; intros H; inversion H as [|? ? ? H']; inversion H'|].
    apply NoDup_cons. split; [intros H; inversion H | constructor].
  - rewrite Hcol. vm_compute. reflexivity.
Defined.

End Merging.

(* ===================================================================== *)
(** * Stable sorting *)
(* ===================================================================== *)

Section StableSort.
Import TenderFilter Ranking.

Context {A K : Type}.
Variable key : A -> K.
Variable lt : K -> K -> bool.

Hypothesis lt_asym : forall a b, lt a b = true -> lt b a = false.
Hypothesis lt_negtrans :
  forall a b c, lt a b = false -> lt b c = false -> lt a c = false.

Lemma lt_irrefl a : lt a a = false.
Proof. destruct (lt a a) eqn:E; [rewrite (lt_asym _ _ E) in E; discriminate | reflexivity]. Qed.

Lemma insert_by_perm x l : Permutation (insert_by key lt x l) (x :: l).
Proof.
  induction l as [|y r IH]; cbn [insert_by]; [reflexivity|].
  destruct (lt (key y) (key x)); [|reflexivity].
  rewrite IH. apply perm_swap.
Qed.

Lemma sort_by_perm l : Permutation (sort_by key lt l) l.
Proof.
  induction l as [|x r IH]; cbn [sort_by]; [reflexivity|].
  rewrite insert_by_perm, IH. reflexivity.
Qed.

Lemma insert_by_sorted x l :
  StronglySorted (in_order key lt) l ->
  StronglySorted (in_order key lt) (insert_by key lt x l).
Proof.
  induction l as [|y r IH]; intros Hs; cbn [insert_by].
  - repeat constructor.
  - apply StronglySorted_inv in Hs as [Hr Hy].
    destruct (lt (key y) (key x)) eqn:E.
    + constructor; [apply IH, Hr|].
      rewrite List.Forall_forall in *. intros z Hz.
      apply (Permutation_in _ (insert_by_perm x r)) in Hz as [<-|Hz].
      * apply lt_asym, E.
      * apply Hy, Hz.
    + constructor; [constructor; assumption|].
      constructor; [exact E|].
      rewrite List.Forall_forall in *. intros z Hz.
      unfold in_order. apply (lt_negtrans _ (key y)); [apply Hy, Hz | exact E].
Qed.

Lemma sort_by_sorted l : StronglySorted (in_order key lt) (sort_by key lt l).
Proof.
  induction l as [|x r IH]; cbn [sort_by]; [constructor|].
  apply insert_by_sorted, IH.
Qed.

Lemma insert_by_stable z x l :
  List.filter (tied key lt z) (insert_by key lt x l)
  = List.filter (tied key lt z) (x :: l).
Proof.
  induction l as [|y r IH]; cbn [insert_by]; [reflexivity|].
  destruct (lt (key y) (key x)) eqn:E; [|reflexivity].
  cbn [List.filter] in *. rewrite IH.
  destruct (tied key lt z x) eqn:Hx, (tied key lt z y) eqn:Hy; try reflexivity.
  unfold tied in Hx, Hy.
  apply andb_true_iff in Hx as [Hx1 Hx2]. apply andb_true_iff in Hy as [Hy1 Hy2].
  apply negb_true_iff in Hx1, Hx2, Hy1, Hy2.
  rewrite (lt_negtrans _ _ _ Hy2 Hx1) in E. discriminate.
Qed.

(** Records with tied keys keep their input order. *)
Lemma sort_by_stable z l :
  List.filter (tied key lt z) (sort_by key lt l) = List.filter (tied key lt z) l.
Proof.
  induction l as [|x r IH]; cbn [sort_by]; [reflexivity|].
  rewrite insert_by_stable. cbn [List.filter]. rewrite IH. reflexivity.
Qed.

Lemma tied_refl a : tied key lt a a = true.
Proof. unfold tied. rewrite lt_irrefl. reflexivity. Qed.

(** Two sorted lists with the same records of every tie class, in the same
    order, are equal: a stable sort has one possible result. *)
Lemma stable_sorted_unique (l1 : list A) : forall l2,
  StronglySorted (in_order key lt) l1 ->
  StronglySorted (in_order key lt) l2 ->
  (forall z, List.filter (tied key lt z) l1 = List.filter (tied key lt z) l2) ->
  l1 = l2.
Proof.
  induction l1 as [|a r1 IH]; intros l2 H1 H2 Hf.
  - destruct l2 as [|b r2]; [reflexivity|].
    specialize (Hf b). cbn [List.filter] in Hf. rewrite tied_refl in Hf. discriminate.
  - destruct l2 as [|b r2].
    { specialize (Hf a). cbn [List.filter] in Hf. rewrite tied_refl in Hf. discriminate. }
    apply StronglySorted_inv in H1 as [Hr1 Ha]. apply StronglySorted_inv in H2 as [Hr2 Hb].
    rewrite List.Forall_forall in Ha, Hb.
    assert (Hab : a = b).
    { destruct (tied key lt a b) eqn:Et.
      - pose proof (Hf a) as Hfa. cbn [List.filter] in Hfa.
        rewrite tied_refl, Et in Hfa. congruence.
      - exfalso. unfold tied in Et. apply andb_false_iff in Et as [Et|Et];
          apply negb_false_iff in Et.
        + (* a < b: a must occur after b in the second list *)
          pose proof (Hf a) as Hfa. cbn [List.filter] in Hfa. rewrite tied_refl in Hfa.
          assert (Hnt : tied key lt a b = false).
          { unfold tied. rewrite Et. reflexivity. }
          rewrite Hnt in Hfa.
          assert (Hin : In a (List.filter (tied key lt a) r2)) by (rewrite <- Hfa; left; reflexivity).
          apply filter_In in Hin as [Hin _]. specialize (Hb a Hin).
          unfold in_order in Hb. congruence.
        + pose proof (Hf b) as Hfb. cbn [List.filter] in Hfb. rewrite tied_refl in Hfb.
          assert (Hnt : tied key lt b a = false).
          { unfold tied. rewrite Et. reflexivity. }
          rewrite Hnt in Hfb.
          assert (Hin : In b (List.filter (tied key lt b) r1)) by (rewrite Hfb; left; reflexivity).
          apply filter_In in Hin as [Hin _]. specialize (Ha b Hin).
          unfold in_order in Ha. congruence. }
    subst b. f_equal. apply IH; [exact Hr1 | exact Hr2 |].
    intros z. specialize (Hf z). cbn [List.filter] in Hf.
    destruct (tied key lt z a); congruence.
Qed.

(** Whatever stable sort [list.sort] runs, it yields [sort_by]. *)
Lemma stable_sort_unique (l out : list A) :
  StronglySorted (in_order key lt) out ->
  (forall z, List.filter (tied key lt z) out = List.filter (tied key lt z) l) ->
  out = sort_by key lt l.
Proof.
  intros Hs Hf. apply stable_sorted_unique; [exact Hs | apply sort_by_sorted|].
  intros z. rewrite Hf, sort_by_stable. reflexivity.
Qed.

End StableSort.

(* ===================================================================== *)
(** * The filter and sort pipeline *)
(* ===================================================================== *)

Section Filtering.
Import TenderFilter Ranking.

Lemma key_lt_asym (a b : Z * datetime) : key_lt a b = true -> key_lt b a = false.
Proof.
  destruct a as [a1 a2], b as [b1 b2]. unfold key_lt. cbn [fst snd].
  destruct (Z.ltb_spec a1 b1), (Z.ltb_spec b1 a1), (Z.eqb_spec a1 b1),
    (Z.eqb_spec b1 a1), (Z.ltb_spec a2 b2), (Z.ltb_spec b2 a2);
    cbn; intros; try reflexivity; try discriminate; lia.
Qed.

Lemma key_lt_negtrans (a b c : Z * datetime) :
  key_lt a b = false -> key_lt b c = false -> key_lt a c = false.
Proof.
  destruct a as [a1 a2], b as [b1 b2], c as [c1 c2]. unfold key_lt. cbn [fst snd].
  destruct (Z.ltb_spec a1 b1), (Z.eqb_spec a1 b1), (Z.ltb_spec a2 b2),
    (Z.ltb_spec b1 c1), (Z.eqb_spec b1 c1), (Z.ltb_spec b2 c2),
    (Z.ltb_spec a1 c1), (Z.eqb_spec a1 c1), (Z.ltb_spec a2 c2);
    cbn; intros; try reflexivity; try discriminate; lia.
Qed.

Lemma in_order_ranks_before (a b : Tender) :
  in_order sort_key key_lt a b -> ranks_before a b.
Proof.
  unfold in_order, sort_key, key_lt, ranks_before, deadline_or_max. cbn [fst snd].
  destruct (Z.ltb_spec (- match_score b) (- match_score a)),
    (Z.eqb_spec (- match_score b) (- match_score a)),
    (Z.ltb_spec (get (deadline b) datetime_max) (get (deadline a) datetime_max));
    cbn; intros; try discriminate; lia.
Qed.

Lemma tied_same_rank (a b : Tender) : tied sort_key key_lt a b = same_rank a b.
Proof.
  unfold tied, sort_key, key_lt, same_rank, deadline_or_max. cbn [fst snd].
  destruct (Z.ltb_spec (- match_score a) (- match_score b)),
    (Z.ltb_spec (- match_score b) (- match_score a)),
    (Z.eqb_spec (- match_score a) (- match_score b)),
    (Z.eqb_spec (- match_score b) (- match_score a)),
    (Z.eqb_spec (match_score a) (match_score b)),
    (Z.ltb_spec (get (deadline a) datetime_max) (get (deadline b) datetime_max)),
    (Z.ltb_spec (get (deadline b) datetime_max) (get (deadline a) datetime_max)),
    (Z.eqb_spec (get (deadline a) datetime_max) (get (deadline b) datetime_max));
    cbn; try reflexivity; lia.
Qed.

Lemma StronglySorted_weaken {A : Type} (R S : A -> A -> Prop) (l : list A) :
  (forall a b, R a b -> S a b) -> StronglySorted R l -> StronglySorted S l.
Proof.
  intros HRS. induction 1 as [|a l Hl IH Ha]; constructor; [exact IH|].
  rewrite List.Forall_forall in *. intros b Hb. apply HRS, Ha, Hb.
Qed.

(** C6.  [filter_tenders] returns exactly the scored tenders whose score is
    at least [min_score]; they are ordered by score, highest first, then by
    deadline, earliest first, a tender without deadline counting as due at
    the latest possible date; tenders level on both keep their input order.
    Tenders scoring 50, 80 and 50 with deadlines D2, D1 and D1, where
    D1 < D2, come out as 80, 50 (D1), 50 (D2). *)
Theorem filter_tenders_ranked (tenders : list Tender) (profile : Profile)
    (min_score : Z) :
  let kept :=
    List.filter (fun t => min_score <=? match_score t)
      (List.map (fun t => score_tender t profile) tenders) in
  let out := filter_tenders tenders profile min_score in
  Permutation out kept
  /\ (forall t, In t out <->
        (exists u, In u tenders /\ t = score_tender u profile)
        /\ min_score <= match_score t)
  /\ StronglySorted ranks_before out
  /\ (forall a, List.filter (same_rank a) out = List.filter (same_rank a) kept)
  /\ (D1 < D2
      /\ List.map match_score (List.map scored [tender_a; tender_b; tender_c])
         = [50; 80; 50]
      /\ List.map deadline [tender_a; tender_b; tender_c]
         = [Some D2; Some D1; Some D1]
      /\ filter_tenders [tender_a; tender_b; tender_c] pipes_profile 30
         = [scored tender_b; scored tender_c; scored tender_a])
  /\ filter_tenders [tender_d; tender_a; tender_b; tender_c; tender_e] pipes_profile 30
     = [scored tender_b; scored tender_c; scored tender_e; scored tender_a;
        scored tender_d].
Proof.
  intros kept out.
  assert (Hperm : Permutation out kept).
  { apply sort_by_perm. }
  split; [exact Hperm|]. split; [|split; [|split; [|split]]].
  - intros t. split.
    + intros Hin. apply (Permutation_in _ Hperm) in Hin.
      apply filter_In in Hin as [Hin Hs]. apply in_map_iff in Hin as [u [<- Hu]].
      split; [exists u; auto | apply Z.leb_le, Hs].
    + intros [[u [Hu ->]] Hs]. apply (Permutation_in _ (Permutation_sym Hperm)).
      apply filter_In. split; [|apply Z.leb_le, Hs].
      apply (List.in_map (fun t => score_tender t profile)), Hu.
  - apply (StronglySorted_weaken (in_order sort_key key_lt));
      [apply in_order_ranks_before|].
    apply sort_by_sorted; [apply key_lt_asym | apply key_lt_negtrans].
  - intros a.
    rewrite <- !(List.filter_ext (tied sort_key key_lt a) (same_rank a)
                   (tied_same_rank a)).
    apply sort_by_stable, key_lt_negtrans.
  - repeat split; vm_compute; reflexivity.
  - vm_compute. reflexivity.
Qed.

End Filtering.

(* ===================================================================== *)
(** * Further properties of the scoring engine *)
(* ===================================================================== *)

Section ScoringProperties.
Import TenderFilter ScoreRules.

(** Scoring writes the four result fields and nothing else. *)
Lemma score_tender_frame (t : Tender) (p : Profile) :
  tender_id (score_tender t p) = tender_id t
  /\ title (score_tender t p) = title t
  /\ portal (score_tender t p) = portal t
  /\ department (score_tender t p) = department t
  /\ location (score_tender t p) = location t
  /\ budget_min (score_tender t p) = budget_min t
  /\ budget_max (score_tender t p) = budget_max t
  /\ budget_raw (score_tender t p) = budget_raw t
  /\ published_date (score_tender t p) = published_date t
  /\ deadline (score_tender t p) = deadline t
  /\ category (score_tender t p) = category t
  /\ description (score_tender t p) = description t
  /\ url (score_tender t p) = url t.
Proof.
  destruct (exclude_hits t p) eqn:E.
  - rewrite (score_tender_scored t p E). cbn. repeat split.
  - rewrite score_tender_excluded by (rewrite E; discriminate). cbn. repeat split.
Qed.

(** The rules read the descriptive fields only. *)
Lemma rules_read_inputs (t u : Tender) (p : Profile) :
  title t = title u -> description t = description u ->
  category t = category u -> department t = department u ->
  location t = location u -> portal t = portal u ->
  budget_min t = budget_min u -> budget_max t = budget_max u ->
  exclude_hits t p = exclude_hits u p
  /\ tags t p = tags u p
  /\ raw_score t p = raw_score u p
  /\ budget_flag t p = budget_flag u p
  /\ location_hits t p = location_hits u p.
Proof.
  intros H1 H2 H3 H4 H5 H6 H7 H8.
  unfold tags, raw_score, budget_points, budget_flag, portal_points,
    exclude_hits, work_hits, location_hits, corpus_of, location_corpus_of.
  rewrite H1, H2, H3, H4, H5, H6, H7, H8. repeat split.
Qed.

Lemma score_tender_twice (t : Tender) (p : Profile) :
  score_tender (score_tender t p) p = score_tender t p.
Proof.
  destruct (score_tender_frame t p)
    as [_ [H1 [H6 [H4 [H5 [H7 [H8 [_ [_ [_ [H3 [H2 _]]]]]]]]]]]].
  destruct (rules_read_inputs (score_tender t p) t p H1 H2 H3 H4 H5 H6 H7 H8)
    as [He [Ht [Hr [Hb Hl]]]].
  destruct (exclude_hits t p) eqn:E.
  - rewrite (score_tender_scored (score_tender t p) p He).
    rewrite Ht, Hr, Hb, Hl. rewrite (score_tender_scored t p E). reflexivity.
  - assert (Hne : exclude_hits t p <> []) by (rewrite E; discriminate).
    rewrite (score_tender_excluded (score_tender t p) p)
      by (rewrite He; discriminate).
    rewrite He, <- E. rewrite (score_tender_excluded t p Hne). reflexivity.
Qed.

(** X1.  Scoring a tender that is already scored changes nothing, and
    scoring never touches the fields that the scrapers fill in: identifier,
    title, portal, department, location, budget bounds and text, dates,
    category, description and link. *)
Theorem score_tender_idempotent (t : Tender) (p : Profile) :
  score_tender (score_tender t p) p = score_tender t p
  /\ tender_id (score_tender t p) = tender_id t
  /\ title (score_tender t p) = title t
  /\ portal (score_tender t p) = portal t
  /\ department (score_tender t p) = department t
  /\ location (score_tender t p) = location t
  /\ budget_min (score_tender t p) = budget_min t
  /\ budget_max (score_tender t p) = budget_max t
  /\ budget_raw (score_tender t p) = budget_raw t
  /\ published_date (score_tender t p) = published_date t
  /\ deadline (score_tender t p) = deadline t
  /\ category (score_tender t p) = category t
  /\ description (score_tender t p) = description t
  /\ url (score_tender t p) = url t.
Proof.
  split; [apply score_tender_twice | apply score_tender_frame].
Qed.

Lemma match_score_bounds (t : Tender) (p : Profile) :
  0 <= match_score (score_tender t p) <= 100.
Proof.
  destruct (exclude_hits t p) eqn:E.
  - rewrite (score_tender_scored t p E). cbn.
    pose proof (raw_score_nonneg t p). lia.
  - rewrite score_tender_excluded by (rewrite E; discriminate). cbn. lia.
Qed.

Lemma filter_tenders_In (tenders : list Tender) (p : Profile) (min_score : Z) (t : Tender) :
  In t (filter_tenders tenders p min_score) <->
  In t (List.map (fun u => score_tender u p) tenders) /\ min_score <= match_score t.
Proof.
  unfold filter_tenders. split.
  - intros H. apply (Permutation_in _ (sort_by_perm _ _ _)) in H.
    apply filter_In in H as [H Hs]. split; [exact H | apply Z.leb_le, Hs].
  - intros [H Hs]. apply (Permutation_in _ (Permutation_sym (sort_by_perm _ _ _))).
    apply filter_In. split; [exact H | apply Z.leb_le, Hs].
Qed.

(** X2.  With a positive threshold no excluded tender is returned; with a
    threshold of 0 or less nothing is dropped at all, so that the excluded
    tenders, whose score is 0, are returned with the others. *)
Theorem filter_tenders_and_excluded (tenders : list Tender) (p : Profile)
    (min_score : Z) :
  (0 < min_score ->
   forall u, In u tenders -> exclude_hits u p <> [] ->
     ~ In (score_tender u p) (filter_tenders tenders p min_score))
  /\ (min_score <= 0 ->
      Permutation (filter_tenders tenders p min_score)
        (List.map (fun u => score_tender u p) tenders)).
Proof.
  split.
  - intros Hpos u Hu He Hin. apply filter_tenders_In in Hin as [_ Hs].
    rewrite (score_tender_excluded u p He) in Hs. cbn in Hs. lia.
  - intros Hle. unfold filter_tenders. rewrite sort_by_perm.
    replace (List.filter _ _) with (List.map (fun u => score_tender u p) tenders);
      [reflexivity|].
    induction tenders as [|u r IH]; [reflexivity|]. cbn [List.map List.filter].
    pose proof (match_score_bounds u p) as Hb.
    destruct (Z.leb_spec min_score (match_score (score_tender u p))); [|lia].
    f_equal. exact IH.
Qed.

Lemma filter_tenders_and_excluded_witness :
  ~ In (score_tender Samples.underwater_tender Samples.painting_profile)
      (filter_tenders [Samples.painting_tender; Samples.underwater_tender]
         Samples.painting_profile 30)
  /\ Permutation
       (filter_tenders [Samples.painting_tender; Samples.underwater_tender]
          Samples.painting_profile 0)
       [score_tender Samples.painting_tender Samples.painting_profile;
        score_tender Samples.underwater_tender Samples.painting_profile].
Proof.
  split.
  - apply (proj1 (filter_tenders_and_excluded
                    [Samples.painting_tender; Samples.underwater_tender]
                    Samples.painting_profile 30));
      [lia | right; left; reflexivity | vm_compute; discriminate].
  - apply (proj2 (filter_tenders_and_excluded
                    [Samples.painting_tender; Samples.underwater_tender]
                    Samples.painting_profile 0)). lia.
Defined.

Lemma StronglySorted_filter {A : Type} (R : A -> A -> Prop) (f : A -> bool) (l : list A) :
  StronglySorted R l -> StronglySorted R (List.filter f l).
Proof.
  induction 1 as [|a l Hl IH Ha]; cbn [List.filter]; [constructor|].
  destruct (f a); [|exact IH]. constructor; [exact IH|].
  rewrite List.Forall_forall in *. intros b Hb. apply filter_In in Hb as [Hb _].
  apply Ha, Hb.
Qed.

Lemma filter_filter_comm {A : Type} (f g : A -> bool) (l : list A) :
  List.filter f (List.filter g l) = List.filter g (List.filter f l).
Proof.
  induction l as [|a l IH]; [reflexivity|]. cbn [List.filter].
  destruct (f a) eqn:Hf, (g a) eqn:Hg; cbn [List.filter];
    rewrite ?Hf, ?Hg, IH; reflexivity.
Qed.

(** Filtering the sorted list is sorting the filtered list. *)
Lemma sort_by_filter {A K : Type} (key : A -> K) (lt : K -> K -> bool)
    (f : A -> bool) (l : list A) :
  (forall a b, lt a b = true -> lt b a = false) ->
  (forall a b c, lt a b = false -> lt b c = false -> lt a c = false) ->
  List.filter f (sort_by key lt l) = sort_by key lt (List.filter f l).
Proof.
  intros Hasym Hneg. apply (stable_sort_unique key lt Hasym Hneg).
  - apply StronglySorted_filter, sort_by_sorted; assumption.
  - intros z. rewrite filter_filter_comm, (sort_by_stable key lt Hneg).
    apply filter_filter_comm.
Qed.

(** X3.  Raising the threshold only removes tenders from the ranked list:
    the list for the higher threshold is the list for the lower one without
    the tenders below the higher threshold, in the same order. *)
Theorem filter_tenders_threshold (tenders : list Tender) (p : Profile)
    (low high : Z) :
  low <= high ->
  filter_tenders tenders p high
  = List.filter (fun t => high <=? match_score t) (filter_tenders tenders p low).
Proof.
  intros Hle. unfold filter_tenders.
  rewrite (sort_by_filter sort_key key_lt _ _ key_lt_asym key_lt_negtrans).
  f_equal. induction (List.map _ tenders) as [|t r IH]; [reflexivity|].
  cbn [List.filter].
  destruct (Z.leb_spec high (match_score t)), (Z.leb_spec low (match_score t));
    cbn [List.filter]; try lia.
  - destruct (Z.leb_spec high (match_score t)); [|lia]. f_equal. exact IH.
  - destruct (Z.leb_spec high (match_score t)); [lia|]. exact IH.
  - exact IH.
Qed.

Lemma filter_tenders_threshold_witness :
  filter_tenders [Ranking.tender_a; Ranking.tender_b; Ranking.tender_c]
    Ranking.pipes_profile 60
  = [Ranking.scored Ranking.tender_b].
Proof.
  rewrite (filter_tenders_threshold _ _ 30 60); [|lia].
  vm_compute. reflexivity.
Defined.

(** X4.  What a score says about the hits.  A tender that is not excluded
    and matches a work keyword scores at least 40.  A score above 50 needs a
    work keyword hit, and a score above 30 needs a work keyword hit or a
    location hit; a score of 30 needs neither (budget in range on a priority
    portal).  In each case a positive score means no exclude keyword hit. *)
Theorem score_tells_hits (t : Tender) (p : Profile) :
  (exclude_hits t p = [] -> work_hits t p <> [] ->
   40 <= match_score (score_tender t p))
  /\ (50 < match_score (score_tender t p) ->
      exclude_hits t p = [] /\ work_hits t p <> [])
  /\ (30 < match_score (score_tender t p) ->
      exclude_hits t p = [] /\ (work_hits t p <> [] \/ location_hits t p <> [])).
Proof.
  pose proof (work_points_range (work_hits t p)) as Hw.
  pose proof (location_points_range (location_hits t p)) as Hl.
  pose proof (budget_points_range t p) as Hb.
  pose proof (portal_points_range t) as Hp.
  assert (Hw0 : work_hits t p = [] -> work_points (work_hits t p) = 0)
    by (intros ->; reflexivity).
  assert (Hl0 : location_hits t p = [] -> location_points (location_hits t p) = 0)
    by (intros ->; reflexivity).
  assert (Hw1 : work_hits t p <> [] -> 40 <= work_points (work_hits t p)).
  { intros H. apply truthy_true in H. unfold work_points. rewrite H.
    apply len_truthy in H. lia. }
  destruct (exclude_hits t p) eqn:E.
  - rewrite (score_tender_scored t p E). cbn. unfold raw_score.
    split; [|split].
    + intros _ H. specialize (Hw1 H). lia.
    + intros H. split; [reflexivity|]. intros H0. specialize (Hw0 H0). lia.
    + intros H. split; [reflexivity|].
      destruct (work_hits t p) eqn:Ew; [|left; discriminate].
      destruct (location_hits t p) eqn:El; [|right; discriminate].
      specialize (Hw0 eq_refl). specialize (Hl0 eq_refl). lia.
  - rewrite score_tender_excluded by (rewrite E; discriminate). cbn.
    split; [|split]; [discriminate | lia | lia].
Qed.

Lemma score_tells_hits_witness :
  work_hits Samples.painting_tender Samples.painting_profile <> []
  /\ 40 <= match_score (score_tender Samples.painting_tender Samples.painting_profile).
Proof.
  destruct (score_tells_hits Samples.painting_tender Samples.painting_profile)
    as [H40 [H50 _]].
  split.
  - apply H50. vm_compute. reflexivity.
  - apply H40; [vm_compute; reflexivity | vm_compute; discriminate].
Defined.

Lemma search_from_contains (s : string) : forall prev lit,
  PyRe.search_from prev lit s = true -> PyStr.contains lit s = true.
Proof.
  induction s as [|c r IH]; intros prev lit; cbn [PyRe.search_from PyStr.contains].
  - intros H. unfold PyRe.match_at in H. apply andb_true_iff in H as [H _].
    apply andb_true_iff in H as [_ H]. rewrite H. reflexivity.
  - destruct (Utf8.is_cont c).
    + intros H. rewrite (IH _ _ H). apply orb_true_r.
    + intros [H|H]%orb_true_iff.
      * unfold PyRe.match_at in H. apply andb_true_iff in H as [H _].
        apply andb_true_iff in H as [_ H]. rewrite H. reflexivity.
      * rewrite (IH _ _ H). apply orb_true_r.
Qed.

(** X5.  Whole-word matching is stricter than substring matching: on the
    same text, the keywords found by [_contains_any_word] are among those
    found by [_contains_any], in the same order. *)
Theorem word_hits_are_substring_hits (text : string) (keywords : list string) :
  _contains_any_word text keywords
  = List.filter (fun kw => PyRe.search_word (PyStr.lower kw) (_normalise text))
      (_contains_any text keywords).
Proof.
  unfold _contains_any_word, _contains_any.
  induction keywords as [|kw r IH]; [reflexivity|]. cbn [List.filter].
  destruct (PyRe.search_word (PyStr.lower kw) (_normalise text)) eqn:Hw.
  - rewrite (search_from_contains _ _ _ Hw). cbn [List.filter]. rewrite Hw.
    f_equal. exact IH.
  - destruct (PyStr.contains _ _); [cbn [List.filter]; rewrite Hw|]; exact IH.
Qed.

End ScoringProperties.

(* ===================================================================== *)
(** * How a scraper run ends *)
(* ===================================================================== *)

Section RunEnds.
Import NicScraper Pages Runs.

Variable fetch : nat -> page.
Variable browser_result : list Tender.
Variable cutoff_date : datetime.

Lemma records_nil first : records fetch first 0 = [].
Proof. reflexivity. Qed.

(** Every run reads some pages that make it continue, then either has used
    up its page budget or meets a page that ends it. *)
Lemma loop_run remaining : forall i acc,
  exists k, (k <= remaining)%nat
    /\ (forall j, (i <= j < i + k)%nat -> continues fetch cutoff_date j)
    /\ ((k = remaining
         /\ loop fetch browser_result cutoff_date remaining i acc
            = (STOP_MAX_PAGES, (acc ++ records fetch i k)%list))
        \/ ((k < remaining)%nat
            /\ ~ continues fetch cutoff_date (i + k)
            /\ loop fetch browser_result cutoff_date remaining i acc
               = final fetch browser_result (i + k) (acc ++ records fetch i k)%list)).
Proof.
  induction remaining as [|r IH]; intros i acc.
  - exists 0%nat. split; [lia|]. split; [intros j Hj; lia|]. left.
    split; [reflexivity|]. cbn [loop]. rewrite records_nil, app_nil_r. reflexivity.
  - assert (Hstop : ~ continues fetch cutoff_date i ->
      loop fetch browser_result cutoff_date (S r) i acc
      = final fetch browser_result i acc ->
      exists k, (k <= S r)%nat
        /\ (forall j, (i <= j < i + k)%nat -> continues fetch cutoff_date j)
        /\ ((k = S r
             /\ loop fetch browser_result cutoff_date (S r) i acc
                = (STOP_MAX_PAGES, (acc ++ records fetch i k)%list))
            \/ ((k < S r)%nat
                /\ ~ continues fetch cutoff_date (i + k)
                /\ loop fetch browser_result cutoff_date (S r) i acc
                   = final fetch browser_result (i + k)
                       (acc ++ records fetch i k)%list))).
    { intros Hn Hl. exists 0%nat. split; [lia|]. split; [intros j Hj; lia|]. right.
      rewrite Nat.add_0_r, records_nil, app_nil_r. split; [lia|]. split; assumption. }
    cbn [loop]. unfold final in Hstop. cbn [loop] in Hstop.
    destruct (fetch i) as [| |batch] eqn:Hf.
    + apply Hstop; [|reflexivity]. intros [b [Hb _]]. congruence.
    + apply Hstop; [|reflexivity]. intros [b [Hb _]]. congruence.
    + destruct batch as [|t batch].
      * apply Hstop; [|reflexivity]. intros [b [Hb [Hne _]]]. congruence.
      * destruct (reached_cutoff cutoff_date (t :: batch)) eqn:Hr.
        -- apply Hstop; [|reflexivity]. intros [b [Hb [_ Hr']]]. congruence.
        -- clear Hstop.
           destruct (IH (S i) (acc ++ t :: batch)%list) as [k [Hk [Hc Hres]]].
           exists (S k). split; [lia|]. split.
           ++ intros j Hj. destruct (Nat.eq_dec j i) as [->|Hji].
              ** exists (t :: batch). auto.
              ** apply Hc. lia.
           ++ assert (Hrec : (acc ++ records fetch i (S k))%list
                            = ((acc ++ t :: batch) ++ records fetch (S i) k)%list).
              { rewrite records_cons. unfold batch_of at 1. rewrite Hf.
                rewrite <- app_assoc. reflexivity. }
              rewrite Hrec. replace (i + S k)%nat with (S i + k)%nat by lia.
              destruct Hres as [[-> Hl]|[Hlt [Hn Hl]]].
              ** left. split; [reflexivity | exact Hl].
              ** right. split; [lia|]. split; assumption.
Qed.

(** The run that meets its first ending page at [n] returns what that page
    decides, on the records of the pages before. *)
Lemma loop_ends_at remaining i acc n :
  (i <= n < i + remaining)%nat ->
  (forall j, (i <= j < n)%nat -> continues fetch cutoff_date j) ->
  ~ continues fetch cutoff_date n ->
  loop fetch browser_result cutoff_date remaining i acc
  = final fetch browser_result n (acc ++ records fetch i (n - i))%list.
Proof.
  intros Hn Hc Hnc.
  destruct (loop_run remaining i acc) as [k [Hk [Hck [[-> Hl]|[Hlt [Hnk Hl]]]]]].
  - exfalso. apply Hnc, Hck. lia.
  - assert (Heq : (i + k = n)%nat).
    { destruct (Nat.lt_trichotomy (i + k) n) as [H|[H|H]]; [|exact H|].
      - exfalso. apply Hnk, Hc. lia.
      - exfalso. apply Hnc, Hck. lia. }
    rewrite Hl, Heq. replace (n - i)%nat with k by lia. reflexivity.
Qed.

Lemma loop_uses_budget remaining i acc :
  (forall j, (i <= j < i + remaining)%nat -> continues fetch cutoff_date j) ->
  loop fetch browser_result cutoff_date remaining i acc
  = (STOP_MAX_PAGES, (acc ++ records fetch i remaining)%list).
Proof.
  intros Hc.
  destruct (loop_run remaining i acc) as [k [Hk [Hck [[-> Hl]|[Hlt [Hnk Hl]]]]]].
  - exact Hl.
  - exfalso. apply Hnk, Hc. lia.
Qed.

(** What ended the run, read back from its result. *)
Lemma scrape_inversion max_pages :
  exists k, (k <= max_pages)%nat
    /\ (forall j, (1 <= j <= k)%nat -> continues fetch cutoff_date j)
    /\ ((k = max_pages
         /\ scrape fetch browser_result cutoff_date max_pages
            = (STOP_MAX_PAGES, records fetch 1 k))
        \/ ((k < max_pages)%nat
            /\ ~ continues fetch cutoff_date (S k)
            /\ scrape fetch browser_result cutoff_date max_pages
               = final fetch browser_result (S k) (records fetch 1 k))).
Proof.
  unfold scrape. destruct (loop_run max_pages 1 []) as [k [Hk [Hc Hres]]].
  exists k. split; [exact Hk|]. split; [intros j Hj; apply Hc; lia|].
  cbn [List.app Nat.add] in Hres. exact Hres.
Qed.

(** X6.  A run ends on an empty page or on a failed fetch at page [n]
    exactly when [n] is within the page cap, the pages before made it
    continue, and page [n] is empty, respectively cannot be fetched.  Either
    way it returns the records of the pages 1, ..., [n - 1]: what was
    collected is kept. *)
Theorem scrape_keeps_partial_result (max_pages n : nat) (res : list Tender) :
  (scrape fetch browser_result cutoff_date max_pages = (STOP_EMPTY n, res) <->
   (1 <= n <= max_pages)%nat
   /\ (forall j, (1 <= j < n)%nat -> continues fetch cutoff_date j)
   /\ fetch n = Listing []
   /\ res = records fetch 1 (n - 1))
  /\ (scrape fetch browser_result cutoff_date max_pages = (STOP_FETCH_FAILED n, res) <->
      (1 <= n <= max_pages)%nat
      /\ (forall j, (1 <= j < n)%nat -> continues fetch cutoff_date j)
      /\ fetch n = FetchFailed
      /\ res = records fetch 1 (n - 1)).
Proof.
  split; split.
  - intros H. destruct (scrape_inversion max_pages) as [k [Hk [Hc [[_ Hl]|[Hlt [_ Hl]]]]]];
      rewrite Hl in H; [discriminate|]. unfold final in H.
    destruct (fetch (S k)) as [| |[|t b]] eqn:Hf; try discriminate.
    injection H as <- <-. split; [lia|]. split; [intros j Hj; apply Hc; lia|].
    split; [exact Hf|]. f_equal. lia.
  - intros [Hn [Hc [Hf ->]]]. unfold scrape.
    rewrite (loop_ends_at max_pages 1 [] n); [| lia | exact Hc |].
    + unfold final. rewrite Hf. reflexivity.
    + intros [b [Hb [Hne _]]]. congruence.
  - intros H. destruct (scrape_inversion max_pages) as [k [Hk [Hc [[_ Hl]|[Hlt [_ Hl]]]]]];
      rewrite Hl in H; [discriminate|]. unfold final in H.
    destruct (fetch (S k)) as [| |[|t b]] eqn:Hf; try discriminate.
    injection H as <- <-. split; [lia|]. split; [intros j Hj; apply Hc; lia|].
    split; [exact Hf|]. f_equal. lia.
  - intros [Hn [Hc [Hf ->]]]. unfold scrape.
    rewrite (loop_ends_at max_pages 1 [] n); [| lia | exact Hc |].
    + unfold final. rewrite Hf. reflexivity.
    + intros [b [Hb _]]. congruence.
Qed.

(** X7.  When page [n] answers with a client-side shell, the run returns the
    result of the browser fallback alone: the records collected from the
    pages 1, ..., [n - 1] are dropped (the fallback starts again at page 1). *)
Theorem scrape_switch_drops_collected (max_pages n : nat) (res : list Tender) :
  scrape fetch browser_result cutoff_date max_pages = (SWITCH_TO_BROWSER n, res) <->
  (1 <= n <= max_pages)%nat
  /\ (forall j, (1 <= j < n)%nat -> continues fetch cutoff_date j)
  /\ fetch n = JsShell
  /\ res = browser_result.
Proof.
  split.
  - intros H. destruct (scrape_inversion max_pages) as [k [Hk [Hc [[_ Hl]|[Hlt [_ Hl]]]]]];
      rewrite Hl in H; [discriminate|]. unfold final in H.
    destruct (fetch (S k)) as [| |[|t b]] eqn:Hf; try discriminate.
    injection H as <- <-. split; [lia|]. split; [intros j Hj; apply Hc; lia|].
    split; [exact Hf | reflexivity].
  - intros [Hn [Hc [Hf ->]]]. unfold scrape.
    rewrite (loop_ends_at max_pages 1 [] n); [| lia | exact Hc |].
    + unfold final. rewrite Hf. reflexivity.
    + intros [b [Hb _]]. congruence.
Qed.

(** X8.  A run ends on the page cap exactly when each of the pages
    1, ..., [max_pages] was parsed into a non-empty batch that did not reach
    the cutoff; it returns the records of exactly these pages.  With a cap of
    0 it returns nothing. *)
Theorem scrape_page_cap (max_pages : nat) (res : list Tender) :
  (scrape fetch browser_result cutoff_date max_pages = (STOP_MAX_PAGES, res) <->
   (forall j, (1 <= j <= max_pages)%nat -> continues fetch cutoff_date j)
   /\ res = records fetch 1 max_pages)
  /\ scrape fetch browser_result cutoff_date 0 = (STOP_MAX_PAGES, []).
Proof.
  split; [|reflexivity]. split.
  - intros H. destruct (scrape_inversion max_pages) as [k [Hk [Hc [[-> Hl]|[Hlt [_ Hl]]]]]];
      rewrite Hl in H.
    + injection H as <-. split; [exact Hc | reflexivity].
    + unfold final in H. destruct (fetch (S k)) as [| |[|t b]]; discriminate.
  - intros [Hc ->]. unfold scrape.
    rewrite loop_uses_budget; [reflexivity|]. intros j Hj. apply Hc. lia.
Qed.

(** X11.  The cutoff test of the loop and [is_recent] agree: a batch reaches
    the cutoff exactly when the date of one of its records, the publish date
    or else the deadline, is not recent.  A record without any date counts
    as recent and never stops the loop. *)
Theorem reached_cutoff_is_not_recent (batch : list Tender) :
  (reached_cutoff cutoff_date batch = true <->
   exists t, In t batch
     /\ BaseScraper.is_recent cutoff_date (date_of t) = false)
  /\ ((forall t, In t batch -> published_date t = None /\ deadline t = None) ->
      reached_cutoff cutoff_date batch = false).
Proof.
  assert (Hiff : reached_cutoff cutoff_date batch = true <->
                 exists t, In t batch
                   /\ BaseScraper.is_recent cutoff_date (date_of t) = false).
  { rewrite reached_cutoff_earliest. split.
    - intros [m [Hm [_ Hlt]]]. apply In_dates_of in Hm as [t [Ht Hd]].
      exists t. split; [exact Ht|]. rewrite Hd. cbn. apply Z.leb_gt, Hlt.
    - intros [t [Ht Hr]]. destruct (date_of t) as [d|] eqn:Hd; [|discriminate].
      cbn in Hr. apply Z.leb_gt in Hr.
      assert (Hin : In d (dates_of batch)) by (apply In_dates_of; eauto).
      unfold reached_cutoff in *.
      destruct (dates_of batch) as [|d0 ds] eqn:Hds; [destruct Hin|].
      destruct (py_min_least d0 ds) as [_ [Hle Hall]].
      exists (py_min d0 ds). split; [|split].
      + destruct (py_min_least d0 ds) as [[->|H] _]; [left; reflexivity | right; exact H].
      + intros d' [<-|Hd']; [exact Hle | apply Hall, Hd'].
      + destruct Hin as [<-|Hin]; [lia | specialize (Hall d Hin); lia]. }
  split; [exact Hiff|].
  intros Hnone. destruct (reached_cutoff cutoff_date batch) eqn:Hr; [|reflexivity].
  destruct (proj1 Hiff eq_refl) as [t [Ht Hrec]]. destruct (Hnone t Ht) as [Hp Hd].
  unfold date_of in Hrec. rewrite Hp, Hd in Hrec. discriminate.
Qed.

End RunEnds.

Lemma loop_reads_its_budget (fetch fetch' : nat -> NicScraper.page)
    (browser_result : list Tender) (cutoff_date : datetime) (remaining : nat) :
  forall i acc,
  (forall j, (i <= j < i + remaining)%nat -> fetch j = fetch' j) ->
  NicScraper.loop fetch browser_result cutoff_date remaining i acc
  = NicScraper.loop fetch' browser_result cutoff_date remaining i acc.
Proof.
  induction remaining as [|r IH]; intros i acc Hsame; [reflexivity|].
  cbn [NicScraper.loop]. rewrite <- (Hsame i) by lia.
  destruct (fetch i) as [| |[|t b]]; try reflexivity.
  destruct (NicScraper.reached_cutoff cutoff_date (t :: b)); [reflexivity|].
  apply IH. intros j Hj. apply Hsame. lia.
Qed.

(** X9.  A run never reads beyond its page cap: two portals that serve the
    same pages 1, ..., [max_pages] give the same run, whatever they serve
    after. *)
Theorem scrape_reads_pages_up_to_cap (fetch fetch' : nat -> NicScraper.page)
    (browser_result : list Tender) (cutoff_date : datetime) (max_pages : nat) :
  (forall j, (1 <= j <= max_pages)%nat -> fetch j = fetch' j) ->
  NicScraper.scrape fetch browser_result cutoff_date max_pages
  = NicScraper.scrape fetch' browser_result cutoff_date max_pages.
Proof.
  intros Hsame. apply loop_reads_its_budget. intros j Hj. apply Hsame. lia.
Qed.

Lemma scrape_reads_pages_up_to_cap_witness :
  NicScraper.scrape Pages.three_pages [] 100 1
  = NicScraper.scrape Runs.endless [] 100 1.
Proof.
  apply scrape_reads_pages_up_to_cap. intros j Hj.
  assert (Hj1 : j = 1%nat) by lia. rewrite Hj1. reflexivity.
Defined.

Lemma scrape_keeps_partial_result_witness :
  NicScraper.scrape Runs.fails_on_second [] 100 5
  = (NicScraper.STOP_FETCH_FAILED 2, [Pages.second_page_record])
  /\ NicScraper.scrape Pages.two_pages [] 100 5
     = (NicScraper.STOP_EMPTY 3, [Pages.late_published; Pages.second_page_record]).
Proof.
  split.
  - apply (proj2 (scrape_keeps_partial_result Runs.fails_on_second [] 100 5 2
                    [Pages.second_page_record])).
    split; [lia|]. split; [|split; reflexivity].
    intros j Hj. assert (Hj1 : j = 1%nat) by lia. rewrite Hj1.
    exists [Pages.second_page_record].
    split; [reflexivity | split; [discriminate | vm_compute; reflexivity]].
  - apply (proj1 (scrape_keeps_partial_result Pages.two_pages [] 100 5 3
                    [Pages.late_published; Pages.second_page_record])).
    split; [lia|]. split; [|split; reflexivity].
    intros j Hj. assert (Hj1 : j = 1%nat \/ j = 2%nat) by lia.
    destruct Hj1 as [-> | ->].
    + exists [Pages.late_published].
      split; [reflexivity | split; [discriminate | vm_compute; reflexivity]].
    + exists [Pages.second_page_record].
      split; [reflexivity | split; [discriminate | vm_compute; reflexivity]].
Defined.

Lemma scrape_switch_drops_collected_witness :
  NicScraper.scrape Runs.shell_on_third [Pages.old_record] 100 5
  = (NicScraper.SWITCH_TO_BROWSER 3, [Pages.old_record]).
Proof.
  apply (scrape_switch_drops_collected Runs.shell_on_third [Pages.old_record] 100 5 3
           [Pages.old_record]).
  split; [lia|]. split; [|split; reflexivity].
  intros j Hj. assert (Hj1 : j = 1%nat \/ j = 2%nat) by lia.
  destruct Hj1 as [-> | ->].
  - exists [Pages.second_page_record].
    split; [reflexivity | split; [discriminate | vm_compute; reflexivity]].
  - exists [Pages.late_published].
    split; [reflexivity | split; [discriminate | vm_compute; reflexivity]].
Defined.

Lemma scrape_page_cap_witness :
  NicScraper.scrape Runs.endless [] 100 2
  = (NicScraper.STOP_MAX_PAGES, [Pages.second_page_record; Pages.second_page_record]).
Proof.
  apply (proj1 (scrape_page_cap Runs.endless [] 100 2
                  [Pages.second_page_record; Pages.second_page_record])).
  split; [|reflexivity].
  intros j Hj. exists [Pages.second_page_record].
  split; [reflexivity | split; [discriminate | vm_compute; reflexivity]].
Defined.

Lemma reached_cutoff_is_not_recent_witness :
  NicScraper.reached_cutoff 100 [Tender_default; Pages.second_page_record] = false
  /\ NicScraper.reached_cutoff 100 [Tender_default] = false.
Proof.
  split; [vm_compute; reflexivity|].
  apply (proj2 (reached_cutoff_is_not_recent 100 [Tender_default])).
  intros t [<-|[]]. split; reflexivity.
Defined.

(* ===================================================================== *)
(** * The records built from listing rows *)
(* ===================================================================== *)

Section RowParsing.
Import NicParser.

Variable _parse_date : string -> option datetime.

Lemma omap_cons {A B : Type} (f : A -> option B) (x : A) (l : list A) :
  omap f (x :: l)
  = match f x with
    | Some y => y :: omap f l
    | None => omap f l
    end.
Proof. reflexivity. Qed.

Lemma scan_dates_from_published texts p :
  scan_dates _parse_date texts (Some p) = (Some p, head (omap _parse_date texts)).
Proof.
  induction texts as [|txt rest IH]; [reflexivity|].
  cbn [scan_dates]. rewrite omap_cons.
  destruct (_parse_date txt); [reflexivity | exact IH].
Qed.

(** The scan yields the first two texts that read as dates. *)
Lemma scan_dates_first_two texts :
  scan_dates _parse_date texts None
  = (omap _parse_date texts !! 0%nat, omap _parse_date texts !! 1%nat).
Proof.
  induction texts as [|txt rest IH]; [reflexivity|].
  cbn [scan_dates]. rewrite omap_cons.
  destruct (_parse_date txt) as [d|]; [|exact IH].
  rewrite scan_dates_from_published.
  destruct (omap _parse_date rest); reflexivity.
Qed.

Lemma string_app_assoc (a b c : string) : ((a ++ b) ++ c = a ++ b ++ c)%string.
Proof. induction a; cbn; [reflexivity | congruence]. Qed.

Lemma prefix_http_app (base rest : string) :
  String.prefix "http" base = true -> String.prefix "http" (base ++ rest) = true.
Proof.
  intros H. apply prefix_app in H as [post ->]. apply prefix_app.
  exists (post ++ rest)%string. apply string_app_assoc.
Qed.

Lemma lstrip_slash_head (s : string) : String.prefix "/" (lstrip_slash s) = false.
Proof.
  induction s as [|c r IH]; [reflexivity|]. cbn [lstrip_slash].
  destruct (Ascii.eqb c "/") eqn:E; [exact IH|].
  cbn [String.prefix]. destruct (ascii_dec "/" c) as [<-|]; [|reflexivity].
  discriminate.
Qed.

Lemma resolve_url_http (base listing : string) (h : option string) :
  String.prefix "http" base = true ->
  String.prefix "http" listing = true ->
  String.prefix "http" (resolve_url base listing h) = true.
Proof.
  intros Hb Hl. unfold resolve_url. destruct h as [a|]; [|exact Hl].
  destruct (PyStr.is_empty a); [exact Hl|]. cbn [negb].
  destruct (String.prefix "http" a) eqn:Ha; [exact Ha|].
  apply prefix_http_app, Hb.
Qed.

(** X10.  The link of a record is always absolute, whatever [href] the
    page gives: an absolute [href] is kept, a missing or empty one gives the
    listing page, and a relative one is put after the base with exactly one
    slash between them, so that "path", "/path" and "//path" give the same
    link. *)
Theorem resolve_url_absolute (base listing : string) (h : option string) :
  String.prefix "http" base = true ->
  String.prefix "http" listing = true ->
  String.prefix "http" (resolve_url base listing h) = true
  /\ (forall a, String.prefix "http" a = true -> resolve_url base listing (Some a) = a)
  /\ resolve_url base listing None = listing
  /\ resolve_url base listing (Some "") = listing
  /\ (forall r, PyStr.is_empty r = false -> String.prefix "http" r = false ->
        resolve_url base listing (Some ("/" ++ r)%string)
        = resolve_url base listing (Some r)
        /\ exists path, resolve_url base listing (Some r) = (base ++ "/" ++ path)%string
             /\ String.prefix "/" path = false).
Proof.
  intros Hb Hl. split; [|split; [|split; [|split]]].
  - apply resolve_url_http; assumption.
  - intros a Ha. unfold resolve_url. rewrite Ha.
    destruct a; [discriminate | reflexivity].
  - reflexivity.
  - reflexivity.
  - intros r Hr Hp. unfold resolve_url. rewrite Hr, Hp. cbn [negb].
    split.
    + cbn [String.append PyStr.is_empty negb String.prefix lstrip_slash].
      destruct (ascii_dec "h" "/") as [E|_]; [discriminate E|].
      cbn [Ascii.eqb Bool.eqb]. reflexivity.
    + exists (lstrip_slash r). split; [reflexivity | apply lstrip_slash_head].
Qed.

Lemma resolve_url_absolute_witness :
  resolve_url DEFPROC_BASE DEFPROC_TENDERS_URL (Some "//nicgep/app?id=77")
  = "https://defproc.gov.in/nicgep/app?id=77".
Proof.
  destruct (resolve_url_absolute DEFPROC_BASE DEFPROC_TENDERS_URL None)
    as [_ [_ [_ [_ H]]]]; [reflexivity | reflexivity |].
  destruct (H "/nicgep/app?id=77") as [H1 _]; [reflexivity | reflexivity |].
  destruct (H "nicgep/app?id=77") as [H2 _]; [reflexivity | reflexivity |].
  refine (eq_trans H1 (eq_trans H2 _)). vm_compute. reflexivity.
Defined.

Lemma nic_tender_dates portal_name base listing r :
  let t := nic_tender _parse_date portal_name base listing r in
  let dates := omap _parse_date (skipn 4 (cells r)) in
  published_date t = dates !! 0%nat /\ deadline t = dates !! 1%nat.
Proof.
  cbn [nic_tender published_date deadline]. unfold row_dates.
  rewrite scan_dates_first_two. split; reflexivity.
Qed.

Lemma defproc_row_Some r t :
  defproc_row _parse_date r = Some t ->
  t = nic_tender _parse_date "defproc (Defence)" DEFPROC_BASE DEFPROC_TENDERS_URL r
  /\ (4 <= List.length (cells r))%nat /\ title t <> "".
Proof.
  unfold defproc_row.
  destruct (Nat.ltb_spec (List.length (cells r)) 4) as [|Hlen]; [discriminate|].
  cbv zeta.
  destruct (PyStr.is_empty (title (nic_tender _ _ _ _ r))) eqn:E; [discriminate|].
  intros [= <-]. split; [reflexivity|]. split; [lia|].
  intros Ht. rewrite Ht in E. discriminate.
Qed.

Lemma cppp_row_Some r t :
  cppp_row _parse_date r = Some t ->
  t = nic_tender _parse_date "CPPP (Central eProcure)" CPPP_BASE CPPP_TENDERS_URL r
  /\ (4 <= List.length (cells r))%nat /\ title t <> "".
Proof.
  unfold cppp_row.
  destruct (Nat.ltb_spec (List.length (cells r)) 4) as [|Hlen]; [discriminate|].
  destruct (first_holds_th r || looks_like_header r); [discriminate|].
  destruct (PyStr.is_empty (cell r 2)) eqn:E; [discriminate|].
  intros [= <-]. split; [reflexivity|]. split; [lia|].
  cbn [nic_tender title]. intros Ht. rewrite Ht in E. discriminate.
Qed.

(** A record built by either row loop. *)
Lemma parsed_record t rows :
  In t (defproc_rows _parse_date rows) \/ In t (cppp_rows _parse_date rows) ->
  exists r portal_name base listing,
    In r rows
    /\ t = nic_tender _parse_date portal_name base listing r
    /\ (4 <= List.length (cells r))%nat /\ title t <> ""
    /\ String.prefix "http" base = true /\ String.prefix "http" listing = true
    /\ ((portal_name = "defproc (Defence)" /\ In t (defproc_rows _parse_date rows))
        \/ (portal_name = "CPPP (Central eProcure)" /\ In t (cppp_rows _parse_date rows))).
Proof.
  intros [H|H].
  - pose proof H as H'. apply list_elem_of_In, list_elem_of_omap in H as [r [Hr Ht]].
    destruct (defproc_row_Some r t Ht) as [-> [Hlen Htitle]].
    exists r, "defproc (Defence)", DEFPROC_BASE, DEFPROC_TENDERS_URL.
    apply list_elem_of_In in Hr. repeat split; auto.
  - pose proof H as H'. apply list_elem_of_In, list_elem_of_omap in H as [r [Hr Ht]].
    destruct (cppp_row_Some r t Ht) as [-> [Hlen Htitle]].
    exists r, "CPPP (Central eProcure)", CPPP_BASE, CPPP_TENDERS_URL.
    apply list_elem_of_In in Hr. repeat split; auto.
Qed.

Lemma parsed_records_dates (rows : list row) (t : Tender) :
  In t (defproc_rows _parse_date rows) \/ In t (cppp_rows _parse_date rows) ->
  NicScraper.date_of t = published_date t.
Proof.
  intros H.
  destruct (parsed_record t rows H) as [r [pn [base [listing [_ [Ht _]]]]]].
  destruct (nic_tender_dates pn base listing r) as [Hp Hd]. rewrite <- Ht in Hp, Hd.
  unfold NicScraper.date_of. destruct (published_date t) eqn:E; [reflexivity|].
  rewrite Hd. destruct (omap _parse_date (skipn 4 (cells r))); [reflexivity|discriminate].
Qed.

(** X12.  Every record that the row loops of the CPPP and defence parsers
    build has a non-empty title, its location equal to its department, an
    absolute link, no budget and the default score.  Its publish date is the
    first cell from the fifth on that reads as a date and its deadline the
    second such cell, whatever the columns mean; so it has a deadline only
    if it has a publish date, and the date that the lookback cutoff looks at
    is its publish date. *)
Theorem parsed_records_invariants (rows : list row) (t : Tender) :
  In t (defproc_rows _parse_date rows) \/ In t (cppp_rows _parse_date rows) ->
  title t <> ""
  /\ location t = department t
  /\ String.prefix "http" (url t) = true
  /\ budget_min t = None /\ budget_max t = None /\ match_score t = 0
  /\ (exists r, In r rows
        /\ published_date t = omap _parse_date (skipn 4 (cells r)) !! 0%nat
        /\ deadline t = omap _parse_date (skipn 4 (cells r)) !! 1%nat)
  /\ (deadline t <> None -> published_date t <> None)
  /\ NicScraper.date_of t = published_date t.
Proof.
  intros H.
  destruct (parsed_record t rows H)
    as [r [pn [base [listing [Hr [Ht [Hlen [Htitle [Hb [Hl _]]]]]]]]]].
  destruct (nic_tender_dates pn base listing r) as [Hp Hd]. rewrite <- Ht in Hp, Hd.
  assert (Hdp : deadline t <> None -> published_date t <> None).
  { rewrite Hp, Hd. destruct (omap _parse_date (skipn 4 (cells r))) as [|d ds];
      [intros H0; exact H0 | discriminate]. }
  split; [exact Htitle|]. split; [rewrite Ht; reflexivity|].
  split.
  { rewrite Ht. cbn [nic_tender url].
    apply resolve_url_http; assumption. }
  split; [rewrite Ht; reflexivity|]. split; [rewrite Ht; reflexivity|].
  split; [rewrite Ht; reflexivity|].
  split; [exists r; auto|]. split; [exact Hdp|].
  unfold NicScraper.date_of. destruct (published_date t) eqn:E; [reflexivity|].
  destruct (deadline t) eqn:E'; [|reflexivity].
  exfalso. apply Hdp; [discriminate | reflexivity].
Qed.

(** X13.  For a batch built by these row loops the lookback cutoff is
    reached exactly when one of its records has a publish date before the
    cutoff: the deadlines play no part. *)
Theorem parsed_batch_cutoff (rows : list row) (cutoff_date : datetime)
    (batch : list Tender) :
  batch = defproc_rows _parse_date rows \/ batch = cppp_rows _parse_date rows ->
  NicScraper.reached_cutoff cutoff_date batch = true <->
  exists t d, In t batch /\ published_date t = Some d /\ d < cutoff_date.
Proof.
  intros Hb.
  assert (Hdate : forall t, In t batch -> NicScraper.date_of t = published_date t).
  { intros t Ht. apply (parsed_records_dates rows).
    destruct Hb as [-> | ->]; [left | right]; exact Ht. }
  rewrite reached_cutoff_earliest. split.
  - intros [m [Hm [_ Hlt]]]. apply In_dates_of in Hm as [t [Ht Hd]].
    exists t, m. rewrite <- (Hdate t Ht). auto.
  - intros [t [d [Ht [Hp Hlt]]]].
    assert (Hin : In d (NicScraper.dates_of batch)).
    { apply In_dates_of. exists t. rewrite (Hdate t Ht). auto. }
    unfold NicScraper.reached_cutoff in *.
    destruct (NicScraper.dates_of batch) as [|d0 ds]; [destruct Hin|].
    destruct (py_min_least d0 ds) as [Hmin [Hle Hall]].
    exists (NicScraper.py_min d0 ds). split; [|split].
    + destruct Hmin as [->|Hmin]; [left; reflexivity | right; exact Hmin].
    + intros d' [<-|Hd']; [exact Hle | apply Hall, Hd'].
    + destruct Hin as [<-|Hin]; [lia | specialize (Hall d Hin); lia].
Qed.

(** X14.  Scoring the records of these row loops: they carry no budget, so
    that [budget_in_range] stays unknown and the budget adds nothing; a
    record of the defence parser always gets the 15 points of the priority
    portals and a record of the CPPP parser never does; and the sum never
    reaches the clamp, so the score is the sum itself. *)
Theorem parsed_records_score (rows : list row) (t : Tender) (p : Profile) :
  ScoreRules.exclude_hits t p = [] ->
  (In t (defproc_rows _parse_date rows) ->
   match_score (TenderFilter.score_tender t p)
   = ScoreRules.work_points (ScoreRules.work_hits t p)
     + ScoreRules.location_points (ScoreRules.location_hits t p) + 15
   /\ budget_in_range (TenderFilter.score_tender t p) = None)
  /\ (In t (cppp_rows _parse_date rows) ->
      match_score (TenderFilter.score_tender t p)
      = ScoreRules.work_points (ScoreRules.work_hits t p)
        + ScoreRules.location_points (ScoreRules.location_hits t p)
      /\ budget_in_range (TenderFilter.score_tender t p) = None).
Proof.
  intros He.
  pose proof (work_points_range (ScoreRules.work_hits t p)) as Hw.
  pose proof (location_points_range (ScoreRules.location_hits t p)) as Hl.
  rewrite (score_tender_scored t p He).
  cbn [match_score budget_in_range set_matched_keywords set_match_score
       set_budget_in_range].
  unfold ScoreRules.raw_score, ScoreRules.budget_points, ScoreRules.budget_flag,
    ScoreRules.portal_points.
  split; intros Hin.
  - apply list_elem_of_In, list_elem_of_omap in Hin as [r [_ Hr]].
    destruct (defproc_row_Some r t Hr) as [-> _].
    cbn [nic_tender budget_max budget_min portal]. split; [|reflexivity].
    change (TenderFilter.is_priority_portal "defproc (Defence)") with true.
    cbn iota. lia.
  - apply list_elem_of_In, list_elem_of_omap in Hin as [r [_ Hr]].
    destruct (cppp_row_Some r t Hr) as [-> _].
    cbn [nic_tender budget_max budget_min portal]. split; [|reflexivity].
    change (TenderFilter.is_priority_portal "CPPP (Central eProcure)") with false.
    cbn iota. lia.
Qed.

End RowParsing.

Lemma parsed_records_invariants_witness :
  NicParser.defproc_rows NicParser.sample_parse_date [NicParser.sample_row]
  = [NicParser.nic_tender NicParser.sample_parse_date "defproc (Defence)"
       NicParser.DEFPROC_BASE NicParser.DEFPROC_TENDERS_URL NicParser.sample_row]
  /\ published_date
       (NicParser.nic_tender NicParser.sample_parse_date "defproc (Defence)"
          NicParser.DEFPROC_BASE NicParser.DEFPROC_TENDERS_URL NicParser.sample_row)
     = Some 9
  /\ NicScraper.date_of
       (NicParser.nic_tender NicParser.sample_parse_date "defproc (Defence)"
          NicParser.DEFPROC_BASE NicParser.DEFPROC_TENDERS_URL NicParser.sample_row)
     = Some 9.
Proof.
  split; [vm_compute; reflexivity|]. split; [vm_compute; reflexivity|].
  destruct (parsed_records_invariants NicParser.sample_parse_date
              [NicParser.sample_row]
              (NicParser.nic_tender NicParser.sample_parse_date "defproc (Defence)"
                 NicParser.DEFPROC_BASE NicParser.DEFPROC_TENDERS_URL
                 NicParser.sample_row))
    as [_ [_ [_ [_ [_ [_ [_ [_ H]]]]]]]]; [left; left; vm_compute; reflexivity|].
  rewrite H. vm_compute. reflexivity.
Defined.

Lemma parsed_batch_cutoff_witness :
  NicScraper.reached_cutoff 5
    (NicParser.defproc_rows NicParser.sample_parse_date [NicParser.sample_row])
  = false.
Proof.
  destruct (NicScraper.reached_cutoff 5
              (NicParser.defproc_rows NicParser.sample_parse_date [NicParser.sample_row]))
    eqn:E; [|reflexivity].
  apply (parsed_batch_cutoff NicParser.sample_parse_date [NicParser.sample_row] 5) in E
    as [t [d [Ht [Hp Hlt]]]]; [|left; reflexivity].
  destruct Ht as [<-|[]]. vm_compute in Hp. injection Hp as <-. lia.
Defined.

Lemma parsed_records_score_witness :
  match_score
    (TenderFilter.score_tender
       (NicParser.nic_tender NicParser.sample_parse_date "defproc (Defence)"
          NicParser.DEFPROC_BASE NicParser.DEFPROC_TENDERS_URL NicParser.sample_row)
       Ranking.pipes_profile)
  = 40 + 0 + 15.
Proof.
  destruct (parsed_records_score NicParser.sample_parse_date [NicParser.sample_row]
              (NicParser.nic_tender NicParser.sample_parse_date "defproc (Defence)"
                 NicParser.DEFPROC_BASE NicParser.DEFPROC_TENDERS_URL
                 NicParser.sample_row)
              Ranking.pipes_profile) as [H _]; [vm_compute; reflexivity|].
  destruct H as [H _]; [left; vm_compute; reflexivity|].
  rewrite H. vm_compute. reflexivity.
Defined.

(* ===================================================================== *)
(** * Amounts read from listing rows *)
(* ===================================================================== *)

Section RowAmounts.
Import Base Amount ApScraper.

Lemma binary_round_aux_not_negative (m e : Z) (l : SpecFloat.location) :
  not_negative (binary_round_aux PyFloat.prec PyFloat.emax false m e l) = true.
Proof.
  unfold binary_round_aux.
  destruct (shr_fexp PyFloat.prec PyFloat.emax m e l) as [mrs e'].
  destruct (shr_fexp PyFloat.prec PyFloat.emax _ e' loc_Exact) as [mrs' e''].
  destruct (shr_m mrs'); [reflexivity | | reflexivity].
  destruct (Z.leb e'' _); reflexivity.
Qed.

Lemma of_string_not_negative (s : string) (v : PyFloat.float) :
  PyFloat.of_string s = Ok v -> not_negative v = true.
Proof.
  unfold PyFloat.of_string.
  destruct (PyFloat.decimal_literal s) as [[ip fp]|]; [|discriminate].
  destruct (PyFloat.digits_value 0 (ip ++ fp)); intros [= <-]; try reflexivity.
  unfold PyFloat.of_ratio.
  destruct (SFdiv_core_binary _ _ _ _ _ _) as [[q e] l].
  apply binary_round_aux_not_negative.
Qed.

Lemma mul_not_negative (v k : PyFloat.float) :
  not_negative v = true -> k = crore \/ k = lakh ->
  not_negative (PyFloat.mul v k) = true.
Proof.
  intros Hv Hk. unfold PyFloat.mul.
  assert (Hfin : exists m e, k = S754_finite false m e).
  { destruct Hk as [-> | ->]; vm_compute; eauto. }
  destruct Hfin as [m [e ->]].
  destruct v as [s|s| |s mv ev]; cbn [SFmul not_negative] in *;
    try (apply negb_true_iff in Hv; subst s); try reflexivity.
  cbn [xorb]. apply binary_round_aux_not_negative.
Qed.

Lemma parse_inr_sign (text : string) (v : PyFloat.float) :
  parse_inr text = Ok (Some v) -> not_negative v = true.
Proof.
  intros H.
  rewrite parse_inr_value in H. injection H as H.
  destruct (PyStr.is_empty text); [discriminate|]. cbv zeta in H.
  unfold decimal_value in H.
  destruct (PyFloat.of_string (PyStr.keep digit_or_dot (clean text))) as [x|] eqn:Hx.
  - apply of_string_not_negative in Hx.
    unfold multiplier in H.
    destruct (_ || _) in H.
    + cbn in H. injection H as <-. apply mul_not_negative; auto.
    + destruct (_ || _) in H; cbn in H; injection H as <-;
        [apply mul_not_negative; auto | exact Hx].
  - destruct (multiplier (clean text)); discriminate.
Qed.

(** X15.  [parse_inr] never returns an amount below zero: a minus sign, like
    any other character that is not a digit or a dot, is dropped, so that
    "-500" reads as 500.0. *)
Theorem parse_inr_not_negative (text : string) (v : PyFloat.float) :
  parse_inr text = Ok (Some v) ->
  not_negative v = true
  /\ parse_inr ("-" ++ "500")%string = Ok (Some (PyFloat.of_Z 500)).
Proof.
  intros H. split; [exact (parse_inr_sign text v H) | vm_compute; reflexivity].
Qed.

Lemma parse_inr_not_negative_witness :
  not_negative (PyFloat.of_Z 350000) = true.
Proof.
  apply (parse_inr_not_negative "3.5 Lakh" (PyFloat.of_Z 350000)).
  vm_compute. reflexivity.
Defined.

Lemma parse_inr_amount (txt : string) : parse_inr txt = Ok (amount_of txt).
Proof. unfold amount_of. rewrite parse_inr_value. reflexivity. Qed.

Lemma find_budget_first (texts : list string) :
  find_budget texts
  = Ok (match List.find budget_candidate texts with
        | Some txt => (txt, kept_amount (amount_of txt))
        | None => ("", None)
        end).
Proof.
  induction texts as [|txt rest IH]; [reflexivity|]. cbn [find_budget List.find].
  destruct (budget_candidate txt); [|exact IH].
  rewrite parse_inr_amount. reflexivity.
Qed.

Lemma two_digits_candidate (s : string) (a b : N) (rest : list N) :
  Utf8.decode s = a :: b :: rest ->
  is_decimal a = true -> is_decimal b = true ->
  budget_candidate s = true.
Proof.
  intros Hs Ha Hb. unfold budget_candidate, has_digit_run. rewrite Hs.
  cbn [digit_run]. unfold digit_or_comma. rewrite Ha, Hb. cbn. apply orb_true_r.
Qed.

(** X16.  The budget of a row of the AP parser comes from one cell only:
    the first cell, from the fifth on, that holds a rupee sign, the letters
    "rs" in any case, or a digit followed by a digit or a comma.  Its text
    is [budget_raw] and its amount, when [parse_inr] reads one that is not
    zero, is [budget_max]; no later cell is read, and no cell raises.  Any
    text that begins with two decimal digits, of any script, is such a
    cell, a date included: a publishing date "12-Jan-2026 09:00 AM" standing
    before the estimate is taken as a budget of 1220260900.0.  A cell
    "१२,०००" gives the budget 12000.0; a cell "1200 m²" is taken and gives
    no amount, the superscript being a digit that [float] refuses. *)
Theorem row_budget_first_candidate (cells : list string) :
  row_budget cells
  = Ok (match List.find budget_candidate (skipn 4 cells) with
        | Some txt => (txt, kept_amount (amount_of txt))
        | None => ("", None)
        end)
  /\ (forall raw amount, row_budget cells = Ok (raw, Some amount) ->
        float_truthy amount = true /\ not_negative amount = true)
  /\ (forall s a b rest, Utf8.decode s = a :: b :: rest ->
        is_decimal a = true -> is_decimal b = true ->
        budget_candidate s = true)
  /\ row_budget ["1"; "AP/9"; "Road works"; "R&B"; "Open";
                 "12-Jan-2026 09:00 AM"; "₹ 4,50,000"]
     = Ok ("12-Jan-2026 09:00 AM", Some (PyFloat.of_Z 1220260900))
  /\ row_budget ["1"; "AP/9"; "Road works"; "R&B"; "Open"; "१२,०००"]
     = Ok ("१२,०००", Some (PyFloat.of_Z 12000))
  /\ row_budget ["1"; "AP/9"; "Road works"; "R&B"; "Open"; "1200 m²"; "₹ 900"]
     = Ok ("1200 m²", None).
Proof.
  split; [apply find_budget_first|].
  split; [|split; [apply two_digits_candidate | repeat split; vm_compute; reflexivity]].
  intros raw amount H. unfold row_budget in H. rewrite find_budget_first in H.
  injection H as H.
  destruct (List.find budget_candidate (skipn 4 cells)) as [txt|]; [|discriminate].
  injection H as _ H. unfold kept_amount in H.
  destruct (amount_of txt) as [v|] eqn:Hv; [|discriminate].
  destruct (float_truthy v) eqn:Ht; [|discriminate]. injection H as <-.
  split; [exact Ht|].
  pose proof (parse_inr_amount txt) as Hp. rewrite Hv in Hp.
  exact (parse_inr_sign txt v Hp).
Qed.

End RowAmounts.

(* ===================================================================== *)
(** * Merging the sources of a scraper *)
(* ===================================================================== *)

Section MergedSources.
Import HslScraper GemScraper GemSearch Merge Sources.

Lemma union_seen (seen K : gset string) (k : string) :
  k ∈ seen -> seen ∪ ({[k]} ∪ K) = seen ∪ K.
Proof.
  intros Hin. apply leibniz_equiv. intros x.
  rewrite !elem_of_union, elem_of_singleton.
  split; [|tauto]. intros [H|[H|H]]; [| subst x |]; tauto.
Qed.

Lemma union_unseen (seen K : gset string) (k : string) :
  seen ∪ ({[k]} ∪ K) = {[k]} ∪ seen ∪ K.
Proof.
  apply leibniz_equiv. intros x.
  rewrite !elem_of_union, elem_of_singleton. tauto.
Qed.

Lemma fresh_app (a b : list Tender) : forall seen,
  fresh seen (a ++ b)%list = (fresh seen a ++ fresh (seen ∪ keys a) b)%list.
Proof.
  unfold keys.
  induction a as [|t r IH]; intros seen.
  - cbn. rewrite (right_id_L ∅ (∪)). reflexivity.
  - cbn [app fresh fmap list_fmap list_to_set].
    change (list_fmap _ _ key_of r) with (key_of <$> r).
    destruct (decide (key_of t ∈ seen)) as [Hin|Hin]; rewrite IH.
    + rewrite (union_seen _ _ _ Hin). reflexivity.
    + rewrite union_unseen. reflexivity.
Qed.

Lemma keys_spec (l : list Tender) (k : string) :
  k ∈ keys l <-> exists u, u ∈ l /\ key_of u = k.
Proof.
  unfold keys. rewrite elem_of_list_to_set, list_elem_of_fmap.
  split; intros [u [H1 H2]]; exists u; split; auto.
Qed.

(** X17.  The shipyard scraper gives the portal priority over the main
    site: its result is the deduplicated portal records, in order, followed
    by records of the main site only; these are a sub-list of the main
    site's records, have keys that no portal record has, and no key
    twice.  A main-site record whose key a portal record carries is never
    returned. *)
Theorem hsl_scrape_portal_first (nic_portal main_site : list Tender) :
  exists extra,
    scrape nic_portal main_site = (dedup nic_portal ++ extra)%list
    /\ sublist extra main_site
    /\ NoDup (key_of <$> extra)
    /\ (forall t, t ∈ extra -> forall u, u ∈ nic_portal -> key_of u <> key_of t)
    /\ (forall t, t ∈ main_site ->
          (exists u, u ∈ nic_portal /\ key_of u = key_of t) -> t ∉ extra).
Proof.
  exists (fresh (∅ ∪ keys nic_portal) main_site).
  split; [unfold scrape; rewrite !dedup_fresh; apply fresh_app|].
  split; [apply fresh_sublist|].
  split; [apply fresh_NoDup|].
  assert (Hun : forall t, t ∈ fresh (∅ ∪ keys nic_portal) main_site ->
                  forall u, u ∈ nic_portal -> key_of u <> key_of t).
  { intros t Ht u Hu Hk. apply fresh_unseen in Ht. apply Ht.
    apply elem_of_union_r, keys_spec. exists u. split; assumption. }
  split; [exact Hun|].
  intros t _ [u [Hu Hk]] Ht. exact (Hun t Ht u Hu Hk).
Qed.

Lemma pages_loop_read (remaining : nat) (v : view) : forall page_num st,
  pages_loop remaining page_num v st
  = foldl collect_batch st (pages_read remaining page_num v).
Proof.
  induction remaining as [|r IH]; intros page_num st; [reflexivity|].
  cbn [pages_loop pages_read].
  destruct (v page_num) as [batch next_btn].
  destruct (negb (TenderFilter.truthy batch)); [reflexivity|].
  destruct (negb next_btn); [reflexivity|].
  cbn [foldl]. apply IH.
Qed.

Lemma pages_read_bounds (remaining : nat) (v : view) : forall page_num,
  (length (pages_read remaining page_num v) <= remaining)%nat
  /\ forall b, In b (pages_read remaining page_num v) ->
       exists j, (page_num <= j < page_num + remaining)%nat /\ b = (v j).1.
Proof.
  induction remaining as [|r IH]; intros page_num; [split; [cbn; lia | intros b []]|].
  cbn [pages_read].
  destruct (v page_num) as [batch next_btn] eqn:Hv.
  assert (Hone : (length [batch] <= S r)%nat
                 /\ forall b, In b [batch] ->
                      exists j, (page_num <= j < page_num + S r)%nat /\ b = (v j).1).
  { split; [cbn; lia|]. intros b [<-|[]]. exists page_num. rewrite Hv. split; [lia | reflexivity]. }
  destruct (negb (TenderFilter.truthy batch)); [exact Hone|].
  destruct (negb next_btn); [exact Hone|].
  destruct (IH (S page_num)) as [Hlen Hin]. split; [cbn; lia|].
  intros b [<-|Hb].
  - exists page_num. rewrite Hv. split; [lia | reflexivity].
  - destruct (Hin b Hb) as [j [Hj ->]]. exists j. split; [lia | reflexivity].
Qed.

Lemma scrape_batches (searches : list search) : forall st,
  foldl (fun st s => _search_and_collect s st) st searches
  = foldl collect_batch st (concat (map batches_of searches)).
Proof.
  induction searches as [|s r IH]; intros st; [reflexivity|].
  cbn [foldl map concat]. rewrite IH, foldl_app. f_equal.
  destruct s as [|v]; [reflexivity|]. apply pages_loop_read.
Qed.

Lemma scrape_collect (searches : list search) :
  _scrape_with_playwright searches = collect (concat (map batches_of searches)).
Proof. unfold _scrape_with_playwright, collect. rewrite scrape_batches. reflexivity. Qed.

Lemma collect_elem (batches : list (list Tender)) (t : Tender) :
  t ∈ collect batches -> tender_id t <> "" /\ exists b, In b batches /\ t ∈ b.
Proof.
  rewrite collect_fresh. intros Ht.
  pose proof (elem_of_sublist _ _ _ Ht (fresh_sublist _ ∅)) as Hm.
  apply list_elem_of_In, filter_In in Hm. destruct Hm as [Hc Hid].
  split.
  - unfold has_id in Hid. intros He. rewrite He in Hid. discriminate.
  - apply in_concat in Hc. destruct Hc as [b [Hb Hc]].
    exists b. split; [exact Hb | apply list_elem_of_In, Hc].
Qed.

Lemma key_of_id (t : Tender) : has_id t = true -> key_of t = tender_id t.
Proof.
  unfold has_id, key_of. destruct (PyStr.is_empty (tender_id t)); [discriminate | reflexivity].
Qed.

Lemma collect_NoDup (batches : list (list Tender)) :
  NoDup (tender_id <$> collect batches).
Proof.
  rewrite collect_fresh.
  set (m := List.filter has_id (concat batches)).
  assert (Heq : tender_id <$> fresh ∅ m = key_of <$> fresh ∅ m).
  { apply Forall_fmap_ext_1, Forall_forall. intros t Ht. symmetry. apply key_of_id.
    pose proof (elem_of_sublist _ _ _ Ht (fresh_sublist _ ∅)) as Hm.
    apply list_elem_of_In, filter_In in Hm. apply Hm. }
  rewrite Heq. apply fresh_NoDup.
Qed.

Lemma collect_length (batches : list (list Tender)) :
  (length (collect batches) <= length (concat batches))%nat.
Proof.
  rewrite collect_fresh.
  etransitivity; [apply sublist_length, fresh_sublist|].
  apply List.filter_length_le.
Qed.

Lemma concat_length_le {A : Type} (ls : list (list A)) (m : nat) :
  (forall b, In b ls -> (length b <= m)%nat) ->
  (length (concat ls) <= m * length ls)%nat.
Proof.
  induction ls as [|b r IH]; intros H; [cbn; lia|].
  cbn [concat length]. rewrite length_app.
  specialize (H b (or_introl eq_refl)) as Hb.
  assert (Hr : (length (concat r) <= m * length r)%nat).
  { apply IH. intros c Hc. apply H. right. exact Hc. }
  lia.
Qed.

(** X18.  The marketplace scraper reads at most three result pages of each
    search, whatever the portal offers: every record it returns stands on
    one of the pages 1 to 3 of one of the searches and has an identifier,
    no identifier is returned twice over all the searches, and when no page
    holds more than [m] bids, the run returns at most [3 * m] bids for each
    search term.  A search whose cards never load adds nothing. *)
Theorem gem_scrape_three_pages (searches : list search) (m : nat) :
  (forall v j, In (Results v) searches -> (length (v j).1 <= m)%nat) ->
  (length (_scrape_with_playwright searches) <= 3 * m * length searches)%nat
  /\ NoDup (tender_id <$> _scrape_with_playwright searches)
  /\ (forall t, t ∈ _scrape_with_playwright searches ->
        tender_id t <> ""
        /\ exists v j, In (Results v) searches /\ (1 <= j <= 3)%nat /\ t ∈ (v j).1)
  /\ _scrape_with_playwright (CardsMissing :: searches)
     = _scrape_with_playwright searches.
Proof.
  intros Hm. rewrite !scrape_collect.
  assert (Hb : forall b, In b (concat (map batches_of searches)) ->
                 exists v j, In (Results v) searches /\ (1 <= j <= 3)%nat /\ b = (v j).1).
  { intros b Hb. apply in_concat in Hb. destruct Hb as [bs [Hbs Hb]].
    apply in_map_iff in Hbs. destruct Hbs as [s [<- Hs]].
    destruct s as [|v]; [destruct Hb|].
    destruct (pages_read_bounds PAGES_PER_SEARCH v 1) as [_ Hin].
    destruct (Hin b Hb) as [j [Hj ->]]. exists v, j.
    unfold PAGES_PER_SEARCH in Hj. split; [exact Hs|]. split; [lia | reflexivity]. }
  split.
  { etransitivity; [apply collect_length|].
    etransitivity; [apply (concat_length_le _ m)|].
    - intros b Hin. destruct (Hb b Hin) as [v [j [Hv [_ ->]]]]. apply (Hm v j Hv).
    - assert (Hl : (length (concat (map batches_of searches)) <= 3 * length searches)%nat).
      { clear. induction searches as [|s r IH]; [cbn; lia|].
        cbn [map concat length]. rewrite length_app.
        assert (Hs : (length (batches_of s) <= 3)%nat).
        { destruct s as [|v]; [cbn; lia|].
          apply (pages_read_bounds PAGES_PER_SEARCH v 1). }
        lia. }
      nia. }
  split; [apply collect_NoDup|].
  split; [|reflexivity].
  intros t Ht. apply collect_elem in Ht. destruct Ht as [Hid [b [Hin Ht]]].
  split; [exact Hid|].
  destruct (Hb b Hin) as [v [j [Hv [Hj ->]]]]. exists v, j. auto.
Qed.

(** X19.  Records that the marketplace scraper has collected stay: the
    batches of later pages and later searches only append to the list, and
    never remove or reorder what earlier batches gave. *)
Theorem gem_collect_grows (batches more : list (list Tender)) :
  collect batches `prefix_of` collect (batches ++ more)%list.
Proof.
  rewrite !collect_fresh, concat_app, List.filter_app, fresh_app.
  eexists. reflexivity.
Qed.

End MergedSources.

Lemma gem_scrape_three_pages_witness :
  GemSearch._scrape_with_playwright [GemSearch.Results GemSearch.two_pages]
  = [Merge.first_seen]
  /\ (length (GemSearch._scrape_with_playwright [GemSearch.Results GemSearch.two_pages])
      <= 3 * 2 * 1)%nat.
Proof.
  split; [vm_compute; reflexivity|].
  apply (gem_scrape_three_pages [GemSearch.Results GemSearch.two_pages] 2).
  intros v j [[= <-]|[]]. destruct j as [|[|[|j]]]; cbn; lia.
Defined.

(* ===================================================================== *)
(** * The browser loops *)
(* ===================================================================== *)

Section BrowserLoops.
Import NicScraper BrowserScrape Pages.

Variable load : nat -> loaded.
Variable cutoff_date : datetime.

Lemma cppp_loop_extends (remaining : nat) : forall i acc,
  acc `prefix_of` cppp_loop load remaining i acc.
Proof.
  induction remaining as [|r IH]; intros i acc; cbn [cppp_loop]; [reflexivity|].
  destruct (load i) as [|[|t b]]; [reflexivity | reflexivity |].
  etransitivity; [|apply IH]. apply prefix_app_r. reflexivity.
Qed.

Lemma defproc_loop_prefix (remaining : nat) : forall i acc,
  defproc_loop load cutoff_date remaining i acc `prefix_of` cppp_loop load remaining i acc.
Proof.
  induction remaining as [|r IH]; intros i acc;
    cbn [cppp_loop defproc_loop]; [reflexivity|].
  destruct (load i) as [|[|t b]]; [reflexivity | reflexivity |].
  destruct (reached_cutoff cutoff_date (t :: b)); [apply cppp_loop_extends | apply IH].
Qed.

Lemma defproc_loop_http (browser_result : list Tender) (remaining : nat) : forall i acc,
  defproc_loop load cutoff_date remaining i acc
  = (loop (over_http load) browser_result cutoff_date remaining i acc).2.
Proof.
  induction remaining as [|r IH]; intros i acc;
    cbn [loop defproc_loop]; [reflexivity|].
  unfold over_http at 1.
  destruct (load i) as [|[|t b]]; [reflexivity | reflexivity |].
  destruct (reached_cutoff cutoff_date (t :: b)); [reflexivity | apply IH].
Qed.

Lemma cppp_loop_all (remaining : nat) : forall i acc,
  (forall j, (i <= j < i + remaining)%nat -> exists b, load j = Content b /\ b <> []) ->
  cppp_loop load remaining i acc = (acc ++ records (over_http load) i remaining)%list.
Proof.
  induction remaining as [|r IH]; intros i acc H; cbn [cppp_loop].
  - unfold records. cbn. symmetry. apply app_nil_r.
  - destruct (H i ltac:(lia)) as [b [Hb Hne]].
    rewrite records_cons. unfold batch_of at 1, over_http at 1. rewrite Hb.
    destruct b as [|t b]; [contradiction|].
    rewrite IH by (intros j Hj; apply H; lia).
    rewrite <- app_assoc. reflexivity.
Qed.

(** X20.  The browser loop of the defence-portal scraper stops as its
    HTTP loop does on the same pages, cutoff included.  The browser loop of
    the CPPP scraper has no cutoff test: it returns what the other returns
    and goes on from there, until a page fails to load, a page is empty or
    the cap is reached; when every page up to the cap holds records it
    returns them all, however old they are. *)
Theorem browser_loops_and_cutoff (max_pages : nat) (browser_result : list Tender) :
  defproc_scrape_with_playwright load cutoff_date max_pages
  = (scrape (over_http load) browser_result cutoff_date max_pages).2
  /\ defproc_scrape_with_playwright load cutoff_date max_pages
     `prefix_of` cppp_scrape_with_playwright load max_pages
  /\ ((forall j, (1 <= j <= max_pages)%nat -> exists b, load j = Content b /\ b <> []) ->
      cppp_scrape_with_playwright load max_pages
      = records (over_http load) 1 max_pages).
Proof.
  split; [apply defproc_loop_http|].
  split; [apply defproc_loop_prefix|].
  intros H. unfold cppp_scrape_with_playwright.
  rewrite cppp_loop_all by (intros j Hj; apply H; lia). reflexivity.
Qed.

End BrowserLoops.

Lemma browser_loops_and_cutoff_witness :
  BrowserScrape.cppp_scrape_with_playwright BrowserScrape.stale 3
  = [Pages.old_record; Pages.old_record; Pages.old_record]
  /\ BrowserScrape.defproc_scrape_with_playwright BrowserScrape.stale 100 3
     = [Pages.old_record].
Proof.
  destruct (browser_loops_and_cutoff BrowserScrape.stale 100 3%nat []) as [_ [_ H]].
  split; [|vm_compute; reflexivity].
  refine (eq_trans (H _) _); [|vm_compute; reflexivity].
  intros j _. exists [Pages.old_record]. split; [reflexivity | discriminate].
Defined.

(* ===================================================================== *)
(** * Scoring in place *)
(* ===================================================================== *)

Section InPlaceScoring.
Import TenderFilter.

Variable profile : Profile.

Lemma score_all_snoc (h : list Tender) (l : list nat) (r : nat) :
  InPlace.score_all h (l ++ [r])%list profile
  = (<[r := score_tender (InPlace.deref (InPlace.score_all h l profile).1 r) profile]>
       (InPlace.score_all h l profile).1,
     ((InPlace.score_all h l profile).2 ++ [r])%list).
Proof. unfold InPlace.score_all. rewrite foldl_app. reflexivity. Qed.

Lemma score_all_heap (h : list Tender) (l : list nat) :
  (InPlace.score_all h l profile).2 = l
  /\ forall i : nat,
       (InPlace.score_all h l profile).1 !! i
       = if decide (i ∈ l) then (fun t => score_tender t profile) <$> (h !! i)
         else h !! i.
Proof.
  induction l as [|r l IH] using rev_ind.
  - split; [reflexivity|]. intros i. cbn.
    destruct (decide (i ∈ [])) as [H|_]; [inversion H | reflexivity].
  - destruct IH as [IH2 IH1]. rewrite score_all_snoc. cbn [fst snd].
    split; [rewrite IH2; reflexivity|].
    set (h' := (InPlace.score_all h l profile).1) in *.
    intros i. destruct (decide (i = r)) as [->|Hne].
    + destruct (decide (r ∈ (l ++ [r])%list)) as [_|Hn];
        [|exfalso; apply Hn, elem_of_app; right; left].
      destruct (h !! r) as [t|] eqn:Hr.
      * assert (Hlt : (r < length h')%nat).
        { apply lookup_lt_is_Some. rewrite IH1, Hr.
          destruct (decide (r ∈ l)); eexists; reflexivity. }
        rewrite list_lookup_insert_eq by exact Hlt. cbn. f_equal.
        unfold InPlace.deref. rewrite IH1, Hr.
        destruct (decide (r ∈ l)); cbn; [apply score_tender_twice | reflexivity].
      * assert (Hn : h' !! r = None).
        { rewrite IH1, Hr. destruct (decide (r ∈ l)); reflexivity. }
        apply list_lookup_insert_None. exact Hn.
    + rewrite list_lookup_insert_ne by (intros E; apply Hne; symmetry; exact E).
      rewrite IH1.
      destruct (decide (i ∈ l)) as [Hi|Hi];
        destruct (decide (i ∈ (l ++ [r])%list)) as [Hj|Hj]; try reflexivity; exfalso.
      * apply Hj, elem_of_app. left. exact Hi.
      * apply elem_of_app in Hj as [Hj|Hj]; [exact (Hi Hj)|].
        apply list_elem_of_singleton in Hj. exact (Hne Hj).
Qed.

Lemma insert_by_map {A B K : Type} (f : A -> B) (key : B -> K)
    (lt : K -> K -> bool) (x : A) (l : list A) :
  List.map f (insert_by (fun a => key (f a)) lt x l)
  = insert_by key lt (f x) (List.map f l).
Proof.
  induction l as [|y r IH]; [reflexivity|]. cbn [insert_by List.map].
  destruct (lt (key (f y)) (key (f x))); cbn [List.map]; [rewrite IH|]; reflexivity.
Qed.

Lemma sort_by_map {A B K : Type} (f : A -> B) (key : B -> K)
    (lt : K -> K -> bool) (l : list A) :
  List.map f (sort_by (fun a => key (f a)) lt l) = sort_by key lt (List.map f l).
Proof.
  induction l as [|x r IH]; [reflexivity|]. cbn [sort_by List.map].
  rewrite insert_by_map, IH. reflexivity.
Qed.

Lemma filter_map_comm {A B : Type} (f : A -> B) (q : B -> bool) (l : list A) :
  List.map f (List.filter (fun a => q (f a)) l) = List.filter q (List.map f l).
Proof.
  induction l as [|x r IH]; [reflexivity|]. cbn [List.filter List.map].
  destruct (q (f x)); cbn [List.map]; rewrite IH; reflexivity.
Qed.

(** X21.  Scoring in place agrees with scoring by value.  When the scraped
    list holds live objects, the same object possibly more than once, the
    records of the matched list are those that [filter_tenders] gives on
    the values, and the records of the scraped list, read after the
    filter, are the scored ones: the sheet of all tenders shows every
    tender with its score and tags, an excluded one with score 0. *)
Theorem run_scraper_scores_in_place (h : list Tender)
    (all_tenders : list nat) (min_score : Z) :
  Forall (fun r : nat => (r < length h)%nat) all_tenders ->
  InPlace.run_scraper h all_tenders profile min_score
  = (filter_tenders (List.map (InPlace.deref h) all_tenders) profile min_score,
     List.map (fun t => score_tender t profile)
       (List.map (InPlace.deref h) all_tenders)).
Proof.
  intros Hlive. unfold InPlace.run_scraper, InPlace.filter_tenders.
  destruct (InPlace.score_all h all_tenders profile) as [h' scored] eqn:E.
  pose proof (score_all_heap h all_tenders) as [H2 H1]. rewrite E in H1, H2.
  cbn [fst snd] in H1, H2. subst scored.
  assert (Hd : List.map (InPlace.deref h') all_tenders
               = List.map (fun t => score_tender t profile)
                   (List.map (InPlace.deref h) all_tenders)).
  { rewrite List.map_map. apply List.map_ext_in. intros r Hr.
    unfold InPlace.deref. rewrite H1.
    destruct (decide (r ∈ all_tenders)) as [_|Hn];
      [|exfalso; apply Hn, list_elem_of_In, Hr].
    rewrite List.Forall_forall in Hlive. specialize (Hlive r Hr).
    apply lookup_lt_is_Some in Hlive as [t Ht]. rewrite Ht. reflexivity. }
  f_equal; [|exact Hd].
  unfold filter_tenders.
  rewrite (sort_by_map (InPlace.deref h') sort_key key_lt).
  rewrite (filter_map_comm (InPlace.deref h') (fun t => min_score <=? match_score t)).
  rewrite Hd. reflexivity.
Qed.

End InPlaceScoring.

Lemma run_scraper_scores_in_place_witness :
  InPlace.run_scraper InPlace.sample_heap InPlace.sample_list
    Samples.painting_profile 20
  = (let t := TenderFilter.score_tender Samples.painting_tender Samples.painting_profile in
     [t; t],
     let t := TenderFilter.score_tender Samples.painting_tender Samples.painting_profile in
     [t; TenderFilter.score_tender Samples.underwater_tender Samples.painting_profile; t]).
Proof.
  refine (eq_trans
    (run_scraper_scores_in_place Samples.painting_profile InPlace.sample_heap
       InPlace.sample_list 20 _) _).
  - repeat constructor.
  - vm_compute. reflexivity.
Defined.

(* ===================================================================== *)
(** * The report and the dashboard *)
(* ===================================================================== *)

Section Report.
Import TenderFilter ScoreRules ExcelExporter Webapp.

(** X22.  The colours of the score column.  A tender of the matched list is
    never grey when the threshold is 30 or more; a green or dark green
    tender, on either sheet, matched a work keyword and no exclude keyword;
    an excluded tender is grey. *)
Theorem score_fill_bands (tenders : list Tender) (p : Profile) (min_score : Z) :
  (30 <= min_score ->
   forall t, In t (filter_tenders tenders p min_score) ->
     _score_fill (match_score t) <> FILL_POOR)
  /\ (forall u,
        _score_fill (match_score (score_tender u p)) = FILL_GOOD
        \/ _score_fill (match_score (score_tender u p)) = FILL_EXCELLENT ->
        exclude_hits u p = [] /\ work_hits u p <> [])
  /\ (forall u, exclude_hits u p <> [] ->
        _score_fill (match_score (score_tender u p)) = FILL_POOR).
Proof.
  split; [|split].
  - intros Hms t Ht. apply filter_tenders_In in Ht as [_ Hs].
    unfold _score_fill.
    destruct (80 <=? match_score t); [discriminate|].
    destruct (60 <=? match_score t); [discriminate|].
    destruct (30 <=? match_score t) eqn:E; [discriminate|].
    apply Z.leb_gt in E. lia.
  - intros u H.
    assert (Hs : 60 <= match_score (score_tender u p)).
    { unfold _score_fill in H.
      destruct (80 <=? _) eqn:E1; [apply Z.leb_le in E1; lia|].
      destruct (60 <=? _) eqn:E2; [apply Z.leb_le in E2; lia|].
      destruct (30 <=? _); destruct H; discriminate. }
    pose proof (work_points_range (work_hits u p)) as Hw.
    pose proof (location_points_range (location_hits u p)) as Hl.
    pose proof (budget_points_range u p) as Hb.
    pose proof (portal_points_range u) as Hp.
    destruct (exclude_hits u p) eqn:E.
    + split; [reflexivity|]. intros H0.
      rewrite (score_tender_scored u p E) in Hs. cbn in Hs. unfold raw_score in Hs.
      rewrite H0 in Hs. cbn in Hs. lia.
    + rewrite score_tender_excluded in Hs by (rewrite E; discriminate).
      cbn in Hs. lia.
  - intros u He. rewrite (score_tender_excluded u p He). reflexivity.
Qed.

Lemma replace_absent (old new s : string) :
  PyStr.contains old s = false -> PyStr.replace old new s = s.
Proof.
  unfold PyStr.replace.
  induction s as [|c r IH]; intros H; [reflexivity|].
  cbn [PyStr.contains] in H. apply orb_false_iff in H as [Hp Hr].
  cbn [PyStr.replace_from]. rewrite Hp, (IH Hr). reflexivity.
Qed.

Lemma replace_from_skip (old new r s : string) :
  PyStr.replace_from old new (String.length r) (r ++ s) = PyStr.replace_from old new 0 s.
Proof.
  induction r as [|c r IH]; [reflexivity|]. cbn. exact IH.
Qed.

(** Removing [old] from a text that starts with it. *)
Lemma replace_leading (old s : string) :
  old <> "" ->
  PyStr.replace old "" (old ++ s) = PyStr.replace old "" s.
Proof.
  intros Hne. unfold PyStr.replace.
  destruct old as [|c o]; [contradiction|].
  assert (Hp : String.prefix (String c o) (String c o ++ s) = true)
    by (apply prefix_app; eexists; reflexivity).
  change (String c o ++ s)%string with (String c (o ++ s)) in *.
  cbn [PyStr.replace_from]. rewrite Hp.
  cbn [String.length String.append].
  replace (S (String.length o) - 1)%nat with (String.length o) by lia.
  apply replace_from_skip.
Qed.

Lemma shown_keyword_LOC (h : string) :
  shown_keyword ("LOC:" ++ h) = shown_keyword h.
Proof.
  unfold shown_keyword. rewrite replace_leading by discriminate. reflexivity.
Qed.

Lemma shown_keyword_EXCLUDED (h : string) :
  shown_keyword ("EXCLUDED:" ++ h) = shown_keyword h.
Proof.
  unfold shown_keyword.
  replace (PyStr.replace "LOC:" "" ("EXCLUDED:" ++ h))
    with ("EXCLUDED:" ++ PyStr.replace "LOC:" "" h)%string by reflexivity.
  rewrite replace_leading by discriminate. reflexivity.
Qed.

(** X23.  The keywords that the dashboard shows are the tags of the
    tender with their marks taken off: for an excluded tender the exclude
    keywords that hit, for any other the work keywords that hit followed by
    the locations that hit, each cleaned as a tag is; for a keyword that
    holds neither mark the cleaning only strips the blanks at its ends.
    The list no longer tells an exclude keyword from a work keyword. *)
Theorem dashboard_keywords (t : Tender) (p : Profile) :
  kws (score_tender t p)
  = List.map shown_keyword
      (match exclude_hits t p with
       | [] => (work_hits t p ++ location_hits t p)%list
       | hits => hits
       end)
  /\ (forall k, PyStr.contains "LOC:" k = false ->
        PyStr.contains "EXCLUDED:" k = false ->
        shown_keyword k = PyStr.strip k).
Proof.
  split.
  - unfold kws. destruct (exclude_hits t p) as [|e es] eqn:E.
    + rewrite (score_tender_scored t p E). cbn [matched_keywords set_matched_keywords].
      unfold tags. rewrite !List.map_app, List.map_map.
      f_equal. apply List.map_ext. intros h. apply shown_keyword_LOC.
    + rewrite score_tender_excluded by (rewrite E; discriminate).
      cbn [matched_keywords set_matched_keywords]. rewrite E, List.map_map.
      apply List.map_ext. intros h. apply shown_keyword_EXCLUDED.
  - intros k H1 H2. unfold shown_keyword.
    rewrite (replace_absent _ _ _ H1), (replace_absent _ _ _ H2). reflexivity.
Qed.

Lemma scraper_progress_bounds (n i : nat) (x : Z) :
  (i < n)%nat -> In x (scraper_progress (Z.of_nat n) (Z.of_nat i)) -> 5 <= x <= 72.
Proof.
  intros Hi Hx.
  assert (Hd : forall k, 0 <= k <= Z.of_nat n -> 0 <= k * 67 / Z.of_nat n <= 67).
  { intros k Hk. split; [apply Z.div_pos; lia|].
    apply Z.div_le_upper_bound; nia. }
  destruct Hx as [<-|[<-|[]]].
  - specialize (Hd (Z.of_nat i) ltac:(lia)). lia.
  - specialize (Hd (Z.of_nat i + 1) ltac:(lia)). lia.
Qed.

Lemma progress_steps_sorted (n : nat) (tail : list Z) :
  (0 < n)%nat -> Sorted Z.le (72 :: tail) ->
  forall count a, (a + count = n)%nat ->
  Sorted Z.le
    (5 + Z.of_nat a * 67 / Z.of_nat n
     :: flat_map (fun i => scraper_progress (Z.of_nat n) (Z.of_nat i)) (seq a count)
     ++ tail)%list.
Proof.
  intros Hn Htail. induction count as [|count IH]; intros a Ha.
  - cbn [seq flat_map List.app].
    assert (Hlast : 5 + Z.of_nat a * 67 / Z.of_nat n = 72).
    { replace a with n by lia. rewrite Z.mul_comm, Z.div_mul by lia. reflexivity. }
    rewrite Hlast. exact Htail.
  - cbn [seq flat_map scraper_progress List.app].
    specialize (IH (S a) ltac:(lia)).
    rewrite Nat2Z.inj_succ in IH. unfold Z.succ in IH.
    constructor; [|constructor; lia].
    constructor; [exact IH|]. constructor.
    apply Z.add_le_mono_l, Z.div_le_mono; lia.
Qed.

(** X24.  The progress of a scrape that ends without exception never moves
    backwards, stays between 0 and 100 and ends at 100, whatever the number
    of scrapers: none (the division by their number is then never made),
    one, two or more. *)
Theorem progress_never_decreases (n : nat) :
  Sorted Z.le (progress_trace n)
  /\ Forall (fun x => 0 <= x <= 100) (progress_trace n)
  /\ List.last (progress_trace n) 0 = 100.
Proof.
  split; [|split].
  - unfold progress_trace. destruct n as [|n].
    + cbn. repeat constructor; lia.
    + assert (Htail : Sorted Z.le [72; 75; 88; 98; 100])
        by (repeat constructor; lia).
      pose proof (progress_steps_sorted (S n) _ ltac:(lia) Htail (S n) 0%nat eq_refl) as H.
      cbn [seq flat_map scraper_progress List.app] in H |- *.
      constructor; [|constructor].
      * inversion H; assumption.
      * change (Z.of_nat 0) with 0. rewrite Z.mul_0_l, Z.div_0_l by lia. lia.
  - unfold progress_trace. constructor; [lia|].
    apply Forall_app. split; [|repeat constructor; lia].
    apply List.Forall_forall. intros x Hx.
    apply in_flat_map in Hx as [i [Hi Hx]]. apply in_seq in Hi.
    pose proof (scraper_progress_bounds n i x ltac:(lia) Hx). lia.
  - unfold progress_trace.
    change (0 :: ?l ++ [75; 88; 98; 100])%list
      with ((0 :: l) ++ [75; 88; 98] ++ [100])%list.
    rewrite app_assoc. apply last_last.
Qed.

(** X25.  The server never runs two scrapes at once.  In every state it can
    reach there is at most one scrape thread that has not finished, there is
    one exactly when the status is "running", and a request to start a
    scrape is accepted (202) exactly when there is none and refused (409)
    otherwise. *)
Theorem one_scrape_at_a_time (a : app) :
  reachable a ->
  (workers a <= 1)%nat
  /\ (workers a = 1%nat <-> scrape_status a = "running")
  /\ ((trigger_scrape a).1 = 202 <-> workers a = 0%nat)
  /\ ((trigger_scrape a).1 = 409 <-> workers a = 1%nat).
Proof.
  intros H.
  assert (Hinv : (scrape_status a = "running" /\ workers a = 1%nat)
                 \/ (scrape_status a <> "running" /\ workers a = 0%nat)).
  { induction H as [|a H IH|a ok H IH Hw].
    - right. split; [discriminate | reflexivity].
    - unfold trigger_scrape.
      destruct (String.eqb_spec (scrape_status a) "running") as [E|E]; cbn [snd].
      + exact IH.
      + left. destruct IH as [[IH _]|[_ IH]]; [contradiction|].
        cbn. rewrite IH. split; reflexivity.
    - destruct IH as [[_ IH]|[_ IH]]; [|lia].
      right. cbn. rewrite IH. split; [destruct ok; discriminate | reflexivity]. }
  unfold trigger_scrape.
  destruct Hinv as [[Hs Hw]|[Hs Hw]]; rewrite Hw.
  - rewrite Hs. cbn. repeat split; try lia; try discriminate; reflexivity.
  - destruct (String.eqb_spec (scrape_status a) "running") as [E|E];
      [contradiction|]. cbn.
    repeat split; try lia; try discriminate; try reflexivity.
    intros E'. contradiction.
Qed.

End Report.

Lemma score_fill_bands_witness :
  ExcelExporter._score_fill
    (match_score (TenderFilter.score_tender Samples.painting_tender Samples.painting_profile))
  <> ExcelExporter.FILL_POOR
  /\ ExcelExporter._score_fill
       (match_score (TenderFilter.score_tender Samples.underwater_tender Samples.painting_profile))
     = ExcelExporter.FILL_POOR.
Proof.
  destruct (score_fill_bands [Samples.painting_tender] Samples.painting_profile 30)
    as [Hgrey [_ Hexcl]].
  split.
  - apply Hgrey; [lia|]. vm_compute. left. reflexivity.
  - apply Hexcl. vm_compute. discriminate.
Defined.

Lemma dashboard_keywords_witness :
  Webapp.kws (TenderFilter.score_tender Samples.painting_tender Samples.painting_profile)
  = ["painting"; "Visakhapatnam"]
  /\ Webapp.kws (TenderFilter.score_tender Samples.underwater_tender Samples.painting_profile)
     = ["underwater"].
Proof.
  split.
  - refine (eq_trans (proj1 (dashboard_keywords Samples.painting_tender
                               Samples.painting_profile)) _).
    vm_compute. reflexivity.
  - refine (eq_trans (proj1 (dashboard_keywords Samples.underwater_tender
                               Samples.painting_profile)) _).
    vm_compute. reflexivity.
Defined.

Lemma one_scrape_at_a_time_witness :
  (Webapp.trigger_scrape Webapp.initial).1 = 202
  /\ (Webapp.trigger_scrape (Webapp.trigger_scrape Webapp.initial).2).1 = 409.
Proof.
  split.
  - apply (one_scrape_at_a_time Webapp.initial); [constructor | reflexivity].
  - apply (one_scrape_at_a_time (Webapp.trigger_scrape Webapp.initial).2);
      [constructor; constructor | reflexivity].
Defined.

Lemma row_budget_first_candidate_witness :
  ApScraper.float_truthy (PyFloat.of_Z 1220260900) = true
  /\ ApScraper.not_negative (PyFloat.of_Z 1220260900) = true.
Proof.
  destruct (row_budget_first_candidate
              ["1"; "AP/9"; "Road works"; "R&B"; "Open";
               "12-Jan-2026 09:00 AM"; "₹ 4,50,000"])
    as [_ [Hkept [_ [Hrow _]]]].
  exact (Hkept _ _ Hrow).
Defined.

Lemma hsl_scrape_portal_first_witness :
  HslScraper.scrape [Merge.first_seen] [Merge.seen_again; Merge.untitled_id]
  = [Merge.first_seen; Merge.untitled_id]
  /\ exists extra,
       HslScraper.scrape [Merge.first_seen] [Merge.seen_again; Merge.untitled_id]
       = (HslScraper.dedup [Merge.first_seen] ++ extra)%list
       /\ Merge.seen_again ∉ extra.
Proof.
  split; [vm_compute; reflexivity|].
  destruct (hsl_scrape_portal_first [Merge.first_seen]
              [Merge.seen_again; Merge.untitled_id])
    as [extra [Heq [_ [_ [_ Hnot]]]]].
  exists extra. split; [exact Heq|].
  apply Hnot; [left|].
  exists Merge.first_seen. split; [left | reflexivity].
Defined.
